(** * The fitness journey notebook: repair of the exported logs, cleaning
    and merging of the two tables, and the properties its description
    states about them.

    The first part embeds the functions of [gymProgress.ipynb] together
    with the Python and pandas operations they are built from; the second
    part states and proves the properties. *)

From Stdlib Require Import Ascii QArith Qcanon.
From stdpp Require Import base list strings gmap sorting.

#[local] Open Scope nat_scope.

(** * Python values and exceptions

    Text is modelled by [string], whose characters are the code points
    below 256 (Latin-1).  A Python exception is a value of [exn]; a
    computation that may raise returns a [result]. *)

Inductive complaint : Type :=
  | TooManyCommas (i : nat) (line : string)
  | InvalidLiteral (s : string)
  | CannotConvertNaN
  | LengthMismatch.

Inductive exn : Type :=
  | StopIteration
  | IndexError
  | KeyError (key : string)
  | AttributeError
  | TypeError
  | OverflowError
  | InvalidIndexError
  | ValueError (what : complaint).

Inductive result (A : Type) : Type :=
  | Ok (a : A)
  | Raise (e : exn).
Arguments Ok {A} a.
Arguments Raise {A} e.

#[global] Instance result_ret : MRet result := λ A a, Ok a.
#[global] Instance result_bind : MBind result := λ A B f m,
  match m with
  | Ok a => f a
  | Raise e => Raise e
  end.
#[global] Instance result_fmap : FMap result := λ A B f m,
  match m with
  | Ok a => Ok (f a)
  | Raise e => Raise e
  end.

Module Py.

(** [c.isdigit()] on one character: the decimal digits and the three
    superscript digits of Latin-1 (U+00B2, U+00B3, U+00B9). *)
Definition isdigit (c : ascii) : bool :=
  let n := Ascii.nat_of_ascii c in
  ((48 <=? n) && (n <=? 57)) || (n =? 178) || (n =? 179) || (n =? 185).

(** The class [\d] of [re] on text: the decimal digits only. *)
Definition re_digit (c : ascii) : bool :=
  let n := Ascii.nat_of_ascii c in (48 <=? n) && (n <=? 57).

(** [s[0]] and [s[-1]] on a string. *)
Definition str_first (s : string) : result ascii :=
  match s with
  | EmptyString => Raise IndexError
  | String c _ => Ok c
  end.

Fixpoint str_last (s : string) : result ascii :=
  match s with
  | EmptyString => Raise IndexError
  | String c EmptyString => Ok c
  | String _ s' => str_last s'
  end.

(** [sep.join(parts)] *)
Fixpoint join (sep : string) (parts : list string) : string :=
  match parts with
  | [] => EmptyString
  | [p] => p
  | p :: ps => p +:+ sep +:+ join sep ps
  end.

(** [s.count(c)] for a one-character needle. *)
Fixpoint count (c : ascii) (s : string) : nat :=
  match s with
  | EmptyString => 0
  | String d s' => (if Ascii.eqb d c then 1 else 0) + count c s'
  end.

(** [s.split(c)] for a one-character separator: never the empty list. *)
Fixpoint split (c : ascii) (s : string) : list string :=
  match s with
  | EmptyString => [EmptyString]
  | String d s' =>
      if Ascii.eqb d c then EmptyString :: split c s'
      else match split c s' with
           | p :: ps => String d p :: ps
           | [] => [String d EmptyString]
           end
  end.

(** [l[0]], [l[-1]], [l[:-1]], [l[1:]], [l[:n]], [l[a:-b]], [l[-b:]] *)
Definition item0 {A} (l : list A) : result A :=
  match l with
  | [] => Raise IndexError
  | x :: _ => Ok x
  end.

Definition item_last {A} (l : list A) : result A :=
  match last l with
  | None => Raise IndexError
  | Some x => Ok x
  end.

Definition but_last {A} (l : list A) : list A := take (length l - 1) l.
Definition from1 {A} (l : list A) : list A := drop 1 l.
Definition upto {A} (n : nat) (l : list A) : list A := take n l.
Definition between {A} (a b : nat) (l : list A) : list A :=
  drop a (take (length l - b) l).
Definition last_n {A} (b : nat) (l : list A) : list A :=
  drop (length l - b) l.

(** [l[-1] = x] on a list. *)
Definition set_last {A} (l : list A) (x : A) : result (list A) :=
  match l with
  | [] => Raise IndexError
  | _ => Ok (but_last l ++ [x])
  end.

(** [re.match("\d{4}-\d{2}-\d{2}", s)]: a match anchored at the start. *)
Definition match_date (s : string) : bool :=
  match s with
  | String y1 (String y2 (String y3 (String y4 (String h1
      (String m1 (String m2 (String h2 (String d1 (String d2 _))))))))) =>
      re_digit y1 && re_digit y2 && re_digit y3 && re_digit y4
      && Ascii.eqb h1 "-" && re_digit m1 && re_digit m2
      && Ascii.eqb h2 "-" && re_digit d1 && re_digit d2
  | _ => false
  end.

(** Tests on the first and on the last character of a string. *)
Definition starts_with (P : ascii → bool) (s : string) : bool :=
match s with
| String c _ => P c
| EmptyString => false
end.

Definition ends_with (P : ascii → bool) (s : string) : bool :=
match str_last s with
| Ok c => P c
| Raise _ => false
end.

Definition is_blank (c : ascii) : bool := Ascii.eqb c " ".

(** [s[-n:]] and [s[:-n]] on a string, for [n > 0]. *)
Definition str_last_n (n : nat) (s : string) : string :=
  String.substring (String.length s - n) n s.
Definition str_but_last_n (n : nat) (s : string) : string :=
  String.substring 0 (String.length s - n) s.

(** [s.startswith(sub)] *)
Fixpoint startswith (sub s : string) : bool :=
  match sub, s with
  | EmptyString, _ => true
  | String _ _, EmptyString => false
  | String a sub', String b s' => Ascii.eqb a b && startswith sub' s'
  end.

(** [sub in s] *)
Fixpoint contains (sub s : string) : bool :=
  startswith sub s ||
  match s with
  | EmptyString => false
  | String _ s' => contains sub s'
  end.

(** [s.replace(old, new)] for a non-empty [old]: the occurrences of [old]
    are replaced from left to right, without overlap.  [skip] counts the
    characters of an occurrence still to be passed over. *)
Fixpoint replace_from (old new : string) (skip : nat) (s : string) : string :=
  match s with
  | EmptyString => EmptyString
  | String c s' =>
      match skip with
      | S k => replace_from old new k s'
      | 0 =>
          if startswith old s
          then new +:+ replace_from old new (String.length old - 1) s'
          else String c (replace_from old new 0 s')
      end
  end.
Definition replace (old new s : string) : string := replace_from old new 0 s.

(** The longest prefix of decimal digits. *)
Fixpoint digits_prefix (s : string) : string :=
  match s with
  | String c s' => if re_digit c then String c (digits_prefix s') else EmptyString
  | EmptyString => EmptyString
  end.

(** [re.search("(\d+)", s)]: the group of the leftmost match. *)
Fixpoint search_digits (s : string) : option string :=
  match s with
  | EmptyString => None
  | String c s' =>
      if re_digit c then Some (digits_prefix s) else search_digits s'
  end.

(** [re.search("(\d+,\d+)", s)]: [run] holds the digits read just before
    the position reached. *)
Fixpoint search_decimal_from (run s : string) : option string :=
  match s with
  | EmptyString => None
  | String c s' =>
      if re_digit c then search_decimal_from (run +:+ String c EmptyString) s'
      else if Ascii.eqb c ","
              && negb (bool_decide (run = EmptyString))
              && starts_with re_digit s'
      then Some (run +:+ String c (digits_prefix s'))
      else search_decimal_from EmptyString s'
  end.
Definition search_decimal (s : string) : option string :=
  search_decimal_from EmptyString s.

(** The number written by a string of decimal digits. *)
Definition digit_value (c : ascii) : Z := Z.of_nat (Ascii.nat_of_ascii c - 48).
Fixpoint digits_value_from (acc : Z) (s : string) : Z :=
  match s with
  | EmptyString => acc
  | String c s' => digits_value_from (10 * acc + digit_value c) s'
  end.
Definition digits_value (s : string) : Z := digits_value_from 0 s.

Fixpoint all_digits (s : string) : bool :=
  match s with
  | EmptyString => true
  | String c s' => re_digit c && all_digits s'
  end.

(** [int(s)] and [float(s)], on the literals the notebook hands them: a
    run of digits, and two runs of digits around a point. *)
Definition int (s : string) : result Z :=
  if all_digits s && negb (bool_decide (s = EmptyString))
  then Ok (digits_value s)
  else Raise (ValueError (InvalidLiteral s)).

Definition float (s : string) : result Qc :=
  match split "." s with
  | [whole] =>
      z ← int whole; mret (Qc_of_Z z)
  | [whole; frac] =>
      z ← int whole;
      f ← int frac;
      mret (Qc_of_Z z + Q2Qc (Qmake f (10 ^ Pos.of_nat (String.length frac))))%Qc
  | _ => Raise (ValueError (InvalidLiteral s))
  end.

(** Sets, as lists without repetition whose order stands for no order:
    [set(l)], [a.intersection(b)], [a - b] and
    [a.symmetric_difference(b)]. *)
Definition set_of {A} `{EqDecision A} (l : list A) : list A := remove_dups l.
Definition intersection {A} `{EqDecision A} (a b : list A) : list A :=
  list_intersection a b.
Definition symmetric_difference {A} `{EqDecision A} (a b : list A) : list A :=
  list_difference a b ++ list_difference b a.

End Py.

(** * Repair of the Progression export *)

(** [last_line[:-1] + [". ".join([last_line[-1], line[0]])] + line[1:]] *)
Definition glue (last_line line : list string) : result (list string) :=
  a ← Py.item_last last_line;
  b ← Py.item0 line;
  mret (Py.but_last last_line ++ [Py.join ". " [a; b]] ++ Py.from1 line).

(** The loop of [fix_linebreaks]: [reader] holds the rows not yet read. *)
Fixpoint fix_linebreaks_loop (fixed_lines : list (list string))
    (reader : list (list string)) : result (list (list string)) :=
  match reader with
  | [] => Ok fixed_lines
  | [] :: reader' =>
      match reader' with
      | [] => Raise StopIteration
      | next_line :: reader'' =>
          last_line ← Py.item_last fixed_lines;
          merged ← glue last_line next_line;
          fixed_lines' ← Py.set_last fixed_lines merged;
          fix_linebreaks_loop fixed_lines' reader''
      end
  | (field0 :: _) as line :: reader' =>
      if negb (Py.match_date field0) then
        last_line ← Py.item_last fixed_lines;
        merged ← glue last_line line;
        fixed_lines' ← Py.set_last fixed_lines merged;
        fix_linebreaks_loop fixed_lines' reader'
      else fix_linebreaks_loop (fixed_lines ++ [line]) reader'
  end.

Definition fix_linebreaks (reader : list (list string)) : result (list (list string)) :=
  match reader with
  | [] => Raise StopIteration
  | header :: reader' => fix_linebreaks_loop [header] reader'
  end.

(** [fixed_parts[-1] += x] *)
Definition extend_last (fixed_parts : list string) (x : string) : result (list string) :=
  p ← Py.item_last fixed_parts;
  Py.set_last fixed_parts (p +:+ x).

(** The inner loop of [replace_comma_in_comments] over
    [comment_parts[1:]]. *)
Fixpoint merge_comment_parts (fixed_parts : list string) (parts : list string)
    : result (list string) :=
  match parts with
  | [] => Ok fixed_parts
  | part :: parts' =>
      match part with
      | String c _ =>
          if Ascii.eqb c " " then
            fixed_parts' ← extend_last fixed_parts (";" +:+ part);
            merge_comment_parts fixed_parts' parts'
          else if Py.isdigit c then
            p ← Py.item_last fixed_parts;
            d ← Py.str_last p;
            if Py.isdigit d then
              fixed_parts' ← extend_last fixed_parts ("." +:+ part);
              merge_comment_parts fixed_parts' parts'
            else merge_comment_parts (fixed_parts ++ [part]) parts'
          else merge_comment_parts (fixed_parts ++ [part]) parts'
      | EmptyString => merge_comment_parts (fixed_parts ++ [part]) parts'
      end
  end.

(** The body of the outer loop for the row numbered [i]. *)
Definition fix_commas (column_count i : nat) (line : list string) : result (list string) :=
  let line := Py.join "," line in
  let comma_count := Py.count "," line in
  if column_count <? comma_count then
    let first_parts := Py.upto 14 (Py.split "," line) in
    let comment_parts := Py.between 14 2 (Py.split "," line) in
    let end_parts := Py.last_n 2 (Py.split "," line) in
    c0 ← Py.item0 comment_parts;
    fixed_parts ← merge_comment_parts [c0] (Py.from1 comment_parts);
    if 2 <? length fixed_parts then Raise (ValueError (TooManyCommas i line))
    else Ok (Py.split "," (Py.join "," (first_parts ++ fixed_parts ++ end_parts)))
  else Ok (Py.split "," line).

Fixpoint replace_comma_loop (column_count i : nat) (fixed_lines rows : list (list string))
    : result (list (list string)) :=
  match rows with
  | [] => Ok fixed_lines
  | line :: rows' =>
      line' ← fix_commas column_count i line;
      replace_comma_loop column_count (S i) (fixed_lines ++ [line']) rows'
  end.

Definition replace_comma_in_comments (rows : list (list string)) : result (list (list string)) :=
  match rows with
  | [] => Raise StopIteration
  | header_line :: rows' =>
      let column_count := Py.count "," (Py.join "," header_line) in
      replace_comma_loop column_count 0 [header_line] rows'
  end.

(** * The repairs as the specification words them *)

Definition commas (line : list string) : nat := Py.count "," (Py.join "," line).

(** [merged comment_parts fixed_parts]: the comment parts read from left to
    right, a part that starts with a space joined to its predecessor with
    [;], a part that starts with a digit joined with [.] to a predecessor
    that ends in a digit, any other part starting a new one. *)
Inductive merged : list string → list string → Prop :=
  | merged_one p : merged [p] [p]
  | merged_semicolon ps fs f p :
      merged ps (fs ++ [f]) →
      Py.starts_with Py.is_blank p = true →
      merged (ps ++ [p]) (fs ++ [f +:+ ";" +:+ p])
  | merged_point ps fs f p :
      merged ps (fs ++ [f]) →
      Py.starts_with Py.is_blank p = false →
      Py.starts_with Py.isdigit p = true →
      Py.ends_with Py.isdigit f = true →
      merged (ps ++ [p]) (fs ++ [f +:+ "." +:+ p])
  | merged_fresh ps fs f p :
      merged ps (fs ++ [f]) →
      Py.starts_with Py.is_blank p = false →
      Py.starts_with Py.isdigit p && Py.ends_with Py.isdigit f = false →
      merged (ps ++ [p]) (fs ++ [f; p]).

(** [repaired column_count line line']: what becomes of one data row. *)
Definition repaired (column_count : nat) (line line' : list string) : Prop :=
  let parts := Py.split "," (Py.join "," line) in
  if decide (commas line ≤ column_count) then line' = parts
  else ∃ fixed_parts,
      merged (Py.between 14 2 parts) fixed_parts
      ∧ length fixed_parts ≤ 2
      ∧ line' = Py.upto 14 parts ++ fixed_parts ++ Py.last_n 2 parts.


(** The comment parts of a row, as [fix_commas] slices them. *)
Definition comment_parts (line : list string) : list string :=
  Py.between 14 2 (Py.split "," (Py.join "," line)).


(** A row whose first field starts with a date. *)
Definition dated (line : list string) : bool :=
  match line with
  | field0 :: _ => Py.match_date field0
  | [] => false
  end.

(** [relinked rows fixed_lines]: the rows read from top to bottom.  A row
    that starts with a date is kept as a row of its own; a non-empty row
    that does not is a continuation, joined to the last field of the last
    kept row with [". "], its remaining fields appended; an empty row is
    dropped and the row after it treated as a continuation, whatever its
    first field. *)
Inductive relinked : list (list string) → list (list string) → Prop :=
  | relinked_header header : relinked [header] [header]
  | relinked_dated rows kept line :
      relinked rows kept →
      dated line = true →
      relinked (rows ++ [line]) (kept ++ [line])
  | relinked_continued rows kept init a b fields :
      relinked rows (kept ++ [init ++ [a]]) →
      Py.match_date b = false →
      relinked (rows ++ [b :: fields])
               (kept ++ [init ++ [a +:+ ". " +:+ b] ++ fields])
  | relinked_blank rows kept init a b fields :
      relinked rows (kept ++ [init ++ [a]]) →
      relinked (rows ++ [[]; b :: fields])
               (kept ++ [init ++ [a +:+ ". " +:+ b] ++ fields]).

(** Every empty row is directly followed by a non-empty one. *)
Fixpoint blanks_followed (rows : list (list string)) : bool :=
  match rows with
  | [] => true
  | [] :: rows' =>
      match rows' with
      | (_ :: _) :: rows'' => blanks_followed rows''
      | _ => false
      end
  | (_ :: _) :: rows' => blanks_followed rows'
  end.

(** * Exercise names *)

(** [singularize], with the set of names given as the list of its members
    in the order the loop meets them.  The dictionary is a finite map; a
    later pair for the same key overrides an earlier one, as in [dict]. *)
Definition singles_of (exercises : list string) : list (string * string) :=
  foldl (λ singles exercise,
    if bool_decide (Py.str_last_n 2 exercise = "es") then
      singles ++ [(exercise, Py.str_but_last_n 2 exercise)]
    else if bool_decide (Py.str_last_n 1 exercise = "s")
            && negb (bool_decide (Py.str_last_n 2 exercise = "ss")) then
      singles ++ [(exercise, Py.str_but_last_n 1 exercise)]
    else singles) [] exercises.

Definition dict (pairs : list (string * string)) : gmap string string :=
  foldl (λ d kv, <[kv.1 := kv.2]> d) ∅ pairs.

Definition keep_e (plural_exceptions : list string) (d : gmap string string)
    (exercise : string) : gmap string string :=
  foldl (λ d exception,
    if Py.contains exception exercise then
      let singular_replacement :=
        Py.replace (Py.str_but_last_n 2 exception)
                    (Py.str_but_last_n 1 exception) exercise in
      <[exercise := singular_replacement]> d
    else d) d plural_exceptions.

Definition singularize_with (plural_exceptions exercises : list string)
    : gmap string string :=
  let singles := singles_of exercises in
  let map_plural_to_singular := dict singles in
  foldl (keep_e plural_exceptions) map_plural_to_singular singles.*1.

Definition singularize (exercises : list string) : gmap string string :=
  singularize_with ["Lunges"; "Raises"] exercises.

(** The alias tables, as the notebook writes them. *)
Definition map_gymbook_to_progression : gmap string string := dict [
  ("Ab Wheel", "Ab Roller");
  ("Alternating Dumbbell Preacher Curl", "Alternating Dumbbell Curl");
  ("Arnold Press", "Arnold Dumbbell Press (Seated)");
  ("Back Extension", "Machine Hyperextension");
  ("Bulgarian Split Squat ", "Bulgarian Split Squat");
  ("Cable Fly", "Cable Back Fly");
  ("Calf Press in Leg Press", "Machine Calf Press");
  ("Chin-Up", "Chinup");
  ("Concentration Curl", "Dumbbell Concentration Curl");
  ("Crunch", "Weighted Crunch");
  ("Decline Push-Up", "Decline Pushup");
  ("Dumbbell Lateral Raise", "Dumbbell Side Raise");
  ("Dumbbell Press", "Dumbbell Shoulder Press");
  ("Dumbbell Row", "Bent-Over Dumbbell Row");
  ("Dumbbell Skullcrusher", "Lying Dumbbell Skull Crusher");
  ("Hammer Curl", "Dumbbell Hammer Curl");
  ("Kneeling Cable Crunch", "Cable Crunch");
  ("Lat Pull-Down", "Machine Lat Pulldown");
  ("Leg Extension", "Machine Leg Extension");
  ("Leg Press", "Machine Leg Press");
  ("Low Cable One-Arm Lateral Raise", "Cable Side Raise");
  ("Lying Dumbbell Triceps Extension", "Dumbbell Triceps Extension");
  ("Lying EZ-Bar Triceps Extension", "Lying Barbell Skull Crusher");
  ("Lying Leg Curl", "Machine Lying Leg Curl");
  ("Machine Back Extension", "Machine Hyperextension");
  ("Machine Hip Abduction", "Machine Thigh Abduction (Out)");
  ("Machine Trunk Rotation", "Torso Rotation Machine");
  ("One-Leg Leg Extension", "Machine Single-Leg Extension");
  ("Power Clean", "Barbell Power Clean");
  ("Pullups Weighted ", "Weighted Pullup");
  ("Push Down", "Cable Pushdown (with Bar Handle)");
  ("Push Press", "Barbell Push Press");
  ("Push-Up", "Pushup");
  ("Seated Leg Curl", "Machine Leg Curl");
  ("Seated Machine Hip Abduction", "Machine Thigh Abduction (Out)");
  ("Seated Machine Row", "Machine Row");
  ("Standing Calf Raise", "Machine Calf Raise");
  ("Standing Machine Calf Raise", "Machine Calf Raise");
  ("Wide-Grip Lat Pull-Down", "Wide-Grip Machine Lat Pulldown")
].

Definition map_progression_to_gymbook : gmap string string := dict [
  ("Barbell Curl", "EZ-Bar Curl");
  ("Bent-Over Barbell Row", "Barbell Row");
  ("Butterfly Reverse", "Reverse Machine Fly");
  ("Cable Row", "Seated Cable Row");
  ("Dumbbell Pullover (Targeting back)", "Dumbbell Lat Pullover");
  ("Farmer's Walk (with Dumbbells)", "Farmers Walk");
  ("Farmer's Walk (with Weight Plate)", "Farmers Walk");
  ("Machine Calf Press", "Calf Press In Leg Press");
  ("Press around", "Press Around");
  ("Romanian Deadlift", "Barbell Romanian Deadlift");
  ("Stiff-Leg Deadlift (Wide Stance)", "Straight-Leg Barbell Deadlift");
  ("Sumo Deadlift", "Barbell Sumo Deadlift");
  ("Weighted pistol squat", "Pistol squat")
].

Definition map_rename_in_both : gmap string string := dict [
  ("Close-Grip Lat Pull-Down", "Close-Grip Machine Lat Pull-Down");
  ("Machine Bench Press", "Seated Machine Bench Press");
  ("Parallel Bar Dip", "Dip");
  ("Barbell Shrug (Behind the Back)", "Barbell Shrug");
  ("Chest Dip", "Dip");
  ("Machine Bench Press", "Seated Machine Bench Press")
].

(** The plural names and their singular, as the specification words them. *)
Definition plural (exercise : string) : bool :=
  bool_decide (Py.str_last_n 2 exercise = "es")
  || (bool_decide (Py.str_last_n 1 exercise = "s")
      && negb (bool_decide (Py.str_last_n 2 exercise = "ss"))).

Definition singular (exercise : string) : string :=
  if bool_decide (Py.str_last_n 2 exercise = "es")
  then Py.str_but_last_n 2 exercise
  else Py.str_but_last_n 1 exercise.

(** * Tables

    A table has column labels and records, each record an index label and
    one cell per column.  A cell is missing ([NaN], which stands for [NaT]
    and [None] as well), a text, a number, a time stamp or a duration, both
    in seconds.  Floating-point numbers are modelled by exact rationals:
    rounding is outside the model.  The kind of a column is read off its
    cells. *)
Module Pd.

Inductive cell : Type :=
  | NaN
  | Str (s : string)
  | Num (q : Qc)
  | Timestamp (t : Z)
  | Delta (d : Z).

#[global] Instance cell_eq_dec : EqDecision cell.
Proof. solve_decision. Defined.

Record DataFrame : Type := mkDataFrame {
  columns : list string;
  records : list (Z * list cell)
}.

Definition index (df : DataFrame) : list Z := (records df).*1.

(** Distinct column labels and one cell per column in every record, as
    in a table read by [read_csv]. *)
Definition wf (df : DataFrame) : Prop :=
  NoDup (columns df)
  ∧ Forall (λ r, length r.2 = length (columns df)) (records df).

Definition position (name : string) (cols : list string) : option nat :=
  fst <$> list_find (λ c, c = name) cols.

Definition field (k : nat) (r : list cell) : cell := default NaN (r !! k).

(** [df[name]] *)
Definition getitem (df : DataFrame) (name : string) : result (list cell) :=
  match position name (columns df) with
  | None => Raise (KeyError name)
  | Some k => Ok ((λ r, field k r.2) <$> records df)
  end.

(** [df[name] = vals], for values that carry the index of [df]. *)
Definition setitem (df : DataFrame) (name : string) (vals : list cell)
    : result DataFrame :=
  if bool_decide (length vals = length (records df)) then
    match position name (columns df) with
    | Some k =>
        Ok {| columns := columns df;
              records := zip_with (λ r v, (r.1, <[k := v]> r.2)) (records df) vals |}
    | None =>
        Ok {| columns := columns df ++ [name];
              records := zip_with (λ r v, (r.1, r.2 ++ [v])) (records df) vals |}
    end
  else Raise (ValueError LengthMismatch).

(** [series == s] *)
Definition eq_str (vals : list cell) (s : string) : list bool :=
  (λ c, bool_decide (c = Str s)) <$> vals.

(** [df[mask]] for a Boolean mask that carries the index of [df]. *)
Definition loc_mask (df : DataFrame) (mask : list bool) : DataFrame :=
  {| columns := columns df;
     records := (filter (λ rm, rm.2 = true) (zip (records df) mask)).*1 |}.

(** [df.drop(labels, errors="ignore")]: every record whose label is
    listed goes. *)
Definition drop (df : DataFrame) (labels : list Z) : DataFrame :=
  {| columns := columns df;
     records := filter (λ r, r.1 ∉ labels) (records df) |}.

(** [df.rename(columns=mapping)] *)
Definition rename (df : DataFrame) (mapping : gmap string string) : DataFrame :=
  {| columns := (λ c, default c (mapping !! c)) <$> columns df;
     records := records df |}.

(** [series.replace(mapping)]: every value that is a key is replaced by
    what the key maps to, all at once. *)
Definition replace (vals : list cell) (mapping : gmap string string) : list cell :=
  (λ c, match c with
        | Str s => Str (default s (mapping !! s))
        | _ => c
        end) <$> vals.

(** [series.nunique()]: the distinct values, missing ones left out. *)
Definition nunique (vals : list cell) : nat :=
  length (remove_dups (filter (λ c, c ≠ NaN) vals)).

(** The [.str] accessor: granted on a column of texts and missing
    values, and not on a non-empty column without any text (which
    [read_csv] types as numeric). *)
Definition is_text (c : cell) : bool :=
  match c with Str _ => true | _ => false end.
Definition is_missing (c : cell) : bool :=
  match c with NaN => true | _ => false end.

Definition str (vals : list cell) : result (list cell) :=
  if forallb (λ c, is_text c || is_missing c) vals
     && (bool_decide (vals = []) || existsb is_text vals)
  then Ok vals else Raise AttributeError.

(** [series.str.extract(pattern)] for a pattern with one group, [search]
    giving the group of the leftmost match. *)
Definition str_extract (search : string → option string) (vals : list cell)
    : result (list cell) :=
  texts ← str vals;
  mret ((λ c, match c with
              | Str s => from_option Str NaN (search s)
              | _ => NaN
              end) <$> (texts : list cell)).

(** [frame.replace(old, new, regex=True)] for one-character literals. *)
Definition replace_regex (old new : string) (vals : list cell) : list cell :=
  (λ c, match c with
        | Str s => Str (Py.replace old new s)
        | _ => c
        end) <$> vals.

(** [astype(int)] and [astype(float)] *)
Definition astype_int (vals : list cell) : result (list cell) :=
  mapM (λ c, match c with
             | Str s =>
                 z ← Py.int s;
                 if bool_decide (z < 2 ^ 63)%Z then Ok (Num (Qc_of_Z z))
                 else Raise OverflowError
             | Num q => Ok (Num (Qc_of_Z (Qnum q ÷ Z.pos (Qden q))))
             | NaN => Raise (ValueError CannotConvertNaN)
             | Timestamp _ | Delta _ => Raise TypeError
             end) vals.

Definition astype_float (vals : list cell) : result (list cell) :=
  mapM (λ c, match c with
             | Str s => q ← Py.float s; mret (Num q)
             | Num q => Ok (Num q)
             | NaN => Ok NaN
             | Timestamp _ | Delta _ => Raise TypeError
             end) vals.

(** [series.fillna(v)] *)
Definition fillna (v : cell) (vals : list cell) : list cell :=
  (λ c, match c with NaN => v | _ => c end) <$> vals.

(** [series.dt.date], as day numbers, and [series.dt.seconds] *)
Definition dt_date (vals : list cell) : result (list (option Z)) :=
  mapM (λ c, match c with
             | Timestamp t => Ok (Some (t `div` 86400)%Z)
             | NaN => Ok None
             | _ => Raise AttributeError
             end) vals.

Definition dt_seconds (vals : list cell) : result (list cell) :=
  mapM (λ c, match c with
             | Delta d => Ok (Num (Qc_of_Z (d `mod` 86400)%Z))
             | NaN => Ok NaN
             | _ => Raise AttributeError
             end) vals.

(** [series.max()], [series.min()], [a - b], [series + n],
    [a * b] and [series.sum()]; missing values are skipped by the
    reductions and passed on by the arithmetic. *)
Definition extreme (pick : Z → Z → Z) (pickq : Qc → Qc → Qc) (a b : cell)
    : result cell :=
  match a, b with
  | NaN, _ => Ok b
  | _, NaN => Ok a
  | Timestamp x, Timestamp y => Ok (Timestamp (pick x y))
  | Delta x, Delta y => Ok (Delta (pick x y))
  | Num x, Num y => Ok (Num (pickq x y))
  | Str x, Str y => Raise TypeError
  | _, _ => Raise TypeError
  end.

Definition reduce (op : cell → cell → result cell) (vals : list cell) : result cell :=
  foldl (λ acc c, a ← acc; op a c) (Ok NaN) vals.

Definition Qc_max (x y : Qc) : Qc := if bool_decide (x ≤ y)%Qc then y else x.
Definition Qc_min (x y : Qc) : Qc := if bool_decide (x ≤ y)%Qc then x else y.
Definition max (vals : list cell) : result cell := reduce (extreme Z.max Qc_max) vals.
Definition min (vals : list cell) : result cell := reduce (extreme Z.min Qc_min) vals.

Definition sub (a b : cell) : result cell :=
  match a, b with
  | NaN, _ | _, NaN => Ok NaN
  | Timestamp x, Timestamp y => Ok (Delta (x - y))
  | Timestamp x, Delta y => Ok (Timestamp (x - y))
  | Delta x, Delta y => Ok (Delta (x - y))
  | Num x, Num y => Ok (Num (x - y))
  | _, _ => Raise TypeError
  end.

Definition add_scalar (n : Qc) (vals : list cell) : result (list cell) :=
  mapM (λ c, match c with
             | Num q => Ok (Num (q + n))
             | NaN => Ok NaN
             | _ => Raise TypeError
             end) vals.

Definition mul_cell (a b : cell) : result cell :=
  match a, b with
  | Num x, Num y => Ok (Num (x * y))
  | NaN, (NaN | Num _) | Num _, NaN => Ok NaN
  | _, _ => Raise TypeError
  end.

Definition mul (a b : list cell) : result (list cell) :=
  mapM (λ xy, mul_cell xy.1 xy.2) (zip a b).

Definition sum (vals : list cell) : result cell :=
  foldl (λ acc c, a ← acc;
           match a, c with
           | Num x, Num y => Ok (Num (x + y))
           | _, NaN => Ok a
           | _, _ => Raise TypeError
           end) (Ok (Num 0)) vals.

(** Groups.  A key is [None] where a grouping value is missing; such
    records belong to no group. *)
Definition key_of (c : cell) : option cell :=
  match c with NaN => None | _ => Some c end.

Definition pair_keys {A B} (a : list (option A)) (b : list (option B))
    : list (option (A * B)) :=
  zip_with (λ x y, x ← x; y ← y; mret (x, y)) a b.

Definition group_of {K A} `{EqDecision K} (k : K) (keys : list (option K))
    (vals : list A) : list A :=
  (filter (λ kv, kv.1 = Some k) (zip keys vals)).*2.

(** [groupby(keys)[column].transform(f)] *)
Definition groupby_transform {K} `{EqDecision K} (keys : list (option K))
    (vals : list cell) (f : list cell → result cell) : result (list cell) :=
  mapM (λ k, match k with
             | None => Ok NaN
             | Some k => f (group_of k keys vals)
             end) keys.

(** [groupby(keys).cumcount()]: [seen] holds the keys already met. *)
Fixpoint cumcount_from {K} `{EqDecision K} (seen : list (option K))
    (keys : list (option K)) : list cell :=
  match keys with
  | [] => []
  | k :: keys' =>
      match k with
      | None => NaN
      | Some _ => Num (Qc_of_Z (Z.of_nat (length (filter (λ k', k' = k) seen))))
      end :: cumcount_from (seen ++ [k]) keys'
  end.
Definition cumcount {K} `{EqDecision K} (keys : list (option K)) : list cell :=
  cumcount_from [] keys.


(** [pd.concat([df1, df2])]: the columns of both, each record widened
    with missing cells. *)
Definition widen (cols cols' : list string) (r : Z * list cell) : Z * list cell :=
  (r.1, (λ name, match position name cols with
                 | Some k => field k r.2
                 | None => NaN
                 end) <$> cols').

Definition concat (df1 df2 : DataFrame) : result DataFrame :=
  if bool_decide (NoDup (columns df1)) && bool_decide (NoDup (columns df2)) then
    let cols := columns df1 ++ filter (λ c, c ∉ columns df1) (columns df2) in
    Ok {| columns := cols;
          records := (widen (columns df1) cols <$> records df1)
                     ++ (widen (columns df2) cols <$> records df2) |}
  else Raise InvalidIndexError.

(** [df.sort_values(name, ascending=False)] on a column of time stamps:
    latest first, missing ones last. *)
Definition later (a b : option Z) : Prop :=
  match a, b with
  | Some x, Some y => (y ≤ x)%Z
  | _, None => True
  | None, Some _ => False
  end.

#[global] Instance later_dec : RelDecision later.
Proof. intros [x|] [y|]; simpl; apply _. Defined.

Definition later_keyed {A} (a b : option Z * A) : Prop := later a.1 b.1.

#[global] Instance later_keyed_dec {A} : RelDecision (@later_keyed A).
Proof. intros a b. unfold later_keyed. apply _. Defined.

Definition as_time (c : cell) : result (option Z) :=
  match c with
  | Timestamp t => Ok (Some t)
  | NaN => Ok None
  | _ => Raise TypeError
  end.

Definition sort_values_desc (df : DataFrame) (name : string) : result DataFrame :=
  vals ← getitem df name;
  keys ← mapM as_time vals;
  mret {| columns := columns df;
          records := (merge_sort later_keyed (zip keys (records df))).*2 |}.

(** [df.drop(labels, axis=1, errors="ignore")]: every column whose label
    is listed goes, with its cells. *)
Definition keep_cells (cols labels : list string) (r : list cell) : list cell :=
  (filter (λ cv, cv.1 ∉ labels) (zip cols r)).*2.

Definition drop_columns (df : DataFrame) (labels : list string) : DataFrame :=
  {| columns := filter (λ c, c ∉ labels) (columns df);
     records := (λ r, (r.1, keep_cells (columns df) labels r.2)) <$> records df |}.

(** [df.drop(labels, axis=1)]: as above, but a label that is no column
    raises [KeyError]; its message lists the missing labels, written
    between single quotes as Python writes a text without quotes or
    backslashes. *)
Definition not_found (missing : list string) : string :=
  "[" +:+ Py.join ", " ((λ l, "'" +:+ l +:+ "'") <$> missing)
  +:+ "] not found in axis".

Definition drop_columns_strict (df : DataFrame) (labels : list string)
    : result DataFrame :=
  match filter (λ l, l ∉ columns df) labels with
  | [] => Ok (drop_columns df labels)
  | missing => Raise (KeyError (not_found missing))
  end.

(** [series + s] for a text [s]: granted on a column of texts and
    missing values (an empty column, or one with a text in it), and
    [TypeError] on any other column.  The result holds texts and missing
    values only. *)
Definition add_str (vals : list cell) (s : string) : result (list (option string)) :=
  if forallb (λ c, is_text c || is_missing c) vals
     && (bool_decide (vals = []) || existsb is_text vals)
  then Ok ((λ c, match c with Str a => Some (a +:+ s) | _ => None end) <$> vals)
  else Raise TypeError.

(** [a + b] for a column [a] of texts and missing values and a column
    [b] of the same table: text is appended to text, a missing value on
    either side gives a missing value, and a text does not add to a
    number, nor anything to a time stamp or a duration. *)
Definition add_series (a : list (option string)) (b : list cell)
    : result (list (option string)) :=
  mapM (λ ab, match ab with
              | (_, (Timestamp _ | Delta _)) => Raise TypeError
              | (Some _, Num _) => Raise TypeError
              | (Some x, Str y) => Ok (Some (x +:+ y))
              | (None, _) | (_, NaN) => Ok None
              end) (zip a b).

(** [pd.to_datetime(series, format=format)] on texts and missing values.
    [strptime format s] is the time stamp that the text [s] writes in the
    format, if it does; pandas' parser is left abstract.  A text that does
    not fit the format raises [ValueError], which carries the text. *)
Definition to_datetime (strptime : string → string → option Z) (format : string)
    (vals : list (option string)) : result (list cell) :=
  mapM (λ v, match v with
             | None => Ok NaN
             | Some s =>
                 match strptime format s with
                 | Some t => Ok (Timestamp t)
                 | None => Raise (ValueError (InvalidLiteral s))
                 end
             end) vals.

(** [series.dt.weekday]: Monday is 0, and day 0, the first of January
    1970, was a Thursday. *)
Definition dt_weekday (vals : list cell) : result (list cell) :=
  mapM (λ c, match c with
             | Timestamp t => Ok (Num (Qc_of_Z ((t `div` 86400 + 3) `mod` 7)%Z))
             | NaN => Ok NaN
             | _ => Raise AttributeError
             end) vals.

(** [series.map(mapping)] for a dict with whole numbers as keys: a value
    that is no key becomes missing. *)
Definition map_dict (mapping : gmap Z string) (vals : list cell) : list cell :=
  (λ c, match c with
        | Num q =>
            if bool_decide (Qden q = 1%positive)
            then from_option Str NaN (mapping !! Qnum q)
            else NaN
        | _ => NaN
        end) <$> vals.

(** [series == x] for a value [x], [series != s], and [a & b] *)
Definition eq_val (vals : list cell) (x : cell) : list bool :=
  (λ c, bool_decide (c = x) && negb (is_missing x)) <$> vals.

(** [series.replace(old, new)] for two values. *)
Definition replace_value (old new : cell) (vals : list cell) : list cell :=
  (λ c, if bool_decide (c = old) then new else c) <$> vals.

(** [df.loc[mask, name] = v] for a Boolean mask that carries the index of
    [df]; a column that is not there is added, missing where the mask is
    false. *)
Definition loc_set (df : DataFrame) (mask : list bool) (name : string) (v : cell)
    : DataFrame :=
  match position name (columns df) with
  | Some k =>
      {| columns := columns df;
         records := zip_with (λ r (m : bool), if m then (r.1, <[k := v]> r.2) else r)
                      (records df) mask |}
  | None =>
      {| columns := columns df ++ [name];
         records := zip_with (λ r (m : bool), (r.1, r.2 ++ [if m then v else NaN]))
                      (records df) mask |}
  end.

End Pd.

(** * Cleaning and merging the two logs *)

Definition remove_skipped_sets (df : Pd.DataFrame) : result Pd.DataFrame :=
  ausgelassen ← Pd.getitem df "Ausgelassen";
  let skipped_sets := Pd.loc_mask df (Pd.eq_str ausgelassen "Ja") in
  let df_no_skipped_sets := Pd.drop df (Pd.index skipped_sets) in
  mret df_no_skipped_sets.



Definition convert_columns (df : Pd.DataFrame) : result Pd.DataFrame :=
  repetitions ← Pd.getitem df "Repetitions";
  extracted ← Pd.str_extract Py.search_digits repetitions;
  repetitions ← Pd.astype_int extracted;
  df ← Pd.setitem df "Repetitions" repetitions;
  weight ← Pd.getitem df "Weight";
  extracted ← Pd.str_extract Py.search_decimal weight;
  weight ← Pd.astype_float (Pd.replace_regex "," "." extracted);
  Pd.setitem df "Weight" weight.


Definition extend_gymbook_df (df : Pd.DataFrame) : result Pd.DataFrame :=
  time ← Pd.getitem df "Time";
  dates ← Pd.dt_date time;
  time ← Pd.getitem df "Time";
  spans ← Pd.groupby_transform dates time
             (λ x, latest ← Pd.max x; earliest ← Pd.min x; Pd.sub latest earliest);
  seconds ← Pd.dt_seconds spans;
  df ← Pd.setitem df "Session Duration (s)" seconds;
  time ← Pd.getitem df "Time";
  dates ← Pd.dt_date time;
  names ← Pd.getitem df "Exercise Name";
  order ← Pd.add_scalar 1 (Pd.cumcount (Pd.pair_keys dates (Pd.key_of <$> names)));
  Pd.setitem df "Set Order" order.

(** The cell that merges the two tables into [df]. *)
Definition unified_df (df_progression df_gymbook : Pd.DataFrame) : result Pd.DataFrame :=
  df ← Pd.concat df_progression df_gymbook;
  df ← Pd.sort_values_desc df "Time";
  weight ← Pd.getitem df "Weight";
  weight ← Pd.astype_float (Pd.fillna (Pd.Num 0) weight);
  Pd.setitem df "Weight" weight.

Definition calculate_volumne (group : Pd.DataFrame) : result Pd.cell :=
  repetitions ← Pd.getitem group "Repetitions";
  weight ← Pd.getitem group "Weight";
  products ← Pd.mul repetitions weight;
  Pd.sum products.


(** * The tables as the specification words them *)

(** A record marked as skipped in the column at position [k]. *)
Definition skipped (k : nat) (r : Z * list Pd.cell) : Prop :=
  Pd.field k r.2 = Pd.Str "Ja".

#[global] Instance skipped_dec k r : Decision (skipped k r).
Proof. unfold skipped. apply _. Defined.

(** A cell of a numeric column: a number or a missing value. *)
Definition numeric (c : Pd.cell) : bool :=
  match c with
  | Pd.NaN | Pd.Num _ => true
  | _ => false
  end.

(** A cell of a column of time stamps. *)
Definition timely (c : Pd.cell) : bool :=
  match c with
  | Pd.NaN | Pd.Timestamp _ => true
  | _ => false
  end.

(** Repetitions times weight of one set; a set that lacks either counts
    for nothing. *)
Definition set_volume (repetitions weight : Pd.cell) : Qc :=
  match repetitions, weight with
  | Pd.Num r, Pd.Num w => r * w
  | _, _ => 0
  end.

(** The training volume of a list of sets, their repetitions in column
    [kr] and their weight in column [kw]. *)
Fixpoint training_volume (kr kw : nat) (sets : list (Z * list Pd.cell)) : Qc :=
  match sets with
  | [] => 0
  | r :: sets' =>
      set_volume (Pd.field kr r.2) (Pd.field kw r.2) + training_volume kr kw sets'
  end.

(** The calendar day of a time stamp, and the sets of a day. *)
Definition day (t : Z) : Z := (t `div` 86400)%Z.

Definition on_day (kt : nat) (d : Z) (r : Z * list Pd.cell) : Prop :=
  ∃ t, Pd.field kt r.2 = Pd.Timestamp t ∧ day t = d.

#[global] Instance on_day_dec kt d r : Decision (on_day kt d r).
Proof.
  unfold on_day. destruct (Pd.field kt r.2) as [| | |t|] eqn:E;
    try (right; by intros (? & [=] & _)).
  destruct (decide (day t = d)) as [Hd|Hd].
  - left. by exists t.
  - right. intros (t' & [= <-] & Hd'). done.
Defined.

(** The latest and the earliest of the time stamps that fall on day [d]. *)
Definition latest_on (d : Z) (times : list Z) (t : Z) : Prop :=
  t ∈ times ∧ day t = d ∧ ∀ t', t' ∈ times → day t' = d → (t' ≤ t)%Z.

Definition earliest_on (d : Z) (times : list Z) (t : Z) : Prop :=
  t ∈ times ∧ day t = d ∧ ∀ t', t' ∈ times → day t' = d → (t ≤ t')%Z.

(** How many of the sets before position [i] were done on the day of [t]
    under the exercise name [n]. *)
Definition earlier_sets (times : list Z) (names : list Pd.cell) (i : nat)
    (t : Z) (n : Pd.cell) : nat :=
  length (filter (λ tn, day tn.1 = day t ∧ tn.2 = n) (take i (zip times names))).

(** * Numbers in text, as the specification words them *)

Fixpoint digit_free (s : string) : bool :=
  match s with
  | EmptyString => true
  | String c s' => negb (Py.re_digit c) && digit_free s'
  end.

Definition digits (s : string) : Prop := s ≠ EmptyString ∧ Py.all_digits s = true.

(** [first_run s run]: [run] is the first run of digits of [s]. *)
Definition first_run (s run : string) : Prop :=
  ∃ pre post,
    s = pre +:+ run +:+ post
    ∧ digit_free pre = true
    ∧ digits run
    ∧ Py.starts_with Py.re_digit post = false.






(** * The merged table, as the specification words it *)

(** The time stamp of a cell of [Time], if it has one. *)
Definition time_key (c : Pd.cell) : option Z :=
  match c with
  | Pd.Timestamp t => Some t
  | _ => None
  end.

(** A column of time stamps in descending order, the missing ones last. *)
Definition descending (times : list Pd.cell) : Prop :=
  StronglySorted (λ a b, Pd.later (time_key a) (time_key b)) times.

(** A record with its weight, in column [kw], set to zero if missing. *)
Definition zero_weight (kw : nat) (r : Z * list Pd.cell) : Z * list Pd.cell :=
  (r.1, <[kw := match Pd.field kw r.2 with
                | Pd.NaN => Pd.Num 0
                | c => c
                end]> r.2).

(** The cell of a record under a column name, missing if the table has no
    such column. *)
Definition cell_of (cols : list string) (name : string) (r : Z * list Pd.cell) : Pd.cell :=
  match Pd.position name cols with
  | Some k => Pd.field k r.2
  | None => Pd.NaN
  end.

(** The columns of two tables put together, those of the first table
    first. *)
Definition all_columns (df1 df2 : Pd.DataFrame) : list string :=
  Pd.columns df1 ++ filter (λ c, c ∉ Pd.columns df1) (Pd.columns df2).

(** * Auxiliary functions of the proofs *)






(** The product of two cells of numeric columns. *)
Definition product (a b : Pd.cell) : Pd.cell :=
  match a, b with
  | Pd.Num x, Pd.Num y => Pd.Num (x * y)
  | _, _ => Pd.NaN
  end.


(** The span of the day of [t], from the head of the day's time stamps on. *)
Definition span (times : list Z) (t : Z) : Z :=
  match filter (λ t', day t' = day t) times with
  | t0 :: ts => foldl Z.max t0 ts - foldl Z.min t0 ts
  | [] => 0
  end.

(** A count raised by one. *)
Definition succ_cell (c : Pd.cell) : Pd.cell :=
  match c with
  | Pd.Num q => Pd.Num (q + 1)
  | _ => Pd.NaN
  end.

(** * Sample inputs *)

Definition header17 : list string :=
  ["Date"; "Workout"; "c2"; "c3"; "c4"; "c5"; "c6"; "c7"; "c8"; "c9"; "c10";
   "c11"; "c12"; "c13"; "Comment"; "c15"; "c16"].

Definition header18 : list string :=
  ["Date"; "Workout"; "c2"; "c3"; "c4"; "c5"; "c6"; "c7"; "c8"; "c9"; "c10";
   "c11"; "c12"; "c13"; "Set Comment"; "Session Comment"; "c16"; "c17"].

Definition fields14 : list string :=
  ["2023-01-01"; "Push"; "2"; "3"; "4"; "5"; "6"; "7"; "8"; "9"; "10"; "11";
   "12"; "13"].

Definition gymbook_sample : Pd.DataFrame := {|
  Pd.columns := ["Datum"; String "220" "bung"; "Wiederholungen / Zeit";
                 "Gewicht / Strecke"; "Ausgelassen"; "Zeit"];
  Pd.records := [
    (0%Z, [Pd.Str "01.01.2023"; Pd.Str "Squats"; Pd.Str "12 Wdh.";
           Pd.Str "80,5 kg"; Pd.Str "Nein"; Pd.Str "18:00"]);
    (1%Z, [Pd.Str "01.01.2023"; Pd.Str "Squats"; Pd.Str "10 Wdh.";
           Pd.Str "82,25 kg"; Pd.Str "Ja"; Pd.Str "18:05"]);
    (2%Z, [Pd.Str "01.01.2023"; Pd.Str "Curls"; Pd.Str "8 Wdh.";
           Pd.Str "12 kg"; Pd.NaN; Pd.Str "19:00"]);
    (3%Z, [Pd.Str "02.01.2023"; Pd.Str "Squats"; Pd.Str "5 Wdh.";
           Pd.NaN; Pd.Str "Nein"; Pd.Str "17:30"])
  ] |}.

Definition squat_sets : Pd.DataFrame := {|
  Pd.columns := ["Exercise Name"; "Repetitions"; "Weight"; "Time"];
  Pd.records := [
    (7%Z, [Pd.Str "Barbell Squat"; Pd.Num (Qc_of_Z 5); Pd.Num (Q2Qc (161 # 2));
           Pd.Timestamp 190100]);
    (3%Z, [Pd.Str "Barbell Squat"; Pd.Num (Qc_of_Z 5); Pd.NaN; Pd.Timestamp 190000]);
    (0%Z, [Pd.Str "Barbell Squat"; Pd.Num (Qc_of_Z 12); Pd.Num (Qc_of_Z 80);
           Pd.Timestamp 86400])
  ] |}.

Definition progression_sets : Pd.DataFrame := {|
  Pd.columns := ["Workout Name"; "Exercise Name"; "Weight"; "Time"];
  Pd.records := [
    (0%Z, [Pd.Str "Pull"; Pd.Str "Chinup"; Pd.NaN; Pd.Timestamp 200000]);
    (1%Z, [Pd.Str "Pull"; Pd.Str "Cable Row"; Pd.Num (Qc_of_Z 40); Pd.Timestamp 100])
  ] |}.

(** * The rest of the notebook *)

(** ** The repaired export

    [fix_progression_csv] between the rows that [csv.reader] hands it and
    the rows it hands to [csv.writer]: the value of [second_fix]. *)
Definition second_fix (reader : list (list string)) : result (list (list string)) :=
  first_fix ← fix_linebreaks reader;
  replace_comma_in_comments first_fix.

(** The first empty row that has no non-empty row after it, and what
    reading on from it raises: [StopIteration] at the end of the rows,
    [IndexError] before another empty row. *)
Fixpoint blank_fault (rows : list (list string)) : option exn :=
  match rows with
  | [] => None
  | [] :: rows' =>
      match rows' with
      | [] => Some StopIteration
      | [] :: _ => Some IndexError
      | (_ :: _) :: rows'' => blank_fault rows''
      end
  | (_ :: _) :: rows' => blank_fault rows'
  end.

(** A field without a comma. *)
Definition comma_free (field : string) : Prop := Py.count "," field = 0.

(** ** Columns without information *)

(** A list comprehension whose condition may raise. *)
Fixpoint comprehension {A} (cond : A → result bool) (l : list A) : result (list A) :=
  match l with
  | [] => Ok []
  | x :: l' =>
      keep ← cond x;
      kept ← comprehension cond l';
      mret (if keep : bool then x :: kept else kept)
  end.

(** [remove_redundant_columns]; [unneeded_columns] is [None] when the
    caller leaves it out.  The line it prints is left out. *)
Definition remove_redundant_columns (df : Pd.DataFrame)
    (unneeded_columns : option (list string)) : result Pd.DataFrame :=
  constant_columns ←
    comprehension (λ col, vals ← Pd.getitem df col;
                          mret (Pd.nunique vals <=? 1)) (Pd.columns df);
  match unneeded_columns with
  | None => Raise TypeError
  | Some unneeded_columns =>
      let redundant_columns := constant_columns ++ unneeded_columns in
      let df_compact := Pd.drop_columns df redundant_columns in
      mret df_compact
  end.

(** The cells of a table under a column name. *)
Definition column (df : Pd.DataFrame) (name : string) : list Pd.cell :=
  cell_of (Pd.columns df) name <$> Pd.records df.

(** A column that [remove_redundant_columns] keeps: not listed as unneeded
    and with more than one distinct value. *)
Definition informative (df : Pd.DataFrame) (unneeded : list string) (c : string) : Prop :=
  (c ∉ unneeded) ∧ (1 < Pd.nunique (column df c)).

#[global] Instance informative_dec df unneeded c : Decision (informative df unneeded c).
Proof. unfold informative. apply _. Defined.

Definition progression_sample : Pd.DataFrame := {|
  Pd.columns := ["Date"; "Time"; "Exercise Name"; "Repetitions";
                 "Set Duration (s)"; "Unit"; "Set Timestamp"];
  Pd.records := [
    (0%Z, [Pd.Str "2023-01-01"; Pd.Str "18:00:00"; Pd.Str "Plank"; Pd.NaN;
           Pd.Num (Qc_of_Z 60); Pd.Str "kg"; Pd.Str "18:05:00"]);
    (1%Z, [Pd.Str "2023-01-01"; Pd.Str "18:00:00"; Pd.Str "Chinup";
           Pd.Num (Qc_of_Z 8); Pd.NaN; Pd.Str "kg"; Pd.Str "18:10:00"]);
    (2%Z, [Pd.Str "2023-01-02"; Pd.Str "17:00:00"; Pd.Str "Chinup";
           Pd.Num (Qc_of_Z 6); Pd.NaN; Pd.Str "kg"; Pd.Str "17:02:00"])
  ] |}.

(** ** One column for date and time *)

(** [merge_date_time_columns]; the parser of [pd.to_datetime] is the
    argument [strptime].  The assignment to [df["Time"]] changes the
    caller's table as well; the notebook rebinds the name to the result. *)
Definition merge_date_time_columns (strptime : string → string → option Z)
    (df : Pd.DataFrame) (format_string : string) (date_col time_col : string)
    : result Pd.DataFrame :=
  dates ← Pd.getitem df date_col;
  dates ← Pd.add_str dates " ";
  times ← Pd.getitem df time_col;
  texts ← Pd.add_series dates times;
  time ← Pd.to_datetime strptime format_string texts;
  df ← Pd.setitem df "Time" time;
  df_datetime ← Pd.drop_columns_strict df [date_col; time_col];
  mret df_datetime.

(** The moment that a date cell and a time cell write together: the two
    texts with a space between them, read in the format; missing when
    either is missing. *)
Definition moment (strptime : string → string → option Z) (format : string)
    (date time : Pd.cell) : Pd.cell :=
  match date, time with
  | Pd.Str d, Pd.Str t =>
      from_option Pd.Timestamp Pd.NaN (strptime format (d +:+ " " +:+ t))
  | _, _ => Pd.NaN
  end.

(** A date cell and a time cell that can be read together. *)
Definition readable (strptime : string → string → option Z) (format : string)
    (date time : Pd.cell) : Prop :=
  match date, time with
  | Pd.Str d, Pd.Str t => is_Some (strptime format (d +:+ " " +:+ t))
  | (Pd.Str _ | Pd.NaN), Pd.NaN | Pd.NaN, (Pd.Str _ | Pd.Num _) => True
  | _, _ => False
  end.

(** A parser for the samples: the length of the text. *)
Definition sample_strptime (format s : string) : option Z :=
  Some (Z.of_nat (String.length s)).

(** ** Names in one log only *)

Definition common_exercises (exercises_gymbook exercises_progression : list Pd.cell)
    : list Pd.cell :=
  Py.intersection exercises_gymbook exercises_progression.

Definition exercises_gymbook_unique (exercises_gymbook exercises_progression : list Pd.cell)
    : list Pd.cell :=
  Py.symmetric_difference exercises_gymbook
    (common_exercises exercises_gymbook exercises_progression).

Definition exercises_progression_unique
    (exercises_gymbook exercises_progression : list Pd.cell) : list Pd.cell :=
  Py.symmetric_difference exercises_progression
    (common_exercises exercises_gymbook exercises_progression).

(** ** Weekdays *)

Definition weekday_map : gmap Z string := list_to_map [
  (0%Z, "Monday"); (1%Z, "Tuesday"); (2%Z, "Wednesday"); (3%Z, "Thursday");
  (4%Z, "Friday"); (5%Z, "Saturday"); (6%Z, "Sunday")
].

(** The cell that adds the column [Weekday]. *)
Definition weekday_column (df : Pd.DataFrame) : result Pd.DataFrame :=
  time ← Pd.getitem df "Time";
  weekday ← Pd.dt_weekday time;
  Pd.setitem df "Weekday" (Pd.map_dict weekday_map weekday).

(** The names of the days in the order of the week. *)
Definition weekdays : list string :=
  ["Monday"; "Tuesday"; "Wednesday"; "Thursday"; "Friday"; "Saturday"; "Sunday"].

(** ** Muscle categories *)

(** A [for] loop over a list, the body threading the table through. *)
Fixpoint for_each {A S} (body : S → A → result S) (s : S) (l : list A) : result S :=
  match l with
  | [] => Ok s
  | x :: l' => s' ← body s x; for_each body s' l'
  end.


(** The a-umlaut is the code point 228, the u-umlaut the code point 252. *)
Definition map_muscle_category_ger_eng : gmap string string := dict [
  ("Arme", "Arms");
  ("Bauch", "Abs");
  ("Beine", "Legs");
  ("Brust", "Chest");
  (String "G" (String "e" (String "s" (String "228" "ss"))), "Glute");
  (String "R" (String "252" "cken"), "Back");
  ("Schultern", "Shoulders")
].

(** The two replacements in the column [Bereich]. *)
Definition translate_categories (df : Pd.DataFrame) : result Pd.DataFrame :=
  bereich ← Pd.getitem df "Bereich";
  df ← Pd.setitem df "Bereich" (Pd.replace bereich map_muscle_category_ger_eng);
  bereich ← Pd.getitem df "Bereich";
  Pd.setitem df "Bereich" (Pd.replace_value Pd.NaN (Pd.Str "Undefined") bereich).







(** The keywords of the categories; each set of keywords is written as a
    list. *)
Definition map_exercise_to_muscle : list (string * list string) := [
  ("Arms", ["Push"; "Curl"; "Kickback"; "Triceps"]);
  ("Back", ["Pull"; "Row"; "deadlift"]);
  ("Chest", ["Bench"; "Crossover"; "Fly"]);
  ("Legs", ["Calf"; "Leg"; "Squat"; "Lunge"; "Thigh"; "Clean"]);
  ("Shoulders", ["Shoulder"; "Shrug"; "Delt"; "Arnold"; "Raise"])
].

(** The two inner loops: [muscle_categories] gets one entry for every
    keyword that occurs in the name; [counter] is its length and
    [muscle_category] its last entry. *)
Definition muscle_categories (table : list (string * list string))
    (exercise : string) : list string :=
  entry ← table;
  keyword ← entry.2;
  if Py.contains keyword exercise then [entry.1] else [].

(** The category that the keywords give a name, if they give one. *)
Definition keyword_category (table : list (string * list string))
    (exercise : string) : option string :=
  let categories := muscle_categories table exercise in
  let counter := length categories in
  if counter =? 1 then last categories
  else if 1 <? counter then
    if bool_decide ("Legs" ∈ categories) then Some "Legs" else None
  else None.



(** A record of the exercise [e] with a category, and one without, the
    exercise names in column [ke] and the categories in column [kb]. *)
Definition categorized (ke kb : nat) (e : Pd.cell) (r : Z * list Pd.cell) : Prop :=
  Pd.field ke r.2 = e ∧ Pd.field kb r.2 ≠ Pd.Str "Undefined".

Definition uncategorized (ke kb : nat) (e : Pd.cell) (r : Z * list Pd.cell) : Prop :=
  Pd.field ke r.2 = e ∧ Pd.field kb r.2 = Pd.Str "Undefined".

#[global] Instance categorized_dec ke kb e r : Decision (categorized ke kb e r).
Proof. unfold categorized. apply _. Defined.

#[global] Instance uncategorized_dec ke kb e r : Decision (uncategorized ke kb e r).
Proof. unfold uncategorized. apply _. Defined.

(** [restored ke kb rs r r']: the record [r'] is the record [r], or [r]
    has no category and [r'] is [r] with the category of a record of [rs]
    of the same exercise. *)
Definition restored (ke kb : nat) (rs : list (Z * list Pd.cell))
    (r r' : Z * list Pd.cell) : Prop :=
  r' = r
  ∨ (Pd.field kb r.2 = Pd.Str "Undefined"
     ∧ ∃ r0, r0 ∈ rs ∧ categorized ke kb (Pd.field ke r.2) r0
             ∧ r' = (r.1, <[kb := Pd.field kb r0.2]> r.2)).




Definition category_sample : Pd.DataFrame := {|
  Pd.columns := ["Exercise Name"; "Bereich"];
  Pd.records := [
    (0%Z, [Pd.Str "Barbell Squat"; Pd.Str "Legs"]);
    (1%Z, [Pd.Str "Barbell Squat"; Pd.Str "Undefined"]);
    (2%Z, [Pd.Str "Leg Press"; Pd.Str "Undefined"]);
    (3%Z, [Pd.Str "Triceps Pushdown"; Pd.Str "Undefined"]);
    (4%Z, [Pd.Str "Plank"; Pd.Str "Abs"])
  ] |}.

(** The category of a cell of [Bereich] after the two replacements. *)
Definition english_category (c : Pd.cell) : Pd.cell :=
  match c with
  | Pd.NaN => Pd.Str "Undefined"
  | Pd.Str s => Pd.Str (default s (map_muscle_category_ger_eng !! s))
  | _ => c
  end.

(** ** One name for one exercise *)

(** The three replacements with the alias tables. *)
Definition rename_exercises (names : list Pd.cell) : list Pd.cell :=
  Pd.replace
    (Pd.replace (Pd.replace names map_gymbook_to_progression)
       map_progression_to_gymbook)
    map_rename_in_both.

(** The name that the three alias tables give a name. *)
Definition alias (name : string) : string :=
  let name := default name (map_gymbook_to_progression !! name) in
  let name := default name (map_progression_to_gymbook !! name) in
  default name (map_rename_in_both !! name).

(** The singular that [singularize] gives a plural name under the
    exceptions [exceptions], tried in their order. *)
Definition singular_with (exceptions : list string) (name : string) : string :=
  foldl (λ singular_replacement exception,
    if Py.contains exception name
    then Py.replace (Py.str_but_last_n 2 exception)
                    (Py.str_but_last_n 1 exception) name
    else singular_replacement) (singular name) exceptions.

(** One step of the loop over the exceptions, on the entry of the name
    [e]. *)
Definition keep_step (e : string) (v : option string) (x : string) : option string :=
  if Py.contains x e
  then Some (Py.replace (Py.str_but_last_n 2 x) (Py.str_but_last_n 1 x) e)
  else v.

(** ** Categories by hand *)

Definition map_conflicts : list (string * list string) := [
  ("Shoulders", ["Cable Rear Delt Fly"]);
  ("Back", ["Single-Arm Dumbbell Row on Bench"]);
  ("Chest", ["Barbell Bench Press (with Raised Feet)"])
].

Definition manual_map : list (string * list string) := [
  ("Abs", ["Ab Complex"; "Bicycle Crunch"; "Burpee"; "Plank"; "Russian Twist";
           "Standing Cable Lift"]);
  ("Back", ["Weighted Chinup"]);
  ("Arms", ["Wrist curl (Roller)"])
].

(** The exercises of such a table with their category, in the order of
    the two nested loops. *)
Definition listed (table : list (string * list string)) : list (string * string) :=
  entry ← table;
  exercise ← entry.2;
  [(exercise, entry.1)].

(** The two nested loops over such a table. *)
Definition assign_listed (table : list (string * list string)) (df : Pd.DataFrame)
    : result Pd.DataFrame :=
  for_each (λ df pair,
      names ← Pd.getitem df "Exercise Name";
      mret (Pd.loc_set df (Pd.eq_val names (Pd.Str pair.1)) "Bereich" (Pd.Str pair.2)))
    df (listed table).

(** The last two loops of the cell; the two tables are arguments, so that
    their sets of names can be taken in any order. *)
Definition assign_by_hand_with (conflicts manual : list (string * list string))
    (df : Pd.DataFrame) : result Pd.DataFrame :=
  df ← assign_listed conflicts df;
  assign_listed manual df.

Definition assign_by_hand (df : Pd.DataFrame) : result Pd.DataFrame :=
  assign_by_hand_with map_conflicts manual_map df.

(** A record is given the category that a dictionary has for its
    exercise. *)
Definition hand_set (ke kb : nat) (categories : gmap string string)
    (r : Z * list Pd.cell) : Z * list Pd.cell :=
  match Pd.field ke r.2 with
  | Pd.Str name =>
      match categories !! name with
      | Some muscle_category => (r.1, <[kb := Pd.Str muscle_category]> r.2)
      | None => r
      end
  | _ => r
  end.

(** * Properties *)

#[local] Arguments String.append !_ _ / : simpl nomatch.

(** * Facts about the Python primitives *)

Lemma bind_Ok {A B} (m : result A) (f : A → result B) b :
  m ≫= f = Ok b ↔ ∃ a, m = Ok a ∧ f a = Ok b.
Proof.
  destruct m as [a|e]; simpl; split.
  - intros H. exists a. done.
  - intros (a' & [= <-] & H). done.
  - intros [=].
  - intros (a' & [=] & _).
Qed.

Ltac inv_bind H :=
  repeat match type of H with
  | _ ≫= _ = Ok _ =>
      let a := fresh "x" in
      let H1 := fresh "H" in
      apply bind_Ok in H as (a & H1 & H)
  end.

Section strings.
Implicit Types (s t : string) (c : ascii) (ps : list string).

Lemma count_app c s t : Py.count c (s +:+ t) = Py.count c s + Py.count c t.
Proof. induction s as [|d s IH]; simpl; [done|]. rewrite IH. lia. Qed.

Lemma split_not_nil c s : Py.split c s ≠ [].
Proof.
  destruct s as [|d s]; simpl; [done|].
  destruct (Ascii.eqb d c); [done|]. by destruct (Py.split c s).
Qed.


Lemma join_cons sep p ps :
  ps ≠ [] → Py.join sep (p :: ps) = p +:+ sep +:+ Py.join sep ps.
Proof. by destruct ps. Qed.


Lemma string_app_assoc s t u : (s +:+ t) +:+ u = s +:+ t +:+ u.
Proof. induction s as [|d s IH]; simpl; [done|by rewrite IH]. Qed.

Lemma join_split c s : Py.join (String c EmptyString) (Py.split c s) = s.
Proof.
  induction s as [|d s IH]; simpl; [done|].
  destruct (Ascii.eqb_spec d c) as [->|Hne].
  - rewrite join_cons by apply split_not_nil. simpl. by rewrite IH.
  - pose proof (split_not_nil c s).
    destruct (Py.split c s) as [|p ps] eqn:E; [done|].
    destruct ps as [|q ps]; simpl in *; by rewrite <-IH.
Qed.

Lemma split_free c s : Forall (λ p, Py.count c p = 0) (Py.split c s).
Proof.
  induction s as [|d s IH]; simpl.
  - by repeat constructor.
  - destruct (Ascii.eqb d c) eqn:E.
    + by constructor.
    + destruct (Py.split c s) as [|p ps].
      * repeat constructor. simpl. by rewrite E.
      * inversion_clear IH. constructor; [|done]. simpl. by rewrite E.
Qed.

Lemma split_app_free c s t :
  Py.count c s = 0 →
  Py.split c (s +:+ String c t) = s :: Py.split c t.
Proof.
  induction s as [|d s IH]; simpl.
  - intros _. by rewrite Ascii.eqb_refl.
  - destruct (Ascii.eqb d c); [done|]. simpl. intros H.
    rewrite IH by done. done.
Qed.

Lemma split_whole c s : Py.count c s = 0 → Py.split c s = [s].
Proof.
  induction s as [|d s IH]; simpl; [done|].
  destruct (Ascii.eqb d c); [done|]. simpl. intros H. by rewrite IH.
Qed.

Lemma split_join c ps :
  ps ≠ [] → Forall (λ p, Py.count c p = 0) ps →
  Py.split c (Py.join (String c EmptyString) ps) = ps.
Proof.
  induction ps as [|p ps IH]; [done|]. intros _ Hfree.
  inversion_clear Hfree as [|?? Hp Hps].
  destruct ps as [|q ps].
  - simpl. by apply split_whole.
  - rewrite join_cons by done.
    change (String c EmptyString +:+ Py.join (String c EmptyString) (q :: ps))
      with (String c (Py.join (String c EmptyString) (q :: ps))).
    rewrite split_app_free by done. by rewrite IH.
Qed.

Lemma count_join c ps :
  Forall (λ p, Py.count c p = 0) ps →
  Py.count c (Py.join (String c EmptyString) ps) = length ps - 1.
Proof.
  induction ps as [|p ps IH]; [done|]. intros Hfree.
  inversion_clear Hfree as [|?? Hp Hps].
  destruct ps as [|q ps]; [simpl; lia|].
  rewrite join_cons by done. rewrite count_app, Hp, count_app, IH by done.
  simpl. rewrite Ascii.eqb_refl. lia.
Qed.
End strings.

Section slices.
Context {A : Type}.
Implicit Types (l : list A) (x : A).

Lemma item_last_snoc l x : Py.item_last (l ++ [x]) = Ok x.
Proof. unfold Py.item_last. by rewrite last_snoc. Qed.

Lemma but_last_snoc l x : Py.but_last (l ++ [x]) = l.
Proof.
  unfold Py.but_last. rewrite length_app. simpl.
  replace (length l + 1 - 1) with (length l) by lia.
  by rewrite take_app_length.
Qed.

Lemma set_last_snoc l x y : Py.set_last (l ++ [x]) y = Ok (l ++ [y]).
Proof.
  unfold Py.set_last. rewrite but_last_snoc. by destruct l.
Qed.

Lemma item_last_Ok l x : Py.item_last l = Ok x → ∃ l', l = l' ++ [x].
Proof.
  unfold Py.item_last. destruct (last l) as [y|] eqn:E; [|done].
  intros [= <-]. by apply last_Some in E.
Qed.

Lemma item0_Ok l x : Py.item0 l = Ok x → l = x :: Py.from1 l.
Proof. destruct l; [done|]. by intros [= <-]. Qed.
End slices.

(** * Commas in comments *)

Lemma extend_last_snoc fs f x : extend_last (fs ++ [f]) x = Ok (fs ++ [f +:+ x]).
Proof.
  unfold extend_last. rewrite item_last_snoc. simpl. apply set_last_snoc.
Qed.

Lemma merged_snoc ps fs : merged ps fs → ∃ fs' f, fs = fs' ++ [f].
Proof.
  destruct 1; [by exists [], p|by eexists _, _..|].
  exists (fs ++ [f]), p. by rewrite <-app_assoc.
Qed.

Lemma ends_with_str_last P f d :
  Py.str_last f = Ok d → Py.ends_with P f = P d.
Proof. unfold Py.ends_with. by intros ->. Qed.

Lemma merge_comment_parts_merged parts : ∀ done_parts fixed_parts fixed,
  merged done_parts fixed_parts →
  merge_comment_parts fixed_parts parts = Ok fixed →
  merged (done_parts ++ parts) fixed.
Proof.
  induction parts as [|part parts IH]; intros dps fps fixed Hm Hrun.
  - simpl in Hrun. injection Hrun as <-. by rewrite app_nil_r.
  - replace (dps ++ part :: parts) with ((dps ++ [part]) ++ parts)
      by by rewrite <-app_assoc.
    destruct (merged_snoc _ _ Hm) as (fs & f & ->).
    simpl in Hrun. destruct part as [|c part'] eqn:Epart.
    + eapply IH; [|done]. rewrite <-app_assoc. simpl.
      by apply merged_fresh.
    + destruct (Ascii.eqb c " ") eqn:Ec.
      * rewrite extend_last_snoc in Hrun. simpl in Hrun.
        eapply IH; [|done]. by apply merged_semicolon.
      * destruct (Py.isdigit c) eqn:Ed.
        -- rewrite item_last_snoc in Hrun. simpl in Hrun.
           destruct (Py.str_last f) as [d|] eqn:Ef; [|done]. simpl in Hrun.
           destruct (Py.isdigit d) eqn:Edd.
           ++ rewrite extend_last_snoc in Hrun. simpl in Hrun.
              eapply IH; [|done]. apply merged_point; try done.
              by rewrite (ends_with_str_last _ _ d).
           ++ eapply IH; [|done]. rewrite <-app_assoc. simpl.
              apply merged_fresh; try done.
              rewrite (ends_with_str_last _ _ d) by done. simpl.
              by rewrite Ed, Edd.
        -- eapply IH; [|done]. rewrite <-app_assoc. simpl.
           apply merged_fresh; try done. simpl. by rewrite Ed.
Qed.

Lemma merged_comma_free ps fs :
  merged ps fs →
  Forall (λ p, Py.count "," p = 0) ps → Forall (λ p, Py.count "," p = 0) fs.
Proof.
  induction 1 as [p|ps fs f p _ IH _|ps fs f p _ IH _ _ _|ps fs f p _ IH _ _];
    [done|..];
    rewrite !Forall_app, !Forall_singleton; intros [Hps Hp];
    specialize (IH Hps); rewrite Forall_app, Forall_singleton in IH;
    destruct IH as [Hfs Hf]; (split; [done|]).
  - by rewrite !count_app, Hf, Hp.
  - by rewrite !count_app, Hf, Hp.
  - by repeat constructor.
Qed.

Lemma comment_parts_free line :
  Forall (λ p, Py.count "," p = 0) (Py.split "," (Py.join "," line)).
Proof. apply split_free. Qed.

Lemma repaired_bound column_count line line' :
  17 ≤ column_count → repaired column_count line line' →
  commas line' ≤ column_count.
Proof.
  intros Hcc. unfold repaired. case_decide as Hle.
  - intros ->. unfold commas in *. by rewrite join_split.
  - intros (fixed & Hm & Hlen & ->). unfold commas.
    pose proof (comment_parts_free line) as Hfree.
    rewrite count_join.
    + rewrite !length_app. unfold Py.upto, Py.last_n.
      rewrite length_take, length_drop. lia.
    + rewrite !Forall_app. split_and!.
      * by apply Forall_take.
      * eapply merged_comma_free; [done|].
        unfold Py.between. by apply Forall_drop, Forall_take.
      * by apply Forall_drop.
Qed.

Lemma fix_commas_repaired column_count i line line' :
  fix_commas column_count i line = Ok line' → repaired column_count line line'.
Proof.
  unfold fix_commas, repaired. fold (commas line).
  pose proof (comment_parts_free line) as Hfree.
  set (parts := Py.split "," (Py.join "," line)) in *.
  destruct (column_count <? commas line) eqn:E.
  - apply Nat.ltb_lt in E. rewrite decide_False by lia.
    intros Hrun. inv_bind Hrun. rename x into c0, x0 into fixed.
    destruct (2 <? length fixed) eqn:Elen; [done|].
    apply Nat.ltb_ge in Elen. injection Hrun as <-.
    assert (merged (Py.between 14 2 parts) fixed) as Hm.
    { rewrite (item0_Ok _ _ H).
      apply (merge_comment_parts_merged _ [c0] [c0]); [constructor|done]. }
    exists fixed. split_and!; [done..|].
    apply split_join.
    + destruct (merged_snoc _ _ Hm) as (fs & f & ->).
      intros Hnil. apply app_eq_nil in Hnil as [_ Hnil].
      apply app_eq_nil in Hnil as [Hnil _]. by destruct fs.
    + rewrite !Forall_app. split_and!.
      * by apply Forall_take.
      * eapply merged_comma_free; [done|].
        unfold Py.between. by apply Forall_drop, Forall_take.
      * by apply Forall_drop.
  - apply Nat.ltb_ge in E. rewrite decide_True by lia. by intros [= <-].
Qed.

Lemma replace_comma_loop_repaired column_count rows : ∀ i fixed_lines out,
  replace_comma_loop column_count i fixed_lines rows = Ok out →
  ∃ out', out = fixed_lines ++ out' ∧ Forall2 (repaired column_count) rows out'.
Proof.
  induction rows as [|line rows IH]; intros i acc out Hrun; simpl in Hrun.
  - injection Hrun as <-. exists []. by rewrite app_nil_r.
  - inv_bind Hrun. rename x into line'.
    apply IH in Hrun as (out' & -> & Hall).
    exists (line' :: out'). rewrite <-app_assoc. split; [done|].
    constructor; [|done]. by eapply fix_commas_repaired.
Qed.

(** C1, as amended: when the header has at least 17 commas (the 18 columns
    of a Progression export) and [replace_comma_in_comments] returns, the
    header comes back first and unchanged, every data row comes back
    repaired -- split at its commas when it has no more than the header,
    and otherwise as its first 14 fields, at most two merged comment parts
    and its last two fields -- and no returned row has more commas than the
    header. *)
Theorem replace_comma_in_comments_bounded header rows out :
  17 ≤ commas header →
  replace_comma_in_comments (header :: rows) = Ok out →
  ∃ out', out = header :: out'
    ∧ Forall2 (repaired (commas header)) rows out'
    ∧ Forall (λ line, commas line ≤ commas header) out.
Proof.
  intros Hcc Hrun. unfold replace_comma_in_comments in Hrun.
  fold (commas header) in Hrun.
  apply replace_comma_loop_repaired in Hrun as (out' & -> & Hall).
  exists out'. split_and!; [done..|].
  constructor; [done|].
  clear -Hcc Hall. induction Hall as [|line line' rows out' Hrep _ IH]; [done|].
  constructor; [|done]. by eapply repaired_bound.
Qed.

Lemma replace_comma_in_comments_bounded_witness :
  17 ≤ commas header18
  ∧ ∃ out', Forall2 (repaired (commas header18))
              [fields14 ++ ["good"; " but heavy"; "5"; "5 kg"; "e1"; "e2"]] out'
      ∧ Forall (λ line, commas line ≤ commas header18) (header18 :: out').
Proof.
  assert (17 ≤ commas header18) as Hcc by (vm_compute; lia).
  split; [done|].
  destruct (replace_comma_in_comments_bounded header18
    [fields14 ++ ["good"; " but heavy"; "5"; "5 kg"; "e1"; "e2"]]
    [header18; fields14 ++ ["good; but heavy"; "5.5 kg"; "e1"; "e2"]] Hcc)
    as (out' & Heq & H1 & H2); [by vm_compute|].
  injection Heq as <-. eauto.
Defined.

Lemma replace_comma_in_comments_exceeds_header :
  ∃ out,
    replace_comma_in_comments [header17; fields14 ++ ["a"; "b"; "e1"; "e2"]] = Ok out
    ∧ ¬ Forall (λ line, commas line ≤ commas header17) out.
Proof.
  eexists. split; [by vm_compute|].
  intros H. apply Forall_cons in H as [_ H]. apply Forall_cons in H as [H _].
  vm_compute in H. lia.
Qed.

(** * When the repair raises *)









(** * Line breaks in comments *)

Lemma match_date_app s t : Py.match_date s = true → Py.match_date (s +:+ t) = true.
Proof.
  do 10 (destruct s as [|? s]; [done|]). done.
Qed.

Lemma glue_snoc init a b fields :
  glue (init ++ [a]) (b :: fields) = Ok (init ++ [a +:+ ". " +:+ b] ++ fields).
Proof.
  unfold glue. rewrite item_last_snoc. simpl. by rewrite but_last_snoc.
Qed.

Lemma dated_glued init a b fields :
  dated (init ++ [a]) = true → dated (init ++ [a +:+ ". " +:+ b] ++ fields) = true.
Proof.
  destruct init as [|i0 init]; simpl; [|done]. apply match_date_app.
Qed.

Lemma relinked_snoc rows kept : relinked rows kept → ∃ kept' line, kept = kept' ++ [line].
Proof. destruct 1; [by exists [], header|by eexists _, _..]. Qed.

Lemma split_last {A} (l : list A) : l ≠ [] → ∃ init a, l = init ++ [a].
Proof.
  intros Hne. destruct (last l) as [a|] eqn:E.
  - apply last_Some in E as [init ->]. by eexists _, _.
  - apply last_None in E. done.
Qed.

Lemma fix_linebreaks_loop_spec n : ∀ reader done_rows fixed_lines,
  length reader ≤ n →
  relinked done_rows fixed_lines →
  Forall (λ line, line ≠ []) fixed_lines →
  Forall (λ line, dated line = true) (tail fixed_lines) →
  blanks_followed reader = true →
  ∃ out,
    fix_linebreaks_loop fixed_lines reader = Ok out
    ∧ relinked (done_rows ++ reader) out
    ∧ Forall (λ line, dated line = true) (tail out)
    ∧ (2 ≤ length fixed_lines → head out = head fixed_lines).
Proof.
  induction n as [|n IH]; intros reader dr fl Hlen Hrel Hne Hdated Hblank.
  { destruct reader; [|simpl in Hlen; lia].
    exists fl. rewrite app_nil_r. done. }
  destruct reader as [|line reader]; [exists fl; by rewrite app_nil_r|].
  simpl in Hlen.
  destruct (relinked_snoc _ _ Hrel) as (kept & last_line & ->).
  rewrite Forall_app, Forall_singleton in Hne. destruct Hne as [Hkept Hlast].
  destruct (split_last last_line Hlast) as (init & a & ->).
  assert (∀ b fields,
    Forall (λ line, dated line = true)
      (tail (kept ++ [init ++ [a +:+ ". " +:+ b] ++ fields]))) as Hdated'.
  { intros b fields. destruct kept as [|h kept]; simpl in *; [done|].
    rewrite Forall_app, Forall_singleton in Hdated. destruct Hdated as [Hk Hl].
    rewrite Forall_app, Forall_singleton. split; [done|].
    by apply dated_glued. }
  assert (∀ b fields,
    Forall (λ line, line ≠ [])
      (kept ++ [init ++ [a +:+ ". " +:+ b] ++ fields])) as Hne'.
  { intros b fields. rewrite Forall_app, Forall_singleton. split; [done|].
    by destruct init. }
  assert (∀ x y : list string,
    2 ≤ length (kept ++ [x]) → head (kept ++ [y]) = head (kept ++ [x])) as Hhead.
  { intros x y. rewrite length_app. simpl. destruct kept; simpl; [lia|done]. }
  destruct line as [|b fields].
  - (* an empty row: the row after it is read and merged *)
    simpl in Hblank. destruct reader as [|next reader]; [done|].
    destruct next as [|b fields]; [done|].
    simpl. rewrite item_last_snoc. simpl. rewrite glue_snoc. simpl.
    rewrite set_last_snoc. simpl.
    destruct (IH reader (dr ++ [[]; b :: fields])
                (kept ++ [init ++ [a +:+ ". " +:+ b] ++ fields]))
      as (out & Hout & Hrel' & Hd & Hh); [simpl in Hlen; lia| |done..|].
    { by apply relinked_blank. }
    exists out. rewrite <-app_assoc in Hrel'. split_and!; [done..|].
    intros H2. rewrite Hh, (Hhead (init ++ [a])); [done|done|].
    rewrite length_app in *. simpl in *. lia.
  - simpl in Hblank. simpl. destruct (Py.match_date b) eqn:Eb; simpl.
    + (* a dated row is kept *)
      destruct (IH reader (dr ++ [b :: fields])
                  ((kept ++ [init ++ [a]]) ++ [b :: fields]))
        as (out & Hout & Hrel' & Hd & Hh); [lia| | | |done|].
      { by apply relinked_dated. }
      { rewrite !Forall_app, !Forall_singleton. done. }
      { destruct kept as [|h kept]; simpl in *.
        - by repeat constructor.
        - apply Forall_app. split; [done|]. by repeat constructor. }
      exists out. rewrite <-app_assoc in Hrel'. split_and!; [done..|].
      intros H2. rewrite Hh.
      * destruct kept; done.
      * rewrite !length_app. simpl. lia.
    + (* a continuation is merged *)
      rewrite item_last_snoc. simpl. rewrite glue_snoc. simpl.
      rewrite set_last_snoc. simpl.
      destruct (IH reader (dr ++ [b :: fields])
                  (kept ++ [init ++ [a +:+ ". " +:+ b] ++ fields]))
        as (out & Hout & Hrel' & Hd & Hh); [lia| |done..|].
      { by apply relinked_continued. }
      exists out. rewrite <-app_assoc in Hrel'. split_and!; [done..|].
      intros H2. rewrite Hh, (Hhead (init ++ [a])); [done|done|].
      rewrite length_app in *. simpl in *. lia.
Qed.

(** C2, as amended: for a non-empty header followed by rows in which every
    empty row is directly followed by a non-empty one, [fix_linebreaks]
    returns the rows relinked: every returned row after the first starts
    with a date, every non-empty row that does not start with a date is
    joined to the last field of the last kept row with [". "] and its
    remaining fields appended, every empty row is dropped and the row after
    it merged the same way, and the first returned row is the header as it
    was whenever the row after the header starts with a date (or there is
    none). *)
Theorem fix_linebreaks_relinks header rest :
  header ≠ [] →
  blanks_followed rest = true →
  ∃ out,
    fix_linebreaks (header :: rest) = Ok out
    ∧ relinked (header :: rest) out
    ∧ Forall (λ line, dated line = true) (tail out)
    ∧ (from_option dated true (head rest) = true → head out = Some header).
Proof.
  intros Hne Hblank. unfold fix_linebreaks.
  destruct (fix_linebreaks_loop_spec (length rest) rest [header] [header])
    as (out & Hout & Hrel & Hd & _); [done|constructor|by constructor|done..|].
  exists out. split_and!; [done..|].
  destruct rest as [|line rest]; simpl.
  { intros _. by injection Hout as <-. }
  intros Hline. destruct line as [|b fields]; [done|]. simpl in Hline, Hblank.
  simpl in Hout. rewrite Hline in Hout. simpl in Hout.
  destruct (fix_linebreaks_loop_spec (length rest) rest [header; b :: fields]
              [header; b :: fields])
    as (out' & Hout' & _ & _ & Hh); [done| | | |done|].
  - apply (relinked_dated [header] [header]); [constructor|done].
  - by repeat constructor.
  - by repeat constructor.
  - rewrite Hout in Hout'. injection Hout' as <-. by apply Hh.
Qed.

Lemma fix_linebreaks_relinks_witness :
  ∃ out,
    fix_linebreaks
      [["Date"; "Comment"]; ["2023-01-01"; "good"]; ["but heavy"; "x"]; [];
       ["2023-01-02"; "z"]; ["2023-01-03"; "q"]] = Ok out
    ∧ relinked
        [["Date"; "Comment"]; ["2023-01-01"; "good"]; ["but heavy"; "x"]; [];
         ["2023-01-02"; "z"]; ["2023-01-03"; "q"]] out
    ∧ Forall (λ line, dated line = true) (tail out)
    ∧ (true = true → head out = Some ["Date"; "Comment"]).
Proof.
  apply (fix_linebreaks_relinks ["Date"; "Comment"]
    [["2023-01-01"; "good"]; ["but heavy"; "x"]; [];
     ["2023-01-02"; "z"]; ["2023-01-03"; "q"]]).
  - done.
  - reflexivity.
Defined.

Lemma fix_linebreaks_header_changed :
  fix_linebreaks [["Date"; "Comment"]; ["more"]] = Ok [["Date"; "Comment. more"]]
  ∧ fix_linebreaks [["Date"; "Comment"]; ["2023-01-01"; "a"]; []]
    = Raise StopIteration.
Proof. split; reflexivity. Qed.

(** * Singular names *)

Lemma singles_of_filter exercises :
  singles_of exercises = (λ e, (e, singular e)) <$> filter (λ e, plural e = true) exercises.
Proof.
  unfold singles_of.
  enough (∀ acc, foldl (λ singles exercise,
      if bool_decide (Py.str_last_n 2 exercise = "es") then
        singles ++ [(exercise, Py.str_but_last_n 2 exercise)]
      else if bool_decide (Py.str_last_n 1 exercise = "s")
              && negb (bool_decide (Py.str_last_n 2 exercise = "ss")) then
        singles ++ [(exercise, Py.str_but_last_n 1 exercise)]
      else singles) acc exercises
    = acc ++ ((λ e, (e, singular e)) <$> filter (λ e, plural e = true) exercises))
    as H by apply (H []).
  induction exercises as [|e l IH]; intros acc; simpl.
  - by rewrite app_nil_r.
  - rewrite IH.
    destruct (bool_decide (Py.str_last_n 2 e = "es")) eqn:E1.
    + rewrite filter_cons_True by (unfold plural; by rewrite E1).
      rewrite fmap_cons. unfold singular at 2. rewrite E1.
      by rewrite <-app_assoc.
    + destruct (bool_decide (Py.str_last_n 1 e = "s")
                && negb (bool_decide (Py.str_last_n 2 e = "ss"))) eqn:E2.
      * rewrite filter_cons_True by (unfold plural; by rewrite E1, E2).
        rewrite fmap_cons. unfold singular at 2. rewrite E1.
        by rewrite <-app_assoc.
      * rewrite filter_cons_False; [done|].
        unfold plural. by rewrite E1, E2.
Qed.

Lemma dict_snoc pairs k v : dict (pairs ++ [(k, v)]) = <[k := v]> (dict pairs).
Proof. unfold dict. by rewrite foldl_app. Qed.

Lemma dict_graph (g : string → string) (keys : list string) k :
  dict ((λ e, (e, g e)) <$> keys) !! k = if decide (k ∈ keys) then Some (g k) else None.
Proof.
  induction keys as [|e keys IH] using rev_ind.
  - rewrite decide_False by apply not_elem_of_nil. apply lookup_empty.
  - rewrite fmap_app. simpl. rewrite dict_snoc.
    destruct (decide (e = k)) as [->|Hne].
    + rewrite lookup_insert_eq, decide_True; [done|].
      apply elem_of_app. right. by apply list_elem_of_singleton.
    + rewrite lookup_insert_ne, IH by done.
      destruct (decide (k ∈ keys)) as [Hin|Hnin].
      * rewrite decide_True; [done|]. apply elem_of_app. by left.
      * rewrite decide_False; [done|]. rewrite elem_of_app.
        intros [?|?%list_elem_of_singleton]; done.
Qed.

Lemma keep_e_other exceptions d exercise k :
  k ≠ exercise → keep_e exceptions d exercise !! k = d !! k.
Proof.
  intros Hne. unfold keep_e. revert d.
  induction exceptions as [|x xs IH]; intros d; simpl; [done|].
  rewrite IH. destruct (Py.contains x exercise); [|done].
  by rewrite lookup_insert_ne.
Qed.

Lemma keep_e_regular exceptions d exercise :
  Forall (λ x, Py.contains x exercise = false) exceptions →
  keep_e exceptions d exercise = d.
Proof.
  unfold keep_e. revert d.
  induction exceptions as [|x xs IH]; intros d Hreg; simpl; [done|].
  apply Forall_cons in Hreg as [-> Hreg]. by apply IH.
Qed.

Lemma keep_e_is_Some exceptions d exercise k :
  is_Some (d !! exercise) →
  is_Some (keep_e exceptions d exercise !! k) ↔ is_Some (d !! k).
Proof.
  unfold keep_e. revert d.
  induction exceptions as [|x xs IH]; intros d Hin; simpl; [done|].
  destruct (Py.contains x exercise); [|by apply IH].
  rewrite IH by (by rewrite lookup_insert_eq).
  destruct (decide (exercise = k)) as [->|Hne].
  - by rewrite lookup_insert_eq.
  - by rewrite lookup_insert_ne.
Qed.

Lemma foldl_keep_e_is_Some exceptions keys : ∀ d k,
  Forall (λ e, is_Some (d !! e)) keys →
  is_Some (foldl (keep_e exceptions) d keys !! k) ↔ is_Some (d !! k).
Proof.
  induction keys as [|e keys IH]; intros d k Hkeys; simpl; [done|].
  apply Forall_cons in Hkeys as [He Hkeys].
  rewrite IH.
  - by apply keep_e_is_Some.
  - eapply Forall_impl; [done|]. intros e' He'. simpl.
    by apply keep_e_is_Some.
Qed.

Lemma foldl_keep_e_regular exceptions keys : ∀ d k,
  Forall (λ x, Py.contains x k = false) exceptions →
  foldl (keep_e exceptions) d keys !! k = d !! k.
Proof.
  induction keys as [|e keys IH]; intros d k Hreg; simpl; [done|].
  rewrite IH by done.
  destruct (decide (k = e)) as [->|Hne].
  - by rewrite keep_e_regular.
  - by apply keep_e_other.
Qed.

(** X27: The keys of the result are exactly the given names that end in [es], or
    in [s] but not in [ss]. *)
Lemma singularize_keys exercises name :
  is_Some (singularize exercises !! name)
  ↔ name ∈ exercises ∧ plural name = true.
Proof.
  unfold singularize, singularize_with. rewrite singles_of_filter.
  rewrite <-list_fmap_compose. simpl.
  rewrite foldl_keep_e_is_Some.
  - rewrite dict_graph. case_decide as Hin.
    + apply list_elem_of_filter in Hin as [Hpl Hin].
      split; [done|]. intros _. by eexists.
    + split; [by intros [? [=]]|]. intros [H1 H2]. destruct Hin.
      by apply list_elem_of_filter.
  - apply Forall_forall. intros e He. rewrite dict_graph.
    rewrite list_fmap_id in He. rewrite decide_True by done. by eexists.
Qed.

(** X28: A name that contains neither [Lunges] nor [Raises] is mapped to its
    singular: without its last two letters when it ends in [es], without
    its last letter otherwise. *)
Lemma singularize_regular exercises name :
  name ∈ exercises → plural name = true →
  Py.contains "Lunges" name = false → Py.contains "Raises" name = false →
  singularize exercises !! name = Some (singular name).
Proof.
  intros Hin Hpl HL HR.
  unfold singularize, singularize_with. rewrite singles_of_filter.
  rewrite foldl_keep_e_regular by (by repeat constructor).
  rewrite dict_graph, decide_True; [done|]. by apply list_elem_of_filter.
Qed.

(** C3 at the failing input: the name [Dumbbell Lunges] is not mapped to
    [Dumbbell Lunge]; the replacement is made in the plural name, which
    turns [Lung] into [Lunge] in front of the [es] it still carries. *)
Theorem singularize_lunges :
  singularize ["Dumbbell Lunges"] !! "Dumbbell Lunges" = Some "Dumbbell Lungees"
  ∧ singularize ["Lateral Raises"] !! "Lateral Raises" = Some "Lateral Raisees".
Proof. split; by vm_compute. Qed.

(** * Facts about [result] and the table primitives *)

Section result.
Context {A B : Type}.
Implicit Types (f : A → result B) (l : list A) (k : list B).

Lemma mapM_Ok f l k : mapM f l = Ok k ↔ Forall2 (λ x y, f x = Ok y) l k.
Proof.
  revert k. induction l as [|x l IH]; intros k; simpl.
  - split; [intros [= <-]; constructor|by inversion 1].
  - split.
    + intros H. inv_bind H. injection H as <-.
      constructor; [done|]. by apply IH.
    + inversion 1 as [|?? y k' Hx Hl]; subst. rewrite Hx. simpl.
      apply IH in Hl. rewrite Hl. done.
Qed.

Lemma mapM_total f (g : A → B) l :
  Forall (λ x, f x = Ok (g x)) l → mapM f l = Ok (g <$> l).
Proof.
  induction 1 as [|x l Hx _ IH]; simpl; [done|]. by rewrite Hx, IH.
Qed.

Lemma mapM_length f l k : mapM f l = Ok k → length k = length l.
Proof. intros H%mapM_Ok. symmetry. by eapply Forall2_length. Qed.
End result.

Section tables.
Import Pd.
Implicit Types (df : DataFrame) (vals : list cell).

Lemma getitem_Ok df name vals :
  getitem df name = Ok vals →
  ∃ k, position name (columns df) = Some k
       ∧ vals = (λ r, field k r.2) <$> records df.
Proof.
  unfold getitem. destruct (position name (columns df)) as [k|]; [|done].
  intros [= <-]. by exists k.
Qed.

Lemma getitem_length df name vals :
  getitem df name = Ok vals → length vals = length (records df).
Proof. intros (k & _ & ->)%getitem_Ok. by rewrite length_fmap. Qed.

Lemma position_Some name cols k :
  position name cols = Some k →
  cols !! k = Some name ∧ ∀ j, j < k → cols !! j ≠ Some name.
Proof.
  unfold position. destruct (list_find _ cols) as [[k' c]|] eqn:E; [|done].
  intros [= <-]. apply list_find_Some in E as (Hk & -> & Hbefore).
  split; [done|]. intros j Hj Hc. by apply (Hbefore j name).
Qed.

Lemma position_None name cols : position name cols = None ↔ name ∉ cols.
Proof.
  unfold position. destruct (list_find _ cols) as [[k' c]|] eqn:E.
  - apply list_find_Some in E as (Hk & -> & _). simpl. split; [by intros [=]|].
    intros []. by eapply list_elem_of_lookup_2.
  - split; [|done]. intros _ Hin.
    apply list_find_None in E. rewrite Forall_forall in E. by apply (E name).
Qed.

Lemma position_lookup name cols k :
  NoDup cols → cols !! k = Some name → position name cols = Some k.
Proof.
  intros Hnd Hk. destruct (position name cols) as [j|] eqn:E.
  - apply position_Some in E as [Hj _]. f_equal. by eapply NoDup_lookup.
  - apply position_None in E. destruct E. by eapply list_elem_of_lookup_2.
Qed.

Lemma mask_filter {X} (g : X → bool) (l : list X) :
  (filter (λ rm, rm.2 = true) (zip l (g <$> l))).*1 = filter (λ x, g x = true) l.
Proof.
  induction l as [|x l IH]; [done|]. rewrite fmap_cons.
  change (zip (x :: l) (g x :: (g <$> l))) with ((x, g x) :: zip l (g <$> l)).
  rewrite !filter_cons. cbv beta. change ((x, g x).2) with (g x).
  destruct (decide (g x = true)); [rewrite fmap_cons|]; by rewrite IH.
Qed.
End tables.

(** * Alias tables *)

Section replace.
Import Pd.
Implicit Types (vals : list cell) (mapping : gmap string string).

Lemma filter_replace vals mapping :
  filter (λ c, c ≠ NaN) (replace vals mapping)
  = replace (filter (λ c, c ≠ NaN) vals) mapping.
Proof.
  unfold replace. induction vals as [|c vals IH]; [done|].
  rewrite fmap_cons. destruct (decide (c = NaN)) as [->|Hc].
  - rewrite !filter_cons_False by (by intros H; apply H). done.
  - rewrite !filter_cons_True; [|done|by destruct c].
    by rewrite fmap_cons, IH.
Qed.

Lemma length_remove_dups_fmap {A B} `{EqDecision A, EqDecision B}
    (f : A → B) (l : list A) :
  length (remove_dups (f <$> l)) ≤ length (remove_dups l).
Proof.
  rewrite <-(length_fmap f (remove_dups l)).
  apply submseteq_length, NoDup_submseteq; [apply NoDup_remove_dups|].
  intros y Hy. apply elem_of_remove_dups, list_elem_of_fmap in Hy as (x & -> & Hx).
  apply list_elem_of_fmap. exists x. split; [done|].
  by apply elem_of_remove_dups.
Qed.
End replace.

(** C4: replacing the names of a column through a map, whichever of the
    alias maps it is, never increases the number of distinct names, and a
    name that is no key of the map stays as it is. *)
Theorem replace_names (mapping : gmap string string) (names : list Pd.cell) :
  Pd.nunique (Pd.replace names mapping) ≤ Pd.nunique names
  ∧ ∀ (i : nat) (c : Pd.cell),
      names !! i = Some c →
      (∀ s, c = Pd.Str s → mapping !! s = None) →
      Pd.replace names mapping !! i = Some c.
Proof.
  split.
  - unfold Pd.nunique. rewrite filter_replace. apply length_remove_dups_fmap.
  - intros i c Hi Hkey. unfold Pd.replace. rewrite list_lookup_fmap, Hi. simpl.
    destruct c as [|s| | |]; try done. by rewrite (Hkey s eq_refl).
Qed.

(** * Skipped sets *)

Section filters.
Context {A : Type}.
Implicit Types (l : list A).

Lemma filter_iff_elem (P1 P2 : A → Prop)
    `{!∀ x, Decision (P1 x), !∀ x, Decision (P2 x)} l :
  (∀ x, x ∈ l → P1 x ↔ P2 x) → filter P1 l = filter P2 l.
Proof.
  induction l as [|x l IH]; intros Hiff; [done|].
  rewrite !filter_cons.
  rewrite IH by (intros y Hy; apply Hiff; by right).
  destruct (decide (P1 x)) as [H1|H1], (decide (P2 x)) as [H2|H2]; try done.
  - destruct H2. apply Hiff; [by left|done].
  - destruct H1. apply Hiff; [by left|done].
Qed.

Lemma filter_all (P : A → Prop) `{!∀ x, Decision (P x)} l :
  Forall P l → filter P l = l.
Proof.
  induction 1 as [|x l Hx _ IH]; [done|].
  by rewrite filter_cons_True, IH.
Qed.

End filters.


Lemma index_loc_mask df k s :
  Pd.index (Pd.loc_mask df (Pd.eq_str ((λ r, Pd.field k r.2) <$> Pd.records df) s))
  = (filter (λ r, Pd.field k r.2 = Pd.Str s) (Pd.records df)).*1.
Proof.
  unfold Pd.index, Pd.loc_mask, Pd.eq_str. simpl. f_equal.
  rewrite <-list_fmap_compose.
  rewrite (mask_filter ((λ c, bool_decide (c = Pd.Str s)) ∘ (λ r, Pd.field k r.2))).
  apply list_filter_iff. intros r. simpl. by rewrite bool_decide_eq_true.
Qed.



(** * Training volume *)

Section volume.
Import Pd.

Lemma mul_cell_numeric a b :
  numeric a = true → numeric b = true →
  ∃ c, mul_cell a b = Ok c ∧ numeric c = true
       ∧ set_volume a b = match c with Num q => q | _ => 0%Qc end.
Proof.
  destruct a, b; try done; intros _ _; by eexists.
Qed.

Lemma sum_from (a : Qc) (vals : list cell) (total : Qc) :
  Forall (λ c, numeric c = true) vals →
  foldr (λ c acc, match c with Num q => q + acc | _ => acc end)%Qc 0%Qc vals = total →
  foldl (λ acc c, a ← acc;
           match a, c with
           | Num x, Num y => Ok (Num (x + y))
           | _, NaN => Ok a
           | _, _ => Raise TypeError
           end) (Ok (Num a)) vals = Ok (Num (a + total)).
Proof.
  intros Hnum. revert a total.
  induction Hnum as [|c vals Hc _ IH]; intros a total <-; simpl.
  - do 2 f_equal. ring.
  - destruct c as [| |q| |]; try done; simpl.
    + by apply IH.
    + rewrite (IH (a + q)%Qc _ eq_refl). do 2 f_equal. ring.
Qed.

Lemma zip_fmap_same {X Y Z} (g : X → Y) (h : X → Z) (l : list X) :
  zip (g <$> l) (h <$> l) = (λ x, (g x, h x)) <$> l.
Proof. induction l as [|x l IH]; [done|]. csimpl. by rewrite IH. Qed.

Lemma calculate_volumne_records kr kw (rs : list (Z * list cell)) :
  Forall (λ r, numeric (field kr r.2) = true ∧ numeric (field kw r.2) = true) rs →
  mul ((λ r, field kr r.2) <$> rs) ((λ r, field kw r.2) <$> rs)
    = Ok ((λ r, product (field kr r.2) (field kw r.2)) <$> rs)
  ∧ Forall (λ c, numeric c = true)
      ((λ r, product (field kr r.2) (field kw r.2)) <$> rs)
  ∧ foldr (λ c acc, match c with Num q => q + acc | _ => acc end)%Qc 0%Qc
      ((λ r, product (field kr r.2) (field kw r.2)) <$> rs)
    = training_volume kr kw rs.
Proof.
  intros Hnum. split_and!.
  - unfold mul. rewrite zip_fmap_same.
    rewrite (list_fmap_compose
      (λ r : Z * list cell, (field kr r.2, field kw r.2))
      (λ ab : cell * cell, product ab.1 ab.2)).
    apply mapM_total. apply Forall_fmap. eapply Forall_impl; [done|].
    intros r [Hr Hw]. simpl.
    by destruct (field kr r.2), (field kw r.2).
  - apply Forall_fmap. eapply Forall_impl; [done|].
    intros r [Hr Hw]. simpl.
    by destruct (field kr r.2), (field kw r.2).
  - induction Hnum as [|r rs [Hr Hw] _ IH]; [done|].
    csimpl. rewrite IH. unfold set_volume.
    destruct (field kr r.2), (field kw r.2); try done; simpl; ring.
Qed.
End volume.

Lemma volume_of_group (group : Pd.DataFrame) (kr kw : nat) :
  Pd.position "Repetitions" (Pd.columns group) = Some kr →
  Pd.position "Weight" (Pd.columns group) = Some kw →
  Forall (λ r, numeric (Pd.field kr r.2) = true
               ∧ numeric (Pd.field kw r.2) = true) (Pd.records group) →
  calculate_volumne group = Ok (Pd.Num (training_volume kr kw (Pd.records group))).
Proof.
  intros Hkr Hkw Hnum. unfold calculate_volumne, Pd.getitem.
  rewrite Hkr, Hkw. simpl.
  destruct (calculate_volumne_records kr kw _ Hnum) as (-> & Hp & <-).
  simpl. unfold Pd.sum. rewrite (sum_from 0 _ _ Hp eq_refl).
  do 2 f_equal. ring.
Qed.


Section groups.
Import Pd.



End groups.



(** * Reading and writing columns *)

Section setitem.
Import Pd.
Implicit Types (df : DataFrame) (vals : list cell).

Lemma field_insert_eq k (r : list cell) v : k < length r → field k (<[k := v]> r) = v.
Proof. intros Hk. unfold field. by rewrite list_lookup_insert_eq. Qed.

Lemma field_insert_ne k j (r : list cell) v : k ≠ j → field j (<[k := v]> r) = field j r.
Proof. intros Hk. unfold field. by rewrite list_lookup_insert_ne. Qed.

Lemma field_snoc_eq (r : list cell) v : field (length r) (r ++ [v]) = v.
Proof. unfold field. by rewrite lookup_app_r, Nat.sub_diag by lia. Qed.

Lemma field_snoc_ne k (r : list cell) v : k < length r → field k (r ++ [v]) = field k r.
Proof. intros Hk. unfold field. by rewrite lookup_app_l. Qed.

Lemma position_lt name cols k : position name cols = Some k → k < length cols.
Proof. intros [Hk _]%position_Some. by eapply lookup_lt_Some. Qed.

Lemma position_app_l name cols cols' k :
  position name cols = Some k → position name (cols ++ cols') = Some k.
Proof.
  unfold position. destruct (list_find _ cols) as [[k' c]|] eqn:E; [|done].
  intros [= <-]. by erewrite list_find_app_l.
Qed.

Lemma position_snoc_new name cols :
  position name cols = None → position name (cols ++ [name]) = Some (length cols).
Proof.
  unfold position. destruct (list_find _ cols) as [[k' c]|] eqn:E; [done|].
  intros _. rewrite list_find_app_r by done. simpl.
  rewrite decide_True by done. simpl. done.
Qed.

Lemma position_snoc_other name name' cols :
  name' ≠ name → position name' cols = None →
  position name' (cols ++ [name]) = None.
Proof.
  intros Hne Hnone. apply position_None. apply position_None in Hnone.
  rewrite elem_of_app, list_elem_of_singleton. by intros [?|?].
Qed.

Lemma fmap_zip_with_new {X Y W} (f : X → Y → W) (g : W → Y) (l : list X) (k : list Y) :
  length k = length l →
  Forall (λ x, ∀ y, g (f x y) = y) l →
  g <$> zip_with f l k = k.
Proof.
  intros Hlen Hg. revert k Hlen.
  induction Hg as [|x l Hx _ IH]; intros [|y k] Hlen; try done.
  csimpl. rewrite Hx, IH; [done|]. simpl in Hlen. lia.
Qed.

Lemma fmap_zip_with_old {X Y W V} (f : X → Y → W) (g : W → V) (g' : X → V)
    (l : list X) (k : list Y) :
  length k = length l →
  Forall (λ x, ∀ y, g (f x y) = g' x) l →
  g <$> zip_with f l k = g' <$> l.
Proof.
  intros Hlen Hg. revert k Hlen.
  induction Hg as [|x l Hx _ IH]; intros [|y k] Hlen; try done.
  csimpl. rewrite Hx, IH; [done|]. simpl in Hlen. lia.
Qed.

(** Writing a column: the column reads back as written, every other
    column and the index are as before. *)
Lemma setitem_Ok df name vals :
  wf df → length vals = length (records df) →
  ∃ df',
    setitem df name vals = Ok df'
    ∧ wf df'
    ∧ getitem df' name = Ok vals
    ∧ (∀ name', name' ≠ name → getitem df' name' = getitem df name')
    ∧ index df' = index df
    ∧ length (records df') = length (records df).
Proof.
  intros [Hnd Hlen] Hvals. unfold setitem. rewrite bool_decide_eq_true_2 by done.
  destruct (position name (columns df)) as [k|] eqn:Ek.
  - eexists. split; [done|].
    pose proof (position_lt _ _ _ Ek) as Hk.
    split_and!.
    + split; [done|]. simpl. apply Forall_forall. intros r' Hr'.
      apply elem_of_zip_with in Hr' as (r & v & -> & Hr & _). simpl.
      rewrite length_insert. rewrite Forall_forall in Hlen. by apply Hlen.
    + unfold getitem. simpl. rewrite Ek. f_equal.
      apply fmap_zip_with_new; [done|].
      eapply Forall_impl; [done|]. intros r Hr v. simpl in *.
      apply field_insert_eq. lia.
    + intros name' Hne. unfold getitem. simpl.
      destruct (position name' (columns df)) as [k'|] eqn:Ek'; [|done].
      f_equal. assert (k ≠ k') as Hkk.
      { intros ->. apply position_Some in Ek as [Ek _].
        apply position_Some in Ek' as [Ek' _]. congruence. }
      apply fmap_zip_with_old; [done|].
      apply Forall_forall. intros r _ v. simpl. by apply field_insert_ne.
    + unfold index. simpl. apply fmap_zip_with_old; [done|].
      by apply Forall_forall.
    + simpl. rewrite length_zip_with. lia.
  - eexists. split; [done|].
    pose proof Ek as Hnew. apply position_None in Hnew.
    split_and!.
    + split; simpl.
      * apply NoDup_app. split_and!; [done| |apply NoDup_singleton].
        intros c Hc ->%list_elem_of_singleton. done.
      * apply Forall_forall. intros r' Hr'.
        apply elem_of_zip_with in Hr' as (r & v & -> & Hr & _). simpl.
        rewrite !length_app. simpl. rewrite Forall_forall in Hlen.
        by rewrite (Hlen r Hr).
    + unfold getitem. simpl. rewrite position_snoc_new by done. f_equal.
      apply fmap_zip_with_new; [done|].
      eapply Forall_impl; [done|]. intros r Hr v. simpl in *.
      rewrite <-Hr. apply field_snoc_eq.
    + intros name' Hne. unfold getitem. simpl.
      destruct (position name' (columns df)) as [k'|] eqn:Ek'.
      * rewrite (position_app_l _ _ _ _ Ek'). f_equal.
        pose proof (position_lt _ _ _ Ek') as Hk'.
        apply fmap_zip_with_old; [done|].
        eapply Forall_impl; [done|]. intros r Hr v. simpl in *.
        apply field_snoc_ne. lia.
      * by rewrite position_snoc_other.
    + unfold index. simpl. apply fmap_zip_with_old; [done|].
      by apply Forall_forall.
    + simpl. rewrite length_zip_with. lia.
Qed.
End setitem.

(** * Session duration and set order *)

Section sessions.
Import Pd.

Lemma mapM_cons {X W} (f : X → result W) (x : X) (l : list X) :
  mapM f (x :: l) = (y ← f x; k ← mapM f l; mret (y :: k)).
Proof. done. Qed.

Lemma mapM_fmap {X Y W} (f : Y → result W) (g : X → Y) (l : list X) :
  mapM f (g <$> l) = mapM (f ∘ g) l.
Proof.
  induction l as [|x l IH]; [done|].
  by rewrite fmap_cons, !mapM_cons, IH.
Qed.

Lemma group_of_fmap2 {K X Y} `{EqDecision K} (g : X → option K) (h : X → Y)
    (k : K) (l : list X) :
  group_of k (g <$> l) (h <$> l) = h <$> filter (λ x, g x = Some k) l.
Proof.
  unfold group_of. induction l as [|x l IH]; [done|]. rewrite !fmap_cons.
  change (zip (g x :: (g <$> l)) (h x :: (h <$> l)))
    with ((g x, h x) :: zip (g <$> l) (h <$> l)).
  rewrite !filter_cons. cbv beta. change ((g x, h x).1) with (g x).
  destruct (decide (g x = Some k)); [rewrite !fmap_cons|]; by rewrite IH.
Qed.

Lemma reduce_times (pick : Z → Z → Z) (pickq : Qc → Qc → Qc) (a : Z) (ts : list Z) :
  foldl (λ acc c, a ← acc; extreme pick pickq a c) (Ok (Timestamp a)) (Timestamp <$> ts)
  = Ok (Timestamp (foldl pick a ts)).
Proof. revert a. induction ts as [|t ts IH]; intros a; [done|]. csimpl. apply IH. Qed.

Lemma max_times t ts : max (Timestamp <$> (t :: ts)) = Ok (Timestamp (foldl Z.max t ts)).
Proof. unfold max, reduce. csimpl. apply reduce_times. Qed.

Lemma min_times t ts : min (Timestamp <$> (t :: ts)) = Ok (Timestamp (foldl Z.min t ts)).
Proof. unfold min, reduce. csimpl. apply reduce_times. Qed.

Lemma foldl_max_spec (a : Z) (ts : list Z) :
  foldl Z.max a ts ∈ a :: ts ∧ ∀ t, t ∈ a :: ts → (t ≤ foldl Z.max a ts)%Z.
Proof.
  revert a. induction ts as [|t ts IH]; intros a; simpl.
  - split; [by left|]. intros t ->%list_elem_of_singleton. lia.
  - destruct (IH (Z.max a t)) as [Hin Hle]. split.
    + apply elem_of_cons in Hin as [Heq|Hin]; [|by do 2 right].
      rewrite Heq. destruct (Z.max_spec a t) as [[_ ->]|[_ ->]];
        [right; by left|by left].
    + intros t' Ht'. pose proof (Hle (Z.max a t) ltac:(by left)) as Hm.
      apply elem_of_cons in Ht' as [->|Ht']; [lia|].
      apply elem_of_cons in Ht' as [->|Ht']; [lia|].
      apply Hle. by right.
Qed.

Lemma foldl_min_spec (a : Z) (ts : list Z) :
  foldl Z.min a ts ∈ a :: ts ∧ ∀ t, t ∈ a :: ts → (foldl Z.min a ts ≤ t)%Z.
Proof.
  revert a. induction ts as [|t ts IH]; intros a; simpl.
  - split; [by left|]. intros t ->%list_elem_of_singleton. lia.
  - destruct (IH (Z.min a t)) as [Hin Hle]. split.
    + apply elem_of_cons in Hin as [Heq|Hin]; [|by do 2 right].
      rewrite Heq. destruct (Z.min_spec a t) as [[_ ->]|[_ ->]];
        [by left|right; by left].
    + intros t' Ht'. pose proof (Hle (Z.min a t) ltac:(by left)) as Hm.
      apply elem_of_cons in Ht' as [->|Ht']; [lia|].
      apply elem_of_cons in Ht' as [->|Ht']; [lia|].
      apply Hle. by right.
Qed.

Lemma same_day_span (t1 t2 : Z) :
  day t1 = day t2 → (t2 ≤ t1)%Z → ((t1 - t2) `mod` 86400 = t1 - t2)%Z.
Proof.
  unfold day. intros Hd Hle. apply Z.mod_small.
  pose proof (Z.div_mod t1 86400 ltac:(lia)).
  pose proof (Z.div_mod t2 86400 ltac:(lia)).
  pose proof (Z.mod_pos_bound t1 86400 ltac:(lia)).
  pose proof (Z.mod_pos_bound t2 86400 ltac:(lia)).
  lia.
Qed.
End sessions.

Section set_order.
Import Pd.

Lemma Qc_of_Z_succ (n : nat) : (Qc_of_Z (Z.of_nat n) + 1 = Qc_of_Z (Z.of_nat (S n)))%Qc.
Proof.
  apply Qc_is_canon. unfold Qc_of_Z. simpl.
  rewrite !Qred_correct. unfold Qeq. simpl. lia.
Qed.

Lemma length_filter_fmap {X Y} (f : X → Y) (P : Y → Prop) `{!∀ y, Decision (P y)}
    (l : list X) :
  length (filter P (f <$> l)) = length (filter (λ x, P (f x)) l).
Proof.
  induction l as [|x l IH]; [done|]. rewrite fmap_cons, !filter_cons.
  destruct (decide (P (f x))); simpl; by rewrite IH.
Qed.

Lemma cumcount_from_lookup {K} `{EqDecision K} (keys : list (option K)) :
  ∀ seen i,
    cumcount_from seen keys !! i
    = (λ k, match k with
            | None => NaN
            | Some _ =>
                Num (Qc_of_Z (Z.of_nat
                  (length (filter (λ k', k' = k) (seen ++ take i keys)))))
            end) <$> keys !! i.
Proof.
  induction keys as [|k keys IH]; intros seen i; [done|].
  destruct i as [|i]; simpl.
  - by rewrite app_nil_r.
  - rewrite IH. by rewrite <-app_assoc.
Qed.

Lemma pair_keys_zip (times : list Z) (names : list cell) :
  pair_keys ((λ t, Some (day t)) <$> times) (key_of <$> names)
  = (λ tn, n ← key_of tn.2; Some (day tn.1, n)) <$> zip times names.
Proof.
  unfold pair_keys. rewrite zip_with_fmap_l, zip_with_fmap_r, zip_with_zip.
  apply list_fmap_ext. by intros _ [t n] _.
Qed.

Lemma cumcount_position (times : list Z) (names : list cell) i t n :
  times !! i = Some t → names !! i = Some n → n ≠ NaN →
  cumcount (pair_keys ((λ t, Some (day t)) <$> times) (key_of <$> names)) !! i
  = Some (Num (Qc_of_Z (Z.of_nat (earlier_sets times names i t n)))).
Proof.
  intros Ht Hn Hnan. unfold cumcount. rewrite cumcount_from_lookup.
  rewrite pair_keys_zip, list_lookup_fmap.
  rewrite (proj2 (lookup_zip_with_Some pair times names i (t, n))) by eauto.
  simpl. assert (key_of n = Some n) as -> by by destruct n. simpl.
  do 4 f_equal. rewrite <-fmap_take, length_filter_fmap. unfold earlier_sets.
  f_equal. apply list_filter_iff. intros [t' n']. simpl. split.
  - destruct n'; simpl; intros [=]; subst; done.
  - intros [-> ->]. by destruct n.
Qed.

Lemma cumcount_cells {K} `{EqDecision K} (keys : list (option K)) seen :
  Forall (λ c, numeric c = true) (cumcount_from seen keys).
Proof.
  revert seen. induction keys as [|k keys IH]; intros seen; simpl; [done|].
  constructor; [by destruct k|done].
Qed.

Lemma length_cumcount {K} `{EqDecision K} (keys : list (option K)) seen :
  length (cumcount_from seen keys) = length keys.
Proof.
  revert seen. induction keys as [|k keys IH]; intros seen; simpl; [done|].
  by rewrite IH.
Qed.

Lemma add_scalar_numeric (vals : list cell) :
  Forall (λ c, numeric c = true) vals →
  add_scalar 1 vals = Ok (succ_cell <$> vals).
Proof.
  intros Hnum. apply mapM_total. eapply Forall_impl; [done|]. by intros [].
Qed.
End set_order.

Section durations.
Import Pd.

Lemma span_spec (times : list Z) (t : Z) :
  t ∈ times →
  (latest ← max (Timestamp <$> filter (λ t', day t' = day t) times);
   earliest ← min (Timestamp <$> filter (λ t', day t' = day t) times);
   sub latest earliest) = Ok (Delta (span times t))
  ∧ ∃ latest earliest,
      latest_on (day t) times latest ∧ earliest_on (day t) times earliest
      ∧ span times t = (latest - earliest)%Z.
Proof.
  intros Ht. unfold span.
  assert (t ∈ filter (λ t', day t' = day t) times) as Hg
    by by apply list_elem_of_filter.
  destruct (filter (λ t', day t' = day t) times) as [|t0 ts] eqn:E;
    [by apply not_elem_of_nil in Hg|].
  split; [by rewrite max_times, min_times|].
  exists (foldl Z.max t0 ts), (foldl Z.min t0 ts).
  destruct (foldl_max_spec t0 ts) as [Hmax_in Hmax].
  destruct (foldl_min_spec t0 ts) as [Hmin_in Hmin].
  rewrite <-E in Hmax_in, Hmax, Hmin_in, Hmin.
  apply list_elem_of_filter in Hmax_in as [? ?].
  apply list_elem_of_filter in Hmin_in as [? ?].
  split_and!; [| |done].
  - split_and!; [done..|]. intros t' ? ?. apply Hmax.
    by apply list_elem_of_filter.
  - split_and!; [done..|]. intros t' ? ?. apply Hmin.
    by apply list_elem_of_filter.
Qed.

Lemma span_small (times : list Z) (t : Z) :
  t ∈ times → (span times t `mod` 86400 = span times t)%Z.
Proof.
  intros Ht. destruct (span_spec times t Ht)
    as (_ & latest & earliest & (H1 & H2 & H3) & (H4 & H5 & H6) & ->).
  apply same_day_span; [congruence|]. by apply H3.
Qed.

Lemma span_same_day (times : list Z) (t t' : Z) :
  day t = day t' → span times t = span times t'.
Proof. intros Hd. unfold span. by rewrite Hd. Qed.

Lemma session_durations (times : list Z) :
  (dates ← dt_date (Timestamp <$> times);
   spans ← groupby_transform dates (Timestamp <$> times)
             (λ x, latest ← max x; earliest ← min x; sub latest earliest);
   dt_seconds spans)
  = Ok ((λ t, Num (Qc_of_Z (span times t))) <$> times).
Proof.
  assert (dt_date (Timestamp <$> times) = Ok ((λ t, Some (day t)) <$> times)) as ->.
  { unfold dt_date. rewrite mapM_fmap. apply mapM_total. by apply Forall_forall. }
  simpl. unfold groupby_transform. rewrite mapM_fmap.
  rewrite (mapM_total _ (λ t, Delta (span times t))).
  - simpl. unfold dt_seconds. rewrite mapM_fmap.
    rewrite (mapM_total _ (λ t, Num (Qc_of_Z (span times t)))); [done|].
    apply Forall_forall. intros t Ht. simpl. by rewrite span_small.
  - apply Forall_forall. intros t Ht. simpl.
    rewrite group_of_fmap2.
    rewrite (list_filter_iff _ (λ t', day t' = day t)).
    + by apply span_spec.
    + intros t'. split; [by intros [=]|by intros ->].
Qed.
End durations.

(** C6: on a table with a time stamp in every cell of [Time],
    [extend_gymbook_df] gives every set, as [Session Duration (s)], the
    seconds between the latest and the earliest set of its calendar day,
    and, as [Set Order], one more than the number of earlier sets of the
    same day and exercise name. *)
Theorem extend_gymbook_df_sessions (df : Pd.DataFrame) (times : list Z)
    (names : list Pd.cell) :
  Pd.wf df →
  Pd.getitem df "Time" = Ok (Pd.Timestamp <$> times) →
  Pd.getitem df "Exercise Name" = Ok names →
  ∃ df' durations orders,
    extend_gymbook_df df = Ok df'
    ∧ Pd.getitem df' "Session Duration (s)" = Ok durations
    ∧ Pd.getitem df' "Set Order" = Ok orders
    ∧ (∀ i t, times !! i = Some t →
         ∃ latest earliest,
           latest_on (day t) times latest ∧ earliest_on (day t) times earliest
           ∧ durations !! i = Some (Pd.Num (Qc_of_Z (latest - earliest))))
    ∧ (∀ i j t t', times !! i = Some t → times !! j = Some t' →
         day t = day t' → durations !! i = durations !! j)
    ∧ (∀ i t, times !! i = Some t →
         (∀ j t', times !! j = Some t' → day t' = day t → j = i) →
         durations !! i = Some (Pd.Num (Qc_of_Z 0)))
    ∧ (∀ i t n, times !! i = Some t → names !! i = Some n → n ≠ Pd.NaN →
         orders !! i
         = Some (Pd.Num (Qc_of_Z (Z.of_nat (S (earlier_sets times names i t n)))))).
Proof.
  intros Hwf Htime Hnames.
  pose proof (getitem_length _ _ _ Htime) as Hlt. rewrite length_fmap in Hlt.
  pose proof (getitem_length _ _ _ Hnames) as Hln.
  set (seconds := (λ t, Pd.Num (Qc_of_Z (span times t))) <$> times).
  destruct (setitem_Ok df "Session Duration (s)" seconds Hwf)
    as (df1 & Hset1 & Hwf1 & Hget1 & Hold1 & _ & Hlen1).
  { unfold seconds. by rewrite length_fmap. }
  set (order := succ_cell <$> Pd.cumcount
    (Pd.pair_keys ((λ t, Some (day t)) <$> times) (Pd.key_of <$> names))).
  destruct (setitem_Ok df1 "Set Order" order Hwf1)
    as (df2 & Hset2 & Hwf2 & Hget2 & Hold2 & _ & Hlen2).
  { unfold order, Pd.cumcount, Pd.pair_keys.
    rewrite length_fmap, length_cumcount, length_zip_with, !length_fmap. lia. }
  exists df2, seconds, order. split_and!.
  - unfold extend_gymbook_df. rewrite Htime. simpl.
    pose proof (session_durations times) as Hdur.
    destruct (Pd.dt_date (Pd.Timestamp <$> times)) as [dates|] eqn:Edates; [|done].
    simpl in Hdur |- *.
    destruct (Pd.groupby_transform dates _ _) as [spans|]; [|done].
    simpl in Hdur |- *. rewrite Hdur. simpl. fold seconds. rewrite Hset1. simpl.
    rewrite (Hold1 "Time") by done. rewrite Htime. simpl.
    rewrite Edates. simpl.
    rewrite (Hold1 "Exercise Name") by done. rewrite Hnames. simpl.
    assert (dates = (λ t, Some (day t)) <$> times) as ->.
    { unfold Pd.dt_date in Edates. rewrite mapM_fmap in Edates.
      rewrite (mapM_total _ (λ t, Some (day t))) in Edates
        by by apply Forall_forall.
      by injection Edates as <-. }
    rewrite add_scalar_numeric by apply cumcount_cells.
    simpl. fold order. done.
  - rewrite (Hold2 "Session Duration (s)") by done. done.
  - done.
  - intros i t Ht.
    destruct (span_spec times t) as (_ & latest & earliest & H1 & H2 & Hspan).
    { by eapply list_elem_of_lookup_2. }
    exists latest, earliest. split_and!; [done..|].
    unfold seconds. rewrite list_lookup_fmap, Ht. simpl. by rewrite Hspan.
  - intros i j t t' Ht Ht' Hd. unfold seconds.
    rewrite !list_lookup_fmap, Ht, Ht'. simpl.
    by rewrite (span_same_day times t t').
  - intros i t Ht Halone.
    destruct (span_spec times t) as (_ & latest & earliest & H1 & H2 & Hspan).
    { by eapply list_elem_of_lookup_2. }
    unfold seconds. rewrite list_lookup_fmap, Ht. simpl. rewrite Hspan.
    destruct H1 as ((j1 & Hj1)%list_elem_of_lookup_1 & Hd1 & _).
    destruct H2 as ((j2 & Hj2)%list_elem_of_lookup_1 & Hd2 & _).
    pose proof (Halone j1 latest Hj1 Hd1) as ->.
    pose proof (Halone j2 earliest Hj2 Hd2) as ->.
    rewrite Hj1 in Hj2. injection Hj2 as ->.
    by rewrite Z.sub_diag.
  - intros i t n Ht Hn Hnan. unfold order.
    rewrite list_lookup_fmap, (cumcount_position _ _ _ t n) by done.
    simpl. by rewrite Qc_of_Z_succ.
Qed.

(** * Numbers in text *)

Section digits.
Implicit Types (s t run pre post : string) (c : ascii).





Lemma digits_prefix_app run post :
  Py.all_digits run = true → Py.starts_with Py.re_digit post = false →
  Py.digits_prefix (run +:+ post) = run.
Proof.
  intros Hrun Hpost. induction run as [|c run IH]; simpl.
  - destruct post as [|d post]; [done|]. simpl in *. by rewrite Hpost.
  - simpl in Hrun. apply andb_true_iff in Hrun as [-> Hrun]. by rewrite IH.
Qed.

Lemma first_run_search s run :
  first_run s run → Py.search_digits s = Some run.
Proof.
  intros (pre & post & -> & Hpre & [Hne Hrun] & Hpost).
  induction pre as [|c pre IH]; simpl.
  - destruct run as [|d run]; [done|]. simpl in *.
    apply andb_true_iff in Hrun as [Hd Hrun]. rewrite Hd.
    by rewrite digits_prefix_app.
  - simpl in Hpre. apply andb_true_iff in Hpre as [Hc Hpre].
    apply negb_true_iff in Hc. rewrite Hc. by apply IH.
Qed.

Lemma search_digits_None s :
  digit_free s = true → Py.search_digits s = None.
Proof.
  induction s as [|c s IH]; [done|]. simpl.
  intros [Hc Hs]%andb_true_iff. apply negb_true_iff in Hc. rewrite Hc. auto.
Qed.
End digits.

Section decimals.
Implicit Types (s t run whole frac rest : string) (c : ascii).

Lemma string_cons_app c s : String c s = String c EmptyString +:+ s.
Proof. done. Qed.











End decimals.

Section literals.
Implicit Types (s whole frac : string) (c : ascii).

Lemma int_digits s : digits s → Py.int s = Ok (Py.digits_value s).
Proof.
  intros [Hne Hd]. unfold Py.int.
  by rewrite Hd, bool_decide_eq_false_2.
Qed.






End literals.

Section dichotomy.
Implicit Types (s whole frac : string) (c : ascii).






End dichotomy.

Section convert.
Import Pd.





Lemma setitem_columns df name vals df' k :
  setitem df name vals = Ok df' →
  position name (columns df) = Some k →
  columns df' = columns df.
Proof.
  unfold setitem. intros Hset Hk. rewrite Hk in Hset.
  case_bool_decide; [|done]. by injection Hset as <-.
Qed.
End convert.


(** * The merged table *)

Section concat.
Import Pd.
Implicit Types (df : DataFrame) (cols : list string) (r : Z * list cell).

Lemma NoDup_all_columns df1 df2 :
  NoDup (columns df1) → NoDup (columns df2) → NoDup (all_columns df1 df2).
Proof.
  intros H1 H2. apply NoDup_app. split_and!; [done| |by apply NoDup_filter].
  intros c Hc [Hnot _]%list_elem_of_filter. done.
Qed.

Lemma widen_field cols cols' r name k :
  cols' !! k = Some name →
  field k (widen cols cols' r).2 = cell_of cols name r.
Proof.
  intros Hk. unfold widen, field, cell_of. simpl.
  by rewrite list_lookup_fmap, Hk.
Qed.

(** A widened record keeps its cells, and has a missing cell under every
    column its table lacks. *)
Lemma widen_keeps cols cols' r name :
  NoDup cols' → name ∈ cols' →
  cell_of cols' name (widen cols cols' r) = cell_of cols name r.
Proof.
  intros Hnd (k & Hk)%list_elem_of_lookup_1.
  unfold cell_of at 1. rewrite (position_lookup _ _ _ Hnd Hk).
  by apply widen_field.
Qed.

Lemma length_widen cols cols' r : length (widen cols cols' r).2 = length cols'.
Proof. unfold widen. simpl. by rewrite length_fmap. Qed.

Lemma getitem_cell_of df name vals :
  getitem df name = Ok vals → vals = cell_of (columns df) name <$> records df.
Proof.
  intros (k & Hk & ->)%getitem_Ok. apply list_fmap_ext. intros _ r _.
  unfold cell_of. by rewrite Hk.
Qed.

Lemma concat_Ok df1 df2 :
  wf df1 → wf df2 →
  ∃ df,
    concat df1 df2 = Ok df
    ∧ wf df
    ∧ columns df = all_columns df1 df2
    ∧ records df = (widen (columns df1) (all_columns df1 df2) <$> records df1)
                   ++ (widen (columns df2) (all_columns df1 df2) <$> records df2)
    ∧ ∀ name, name ∈ all_columns df1 df2 →
        getitem df name
        = Ok ((cell_of (columns df1) name <$> records df1)
              ++ (cell_of (columns df2) name <$> records df2)).
Proof.
  intros [Hnd1 Hlen1] [Hnd2 Hlen2]. unfold concat.
  rewrite !bool_decide_eq_true_2 by done. simpl.
  eexists. split; [done|]. fold (all_columns df1 df2).
  pose proof (NoDup_all_columns df1 df2 Hnd1 Hnd2) as Hnd.
  split_and!; [|done..|].
  - split; [done|]. simpl. apply Forall_app. split;
      apply Forall_fmap, Forall_forall; intros r _; apply length_widen.
  - intros name (k & Hk)%list_elem_of_lookup_1. unfold getitem. simpl.
    rewrite (position_lookup _ _ _ Hnd Hk). f_equal.
    rewrite fmap_app, <-!list_fmap_compose. f_equal;
      apply list_fmap_ext; intros _ r _; simpl; by apply widen_field.
Qed.
End concat.

Section sort.
Import Pd.
Implicit Types (df : DataFrame) (r : Z * list cell).

#[local] Instance later_keyed_total {A} : Total (@later_keyed A).
Proof.
  intros [[x|] a] [[y|] b]; unfold later_keyed, later; simpl; try tauto. lia.
Qed.

#[local] Instance later_keyed_trans {A} : Transitive (@later_keyed A).
Proof.
  intros [[x|] a] [[y|] b] [[z|] c]; unfold later_keyed, later; simpl;
    try tauto. lia.
Qed.

Lemma as_time_timely (vals : list cell) :
  Forall (λ c, timely c = true) vals → mapM as_time vals = Ok (time_key <$> vals).
Proof.
  intros Hvals. apply mapM_total. eapply Forall_impl; [done|]. by intros [].
Qed.

Lemma zip_fmap_self {X Y} (g : X → Y) (l : list X) :
  zip (g <$> l) l = (λ x, (g x, x)) <$> l.
Proof. induction l as [|x l IH]; [done|]. csimpl. by rewrite IH. Qed.

Lemma StronglySorted_fmap_on {X Y} (R1 : relation X) (R2 : relation Y)
    (P : X → Prop) (g : X → Y) (l : list X) :
  (∀ x y, P x → P y → R1 x y → R2 (g x) (g y)) →
  Forall P l → StronglySorted R1 l → StronglySorted R2 (g <$> l).
Proof.
  intros HR HP. induction 1 as [|x l Hl IH Hx]; [constructor|].
  apply Forall_cons in HP as [Px Pl]. csimpl. constructor; [by apply IH|].
  apply Forall_fmap, Forall_forall. intros y Hy. simpl.
  rewrite Forall_forall in Hx, Pl. apply HR; auto.
Qed.

Lemma sort_values_desc_Ok df name vals :
  wf df → getitem df name = Ok vals →
  Forall (λ c, timely c = true) vals →
  ∃ df',
    sort_values_desc df name = Ok df'
    ∧ wf df'
    ∧ columns df' = columns df
    ∧ records df' ≡ₚ records df
    ∧ StronglySorted
        (λ r r', later (time_key (cell_of (columns df) name r))
                       (time_key (cell_of (columns df) name r')))
        (records df').
Proof.
  intros [Hnd Hlen] Hget Htimely. unfold sort_values_desc. rewrite Hget. simpl.
  rewrite as_time_timely by done. simpl. eexists. split; [done|].
  rewrite (getitem_cell_of _ _ _ Hget), <-list_fmap_compose, zip_fmap_self.
  set (keyed := (λ r, ((time_key ∘ cell_of (columns df) name) r, r)) <$> records df).
  assert ((merge_sort later_keyed keyed).*2 ≡ₚ records df) as Hperm.
  { rewrite merge_sort_Permutation. unfold keyed.
    rewrite <-list_fmap_compose. by rewrite list_fmap_id. }
  split_and!; simpl; [|done..|].
  - split; [done|]. simpl. rewrite Hperm. done.
  - apply (StronglySorted_fmap_on later_keyed _
             (λ p, p.1 = time_key (cell_of (columns df) name p.2))).
    + intros [k r] [k' r'] Hk Hk'. simpl in *. subst. done.
    + apply Forall_forall. intros p Hp.
      rewrite merge_sort_Permutation in Hp.
      by apply list_elem_of_fmap in Hp as (r & -> & _).
    + apply StronglySorted_merge_sort; apply _.
Qed.
End sort.

Section weights.
Import Pd.
Implicit Types (df : DataFrame) (r : Z * list cell).

Lemma astype_float_filled (vals : list cell) :
  Forall (λ c, numeric c = true) vals →
  astype_float (fillna (Num 0) vals) = Ok (fillna (Num 0) vals).
Proof.
  intros Hvals. unfold astype_float.
  rewrite <-(list_fmap_id (fillna (Num 0) vals)) at 2.
  apply mapM_total. unfold fillna. apply Forall_fmap.
  eapply Forall_impl; [done|]. by intros [].
Qed.

Lemma filled_numbers (vals : list cell) :
  Forall (λ c, numeric c = true) vals →
  Forall (λ c, ∃ q, c = Num q) (fillna (Num 0) vals).
Proof.
  intros Hvals. unfold fillna. apply Forall_fmap.
  eapply Forall_impl; [done|]. intros [] Hc; try done; by eexists.
Qed.

Lemma setitem_records df name vals df' k :
  setitem df name vals = Ok df' →
  position name (columns df) = Some k →
  records df' = zip_with (λ r v, (r.1, <[k := v]> r.2)) (records df) vals.
Proof.
  unfold setitem. intros Hset Hk. rewrite Hk in Hset.
  case_bool_decide; [|done]. by injection Hset as <-.
Qed.

Lemma zero_weight_zip kw (rs : list (Z * list cell)) :
  zip_with (λ r v, (r.1, <[kw := v]> r.2)) rs
    (fillna (Num 0) ((λ r, field kw r.2) <$> rs))
  = zero_weight kw <$> rs.
Proof.
  unfold fillna. rewrite !zip_with_fmap_r, zip_with_diag.
  apply list_fmap_ext. intros _ r _. unfold zero_weight.
  by destruct (field kw r.2).
Qed.
End weights.

(** C5: the table that [unified_df] builds from two cleaned tables -- each
    with time stamps or missing values under [Time] and numbers or missing
    values under [Weight] -- holds every record of both tables once and no
    other record, widened to the columns of both and with a missing weight
    set to zero; its [Time] column is in descending order and its [Weight]
    column has no missing value. *)
Theorem unified_df_merges (df_progression df_gymbook : Pd.DataFrame)
    (tp tg wp wg : list Pd.cell) :
  Pd.wf df_progression → Pd.wf df_gymbook →
  Pd.getitem df_progression "Time" = Ok tp →
  Pd.getitem df_gymbook "Time" = Ok tg →
  Pd.getitem df_progression "Weight" = Ok wp →
  Pd.getitem df_gymbook "Weight" = Ok wg →
  Forall (λ c, timely c = true) (tp ++ tg) →
  Forall (λ c, numeric c = true) (wp ++ wg) →
  ∃ df kw times weights,
    unified_df df_progression df_gymbook = Ok df
    ∧ Pd.columns df = all_columns df_progression df_gymbook
    ∧ Pd.position "Weight" (Pd.columns df) = Some kw
    ∧ Pd.records df
      ≡ₚ zero_weight kw <$>
           ((Pd.widen (Pd.columns df_progression) (Pd.columns df)
               <$> Pd.records df_progression)
            ++ (Pd.widen (Pd.columns df_gymbook) (Pd.columns df)
                  <$> Pd.records df_gymbook))
    ∧ Pd.getitem df "Time" = Ok times
    ∧ descending times
    ∧ Pd.getitem df "Weight" = Ok weights
    ∧ Forall (λ c, ∃ q, c = Pd.Num q) weights.
Proof.
  intros Hwfp Hwfg Htp Htg Hwp Hwg Htimely Hnumeric.
  destruct (concat_Ok df_progression df_gymbook Hwfp Hwfg)
    as (dfc & Hconcat & Hwfc & Hcols & Hrecs & Hcol).
  assert (∀ name vals, Pd.getitem df_progression name = Ok vals →
    name ∈ all_columns df_progression df_gymbook) as Hin.
  { intros name vals (k & [Hk _]%position_Some & _)%getitem_Ok.
    apply elem_of_app. left. by eapply list_elem_of_lookup_2. }
  assert (Pd.getitem dfc "Time" = Ok (tp ++ tg)) as Htime.
  { rewrite Hcol by by eapply Hin.
    by rewrite <-(getitem_cell_of _ _ _ Htp), <-(getitem_cell_of _ _ _ Htg). }
  assert (Pd.getitem dfc "Weight" = Ok (wp ++ wg)) as Hweight.
  { rewrite Hcol by by eapply Hin.
    by rewrite <-(getitem_cell_of _ _ _ Hwp), <-(getitem_cell_of _ _ _ Hwg). }
  destruct (sort_values_desc_Ok dfc "Time" _ Hwfc Htime Htimely)
    as (dfs & Hsort & Hwfs & Hcols' & Hperm & Hsorted).
  destruct (getitem_Ok _ _ _ Hweight) as (kw & Hkw & Hw).
  assert (Pd.getitem dfs "Weight" = Ok ((λ r, Pd.field kw r.2) <$> Pd.records dfs))
    as Hweight'.
  { unfold Pd.getitem. by rewrite Hcols', Hkw. }
  assert (Forall (λ c, numeric c = true) ((λ r, Pd.field kw r.2) <$> Pd.records dfs))
    as Hnumeric'.
  { rewrite Hperm, <-Hw. done. }
  set (filled := Pd.fillna (Pd.Num 0) ((λ r, Pd.field kw r.2) <$> Pd.records dfs)).
  destruct (setitem_Ok dfs "Weight" filled Hwfs)
    as (df & Hset & Hwf & Hget & Hold & _ & Hlen).
  { unfold filled, Pd.fillna. by rewrite !length_fmap. }
  assert (Pd.columns df = all_columns df_progression df_gymbook) as Hcols''.
  { rewrite (setitem_columns _ _ _ _ kw Hset) by by rewrite Hcols'.
    by rewrite Hcols'. }
  exists df, kw, (cell_of (Pd.columns dfc) "Time" <$> Pd.records dfs), filled.
  split_and!.
  - unfold unified_df. rewrite Hconcat. simpl. rewrite Hsort. simpl.
    rewrite Hweight'. simpl. rewrite astype_float_filled by done. simpl.
    done.
  - done.
  - by rewrite Hcols'', <-Hcols.
  - rewrite (setitem_records _ _ _ _ kw Hset) by by rewrite Hcols'.
    unfold filled. rewrite zero_weight_zip, Hperm, Hrecs, Hcols''. done.
  - rewrite (Hold "Time") by done.
    assert (Pd.getitem dfs "Time" = Ok (cell_of (Pd.columns dfs) "Time" <$> Pd.records dfs))
      as ->; [|by rewrite Hcols'].
    destruct (getitem_Ok _ _ _ Htime) as (kt & Hkt & _).
    unfold Pd.getitem, cell_of. by rewrite Hcols', Hkt.
  - unfold descending.
    eapply StronglySorted_fmap; [|exact Hsorted]. by intros r r' H.
  - done.
  - by apply filled_numbers.
Qed.

Lemma replace_names_witness :
  Pd.nunique (Pd.replace (Pd.Str <$> ["Chest Dip"; "Parallel Bar Dip"; "Plank"])
                         map_rename_in_both)
  ≤ Pd.nunique (Pd.Str <$> ["Chest Dip"; "Parallel Bar Dip"; "Plank"])
  ∧ Pd.replace (Pd.Str <$> ["Chest Dip"; "Parallel Bar Dip"; "Plank"])
               map_rename_in_both !! 2
    = Some (Pd.Str "Plank").
Proof.
  destruct (replace_names map_rename_in_both
              (Pd.Str <$> ["Chest Dip"; "Parallel Bar Dip"; "Plank"]))
    as [Hcount Hkeep].
  split; [done|]. apply Hkeep; [done|]. by intros s [= <-].
Defined.


Lemma extend_gymbook_df_sessions_witness :
  ∃ df' durations orders,
    extend_gymbook_df squat_sets = Ok df'
    ∧ Pd.getitem df' "Session Duration (s)" = Ok durations
    ∧ Pd.getitem df' "Set Order" = Ok orders
    ∧ durations !! 2 = Some (Pd.Num (Qc_of_Z 0))
    ∧ orders !! 1 = Some (Pd.Num (Qc_of_Z 2)).
Proof.
  destruct (extend_gymbook_df_sessions squat_sets [190100; 190000; 86400]%Z
              (Pd.Str <$> ["Barbell Squat"; "Barbell Squat"; "Barbell Squat"]))
    as (df' & durations & orders & Hrun & Hd & Ho & _ & _ & Hsingle & Horder).
  - split; [apply (bool_decide_unpack _); by vm_compute|].
    repeat (constructor; [reflexivity|]). constructor.
  - reflexivity.
  - reflexivity.
  - exists df', durations, orders. split_and!; [done..| |].
    + apply (Hsingle 2 86400%Z); [done|].
      intros [|[|[|j]]] t' [= <-]; by vm_compute.
    + by apply (Horder 1 190000%Z (Pd.Str "Barbell Squat")).
Defined.


Lemma unified_df_merges_witness :
  ∃ df kw times weights,
    unified_df progression_sets squat_sets = Ok df
    ∧ Pd.columns df
      = ["Workout Name"; "Exercise Name"; "Weight"; "Time"; "Repetitions"]
    ∧ Pd.position "Weight" (Pd.columns df) = Some kw
    ∧ Pd.records df
      ≡ₚ zero_weight kw <$>
           ((Pd.widen (Pd.columns progression_sets) (Pd.columns df)
               <$> Pd.records progression_sets)
            ++ (Pd.widen (Pd.columns squat_sets) (Pd.columns df)
                  <$> Pd.records squat_sets))
    ∧ Pd.getitem df "Time" = Ok times
    ∧ descending times
    ∧ Pd.getitem df "Weight" = Ok weights
    ∧ Forall (λ c, ∃ q, c = Pd.Num q) weights.
Proof.
  apply (unified_df_merges progression_sets squat_sets
           [Pd.Timestamp 200000; Pd.Timestamp 100]
           [Pd.Timestamp 190100; Pd.Timestamp 190000; Pd.Timestamp 86400]
           [Pd.NaN; Pd.Num (Qc_of_Z 40)]
           [Pd.Num (Q2Qc (161 # 2)); Pd.NaN; Pd.Num (Qc_of_Z 80)]).
  - split; [apply (bool_decide_unpack _); by vm_compute|].
    repeat (constructor; [reflexivity|]). constructor.
  - split; [apply (bool_decide_unpack _); by vm_compute|].
    repeat (constructor; [reflexivity|]). constructor.
  - reflexivity.
  - reflexivity.
  - reflexivity.
  - reflexivity.
  - repeat (constructor; [reflexivity|]). constructor.
  - repeat (constructor; [reflexivity|]). constructor.
Defined.

(** * The repair, run again *)

Lemma fix_linebreaks_loop_dated rows : ∀ fixed_lines,
  Forall (λ line, dated line = true) rows →
  fix_linebreaks_loop fixed_lines rows = Ok (fixed_lines ++ rows).
Proof.
  induction rows as [|line rows IH]; intros fl Hd; simpl.
  { by rewrite app_nil_r. }
  apply Forall_cons in Hd as [Hline Hd].
  destruct line as [|b fields]; [done|]. simpl in Hline. rewrite Hline. simpl.
  rewrite IH by done. by rewrite <-app_assoc.
Qed.

Lemma glue_Ok last_line line merged_line :
  glue last_line line = Ok merged_line →
  ∃ init a b fields,
    last_line = init ++ [a] ∧ line = b :: fields
    ∧ merged_line = init ++ [a +:+ ". " +:+ b] ++ fields.
Proof.
  intros Hglue. unfold glue in Hglue. inv_bind Hglue.
  apply item_last_Ok in H as [init ->].
  destruct line as [|b fields]; [done|]. injection H0 as <-.
  injection Hglue as <-. rewrite but_last_snoc. by eexists _, _, _, _.
Qed.

Lemma merge_step fixed_lines line fixed_lines' :
  (last_line ← Py.item_last fixed_lines;
   merged ← glue last_line line;
   Py.set_last fixed_lines merged) = Ok fixed_lines' →
  ∃ kept init a b fields,
    fixed_lines = kept ++ [init ++ [a]] ∧ line = b :: fields
    ∧ fixed_lines' = kept ++ [init ++ [a +:+ ". " +:+ b] ++ fields].
Proof.
  intros Hrun. inv_bind Hrun.
  apply item_last_Ok in H as [kept ->].
  apply glue_Ok in H0 as (init & a & b & fields & -> & -> & ->).
  rewrite set_last_snoc in Hrun. injection Hrun as <-.
  by eexists _, _, _, _, _.
Qed.

Lemma dated_tail_merged kept init a b fields :
  Forall (λ line, dated line = true) (tail (kept ++ [init ++ [a]])) →
  Forall (λ line, dated line = true)
    (tail (kept ++ [init ++ [a +:+ ". " +:+ b] ++ fields])).
Proof.
  destruct kept as [|h kept]; simpl; [done|].
  rewrite !Forall_app, !Forall_singleton. intros [Hk Hl]. split; [done|].
  by apply dated_glued.
Qed.

Lemma fix_linebreaks_loop_dates n : ∀ reader fixed_lines out,
  length reader ≤ n →
  fix_linebreaks_loop fixed_lines reader = Ok out →
  fixed_lines ≠ [] →
  Forall (λ line, dated line = true) (tail fixed_lines) →
  out ≠ [] ∧ Forall (λ line, dated line = true) (tail out).
Proof.
  induction n as [|n IH]; intros reader fl out Hlen Hrun Hne Hd.
  { destruct reader; [|simpl in Hlen; lia]. by injection Hrun as <-. }
  destruct reader as [|line reader]; [by injection Hrun as <-|].
  simpl in Hlen. destruct line as [|b fields].
  - destruct reader as [|next reader]; [done|]. simpl in Hrun, Hlen.
    apply bind_Ok in Hrun as (last_line & Hlast & Hrun).
    apply bind_Ok in Hrun as (merged_line & Hglue & Hrun).
    apply bind_Ok in Hrun as (fl' & Hset & Hrun).
    destruct (merge_step fl next fl') as (kept & init & a & b & fields & -> & -> & ->).
    { rewrite Hlast. simpl. rewrite Hglue. simpl. done. }
    apply (IH reader _ out) in Hrun; [done|lia|by destruct kept|].
    by apply dated_tail_merged.
  - simpl in Hrun. destruct (Py.match_date b) eqn:Eb; simpl in Hrun.
    + apply (IH reader _ out) in Hrun; [done|lia|by destruct fl|].
      destruct fl as [|h fl]; [done|]. simpl in *.
      rewrite Forall_app, Forall_singleton. done.
    + apply bind_Ok in Hrun as (last_line & Hlast & Hrun).
      apply bind_Ok in Hrun as (merged_line & Hglue & Hrun).
      apply bind_Ok in Hrun as (fl' & Hset & Hrun).
      destruct (merge_step fl (b :: fields) fl')
        as (kept & init & a & b' & fields' & -> & [= <- <-] & ->).
      { rewrite Hlast. simpl. rewrite Hglue. simpl. done. }
      apply (IH reader _ out) in Hrun; [done|lia|by destruct kept|].
      by apply dated_tail_merged.
Qed.

Lemma fix_linebreaks_dates reader out :
  fix_linebreaks reader = Ok out →
  out ≠ [] ∧ Forall (λ line, dated line = true) (tail out).
Proof.
  intros Hrun. destruct reader as [|header reader]; [done|].
  unfold fix_linebreaks in Hrun.
  by apply (fix_linebreaks_loop_dates (length reader)) in Hrun.
Qed.

(** X1: Running [fix_linebreaks] on its own result changes nothing: whenever
    it returns, all the rows after the first start with a date, and such
    rows are kept as they are. *)
Theorem fix_linebreaks_idempotent reader out :
  fix_linebreaks reader = Ok out →
  Forall (λ line, dated line = true) (tail out) ∧ fix_linebreaks out = Ok out.
Proof.
  intros Hrun. apply fix_linebreaks_dates in Hrun as [Hne Hd].
  split; [done|].
  destruct out as [|h out]; [done|]. simpl in *.
  by rewrite fix_linebreaks_loop_dated.
Qed.

Lemma fix_linebreaks_idempotent_witness :
  fix_linebreaks [["Date"; "Comment. more"]; ["2023-01-01"; "good. but heavy"; "x"]]
  = Ok [["Date"; "Comment. more"]; ["2023-01-01"; "good. but heavy"; "x"]].
Proof.
  apply (fix_linebreaks_idempotent
           [["Date"; "Comment"]; ["more"]; ["2023-01-01"; "good"]; [];
            ["but heavy"; "x"]]).
  reflexivity.
Defined.

(** * When the repair of line breaks raises *)

Lemma fix_linebreaks_loop_fault n : ∀ reader fixed_lines,
  length reader ≤ n →
  fixed_lines ≠ [] →
  Forall (λ line, line ≠ []) fixed_lines →
  match blank_fault reader with
  | Some e => fix_linebreaks_loop fixed_lines reader = Raise e
  | None => ∃ out, fix_linebreaks_loop fixed_lines reader = Ok out
  end.
Proof.
  induction n as [|n IH]; intros reader fl Hlen Hfl Hne.
  { destruct reader; [|simpl in Hlen; lia]. by exists fl. }
  destruct reader as [|line reader]; [by exists fl|]. simpl in Hlen.
  destruct (split_last fl Hfl) as (kept & last_line & ->).
  rewrite Forall_app, Forall_singleton in Hne. destruct Hne as [Hkept Hlast].
  destruct (split_last last_line Hlast) as (init & a & ->).
  assert (∀ b fields,
    Forall (λ line, line ≠ [])
      (kept ++ [init ++ [a +:+ ". " +:+ b] ++ fields])) as Hne'.
  { intros b fields. rewrite Forall_app, Forall_singleton. split; [done|].
    by destruct init. }
  destruct line as [|b fields].
  - destruct reader as [|next reader]; [done|].
    destruct next as [|b fields].
    + simpl. rewrite item_last_snoc. simpl. unfold glue.
      rewrite item_last_snoc. reflexivity.
    + simpl. rewrite item_last_snoc. simpl. rewrite glue_snoc. simpl.
      rewrite set_last_snoc. simpl. simpl in Hlen.
      apply IH; [lia|by destruct kept|apply Hne'].
  - simpl. destruct (Py.match_date b) eqn:Eb; simpl.
    + apply IH; [lia|by destruct kept|].
      rewrite !Forall_app, !Forall_singleton. done.
    + rewrite item_last_snoc. simpl. rewrite glue_snoc. simpl.
      rewrite set_last_snoc. simpl.
      apply IH; [lia|by destruct kept|apply Hne'].
Qed.

Lemma blank_fault_cases n : ∀ rest,
  length rest ≤ n →
  (blank_fault rest = None ↔ blanks_followed rest = true)
  ∧ (∀ e, blank_fault rest = Some e → e = StopIteration ∨ e = IndexError).
Proof.
  induction n as [|n IH]; intros rest Hlen.
  { destruct rest; [done|simpl in Hlen; lia]. }
  destruct rest as [|row rest]; [done|]. simpl in Hlen.
  destruct row as [|b fields].
  - destruct rest as [|next rest]; simpl.
    { split; [done|]. intros e [= <-]. by left. }
    destruct next.
    { split; [done|]. intros e [= <-]. by right. }
    apply IH. simpl in Hlen. lia.
  - simpl. apply IH. lia.
Qed.

(** X2: With a non-empty header, [fix_linebreaks] raises exactly when some
    empty row has no non-empty row after it: [StopIteration] when the
    empty row is the last one, [IndexError] when another empty row
    follows; on every other input it returns. *)
Theorem fix_linebreaks_raises header rest :
  header ≠ [] →
  (∀ e, fix_linebreaks (header :: rest) = Raise e ↔ blank_fault rest = Some e)
  ∧ (blank_fault rest = None ↔ blanks_followed rest = true)
  ∧ (∀ e, blank_fault rest = Some e → e = StopIteration ∨ e = IndexError).
Proof.
  intros Hne. split_and!.
  - intros e. unfold fix_linebreaks.
    pose proof (fix_linebreaks_loop_fault (length rest) rest [header]) as H.
    destruct (blank_fault rest) as [e'|].
    + rewrite H; [|done|done|by constructor]. split; by intros [= ->].
    + destruct H as [out ->]; [done|done|by constructor|]. done.
  - apply (blank_fault_cases (length rest)). done.
  - apply (blank_fault_cases (length rest)). done.
Qed.

Lemma fix_linebreaks_raises_witness :
  fix_linebreaks [["Date"; "Comment"]; ["2023-01-01"; "a"]; []; []]
  = Raise IndexError.
Proof.
  destruct (fix_linebreaks_raises ["Date"; "Comment"]
              [["2023-01-01"; "a"]; []; []]) as (Hraise & _); [done|].
  apply Hraise. reflexivity.
Defined.

(** * The repair of commas, run again *)

Lemma repaired_comma_free column_count line line' :
  repaired column_count line line' →
  line' ≠ [] ∧ Forall comma_free line'.
Proof.
  unfold repaired. pose proof (comment_parts_free line) as Hfree.
  case_decide as Hle.
  - intros ->. split; [apply split_not_nil|done].
  - intros (fixed & Hm & _ & ->). split.
    + destruct (merged_snoc _ _ Hm) as (fs & f & ->).
      intros Hnil. apply app_eq_nil in Hnil as [_ Hnil].
      apply app_eq_nil in Hnil as [Hnil _]. by destruct fs.
    + rewrite !Forall_app. split_and!.
      * by apply Forall_take.
      * eapply merged_comma_free; [done|].
        unfold Py.between. by apply Forall_drop, Forall_take.
      * by apply Forall_drop.
Qed.

Lemma fix_commas_clean column_count i line :
  line ≠ [] → Forall comma_free line → commas line ≤ column_count →
  fix_commas column_count i line = Ok line.
Proof.
  intros Hne Hfree Hle. unfold fix_commas. fold (commas line).
  destruct (column_count <? commas line) eqn:E.
  { apply Nat.ltb_lt in E. lia. }
  by rewrite split_join.
Qed.

Lemma replace_comma_loop_clean column_count rows : ∀ i fixed_lines,
  Forall (λ line, line ≠ [] ∧ Forall comma_free line
                  ∧ commas line ≤ column_count) rows →
  replace_comma_loop column_count i fixed_lines rows = Ok (fixed_lines ++ rows).
Proof.
  induction rows as [|line rows IH]; intros i fl Hall; simpl.
  { by rewrite app_nil_r. }
  apply Forall_cons in Hall as [(Hne & Hfree & Hle) Hall].
  rewrite fix_commas_clean by done. simpl.
  rewrite IH by done. by rewrite <-app_assoc.
Qed.

Lemma repaired_rows_clean column_count rows out :
  17 ≤ column_count →
  Forall2 (repaired column_count) rows out →
  Forall (λ line, line ≠ [] ∧ Forall comma_free line
                  ∧ commas line ≤ column_count) out.
Proof.
  intros Hcc. induction 1 as [|line line' rows out Hrep _ IH]; [done|].
  constructor; [|done].
  destruct (repaired_comma_free _ _ _ Hrep). split_and!; [done..|].
  by eapply repaired_bound.
Qed.

(** X3: Under a header with at least 17 commas, running
    [replace_comma_in_comments] on its own result changes nothing: the
    rows it returns have fields without commas and no more commas than
    the header, and such rows are returned as they are. *)
Theorem replace_comma_in_comments_idempotent header rows out :
  17 ≤ commas header →
  replace_comma_in_comments (header :: rows) = Ok out →
  replace_comma_in_comments out = Ok out.
Proof.
  intros Hcc Hrun. unfold replace_comma_in_comments in Hrun.
  fold (commas header) in Hrun.
  apply replace_comma_loop_repaired in Hrun as (out' & -> & Hall).
  simpl. fold (commas header).
  rewrite replace_comma_loop_clean; [done|].
  by eapply repaired_rows_clean.
Qed.

Lemma replace_comma_in_comments_idempotent_witness :
  replace_comma_in_comments
    [header18; fields14 ++ ["good; but heavy"; "5.5 kg"; "e1"; "e2"]]
  = Ok [header18; fields14 ++ ["good; but heavy"; "5.5 kg"; "e1"; "e2"]].
Proof.
  apply (replace_comma_in_comments_idempotent header18
           [fields14 ++ ["good"; " but heavy"; "5"; "5 kg"; "e1"; "e2"]]).
  - vm_compute. lia.
  - reflexivity.
Defined.

(** * The two repairs in a row *)

Lemma dated_split line :
  dated line = true → dated (Py.split "," (Py.join "," line)) = true.
Proof.
  destruct line as [|field0 line]; [done|]. simpl dated at 1. intros Hd.
  assert (Py.match_date (Py.join "," (field0 :: line)) = true) as Hj.
  { destruct line; [done|]. simpl. by apply match_date_app. }
  revert Hj. generalize (Py.join "," (field0 :: line)). clear. intros s Hs.
  do 10 (destruct s as [|? s]; [done|]).
  simpl in Hs. do 9 (apply andb_prop in Hs as [Hs ?]).
  repeat match goal with
         | H : Ascii.eqb ?a _ = true |- _ => apply Ascii.eqb_eq in H; subst a
         end.
  simpl.
  repeat match goal with
         | H : Py.re_digit ?a = true |- context [Ascii.eqb ?a ","] =>
             replace (Ascii.eqb a ",") with false
               by (symmetry; apply Ascii.eqb_neq; intros ->; done)
         end.
  destruct (Py.split "," s) as [|p ps] eqn:E; simpl.
  - by apply split_not_nil in E.
  - rewrite !andb_true_iff. done.
Qed.

Lemma repaired_dated column_count line line' :
  repaired column_count line line' → dated line = true → dated line' = true.
Proof.
  unfold repaired. intros Hrep Hd. apply dated_split in Hd.
  case_decide as Hle; [by subst|].
  destruct Hrep as (fixed & _ & _ & ->).
  destruct (Py.split "," (Py.join "," line)) as [|p ps]; done.
Qed.

(** X4: The rows that [fix_progression_csv] writes: whenever the two repairs
    return, every written row after the first starts with a date and has
    fields without commas, and, when the first written row has at least 17
    commas, no written row has more commas than it. *)
Theorem second_fix_rows reader out :
  second_fix reader = Ok out →
  ∃ header rows,
    out = header :: rows
    ∧ Forall (λ line, dated line = true ∧ Forall comma_free line) rows
    ∧ (17 ≤ commas header → Forall (λ line, commas line ≤ commas header) rows).
Proof.
  unfold second_fix. intros Hrun.
  apply bind_Ok in Hrun as (first_fix & Hfirst & Hrun).
  apply fix_linebreaks_dates in Hfirst as [_ Hd].
  destruct first_fix as [|header rows]; [done|]. simpl in Hd.
  unfold replace_comma_in_comments in Hrun. fold (commas header) in Hrun.
  apply replace_comma_loop_repaired in Hrun as (out' & -> & Hall).
  exists header, out'. split_and!; [done| |].
  - clear -Hd Hall. induction Hall as [|line line' rows out' Hrep _ IH]; [done|].
    apply Forall_cons in Hd as [Hline Hd]. constructor; [|by apply IH].
    split; [by eapply repaired_dated|]. by eapply repaired_comma_free.
  - intros Hcc. eapply Forall_impl; [by eapply repaired_rows_clean|].
    by intros line (_ & _ & Hle).
Qed.

Lemma second_fix_rows_witness :
  ∃ header rows,
    [header18; fields14 ++ ["good; but heavy. more"; "5.5 kg"; "e1"; "e2"]]
    = header :: rows
    ∧ Forall (λ line, dated line = true ∧ Forall comma_free line) rows
    ∧ (17 ≤ commas header → Forall (λ line, commas line ≤ commas header) rows).
Proof.
  apply (second_fix_rows
           [header18; fields14 ++ ["good"; " but heavy"]; ["more"; "5"; "5 kg"; "e1"; "e2"]]).
  reflexivity.
Defined.

(** X5: An export that needs no repair is written as it was read: when every
    row after the header starts with a date, has fields without commas and
    has no more commas than the header, the two repairs return the rows
    unchanged. *)
Theorem second_fix_clean header rows :
  Forall (λ line, dated line = true ∧ Forall comma_free line
                  ∧ commas line ≤ commas header) rows →
  second_fix (header :: rows) = Ok (header :: rows).
Proof.
  intros Hall. unfold second_fix, fix_linebreaks.
  rewrite fix_linebreaks_loop_dated.
  2:{ eapply Forall_impl; [done|]. by intros line (? & _). }
  simpl. fold (commas header).
  rewrite replace_comma_loop_clean; [done|].
  eapply Forall_impl; [done|]. intros line (Hd & ? & ?). split_and!; [|done..].
  by destruct line.
Qed.

Lemma second_fix_clean_witness :
  second_fix [header18; fields14 ++ ["good"; "fine"; "e1"; "e2"]]
  = Ok [header18; fields14 ++ ["good"; "fine"; "e1"; "e2"]].
Proof.
  apply (second_fix_clean header18 [fields14 ++ ["good"; "fine"; "e1"; "e2"]]).
  repeat constructor; vm_compute; lia.
Defined.

(** * Columns without information *)

(** A sample table has distinct column labels and records as long as its
    columns. *)
Ltac wf_sample :=
  split; [apply (bool_decide_unpack _); by vm_compute|];
  repeat (constructor; [reflexivity|]); constructor.

Section columns.
Import Pd.

Lemma comprehension_total {A} (cond : A → result bool) (g : A → bool) (l : list A) :
  Forall (λ x, cond x = Ok (g x)) l →
  comprehension cond l = Ok (filter (λ x, g x = true) l).
Proof.
  induction 1 as [|x l Hx _ IH]; [done|].
  simpl. rewrite Hx. simpl. rewrite IH. simpl.
  rewrite filter_cons. by destruct (g x).
Qed.

Lemma getitem_column df name :
  name ∈ columns df → getitem df name = Ok (column df name).
Proof.
  intros Hin. unfold getitem, column, cell_of.
  destruct (position name (columns df)) as [k|] eqn:E; [done|].
  by apply position_None in E.
Qed.

Lemma constant_columns_Ok df :
  comprehension (λ col, vals ← getitem df col; mret (nunique vals <=? 1)) (columns df)
  = Ok (filter (λ c, (nunique (column df c) <=? 1) = true) (columns df)).
Proof.
  apply (comprehension_total _ (λ c, nunique (column df c) <=? 1)).
  apply Forall_forall. intros c Hc. by rewrite getitem_column.
Qed.

Lemma keep_cells_fst (P : string → Prop) `{!∀ c, Decision (P c)}
    (cols : list string) : ∀ (r : list cell),
  length r = length cols →
  (filter (λ cv : string * cell, P cv.1) (zip cols r)).*1 = filter P cols.
Proof.
  induction cols as [|c cols IH]; intros [|v r] Hlen; try done.
  simpl. rewrite !filter_cons. simpl. injection Hlen as Hlen.
  destruct (decide (P c)); simpl; by rewrite IH.
Qed.

Lemma length_keep_cells cols labels (r : list cell) :
  length r = length cols →
  length (keep_cells cols labels r) = length (filter (λ c, c ∉ labels) cols).
Proof.
  intros Hlen. unfold keep_cells.
  rewrite <-(keep_cells_fst (λ c, c ∉ labels) cols r Hlen).
  by rewrite !length_fmap.
Qed.

Lemma cell_of_keep_cells cols labels name : ∀ (i : Z) (r : list cell),
  length r = length cols → name ∉ labels →
  cell_of (filter (λ c, c ∉ labels) cols) name (i, keep_cells cols labels r)
  = cell_of cols name (i, r).
Proof.
  unfold cell_of, position, keep_cells.
  induction cols as [|c cols IH]; intros i [|v r] Hlen Hname; try done.
  injection Hlen as Hlen. simpl zip. rewrite !filter_cons. simpl.
  destruct (decide (c ∉ labels)) as [Hc|Hc]; simpl.
  - destruct (decide (c = name)) as [->|Hne]; simpl; [done|].
    specialize (IH i r Hlen Hname). simpl in IH.
    destruct (list_find _ (filter _ cols)) as [[k ?]|],
             (list_find _ cols) as [[k' ?]|]; simpl in *; done.
  - destruct (decide (c = name)) as [->|Hne]; simpl; [done|].
    specialize (IH i r Hlen Hname). simpl in IH.
    destruct (list_find _ (filter _ cols)) as [[k ?]|],
             (list_find _ cols) as [[k' ?]|]; simpl in *; done.
Qed.

Lemma drop_columns_Ok df labels :
  wf df →
  wf (drop_columns df labels)
  ∧ index (drop_columns df labels) = index df
  ∧ ∀ name, name ∉ labels → column (drop_columns df labels) name = column df name.
Proof.
  intros [Hnd Hlen]. split_and!.
  - split; simpl.
    + by apply NoDup_filter.
    + apply Forall_fmap. eapply Forall_impl; [done|]. simpl.
      intros r Hr. by apply length_keep_cells.
  - unfold index. simpl. rewrite <-list_fmap_compose. done.
  - intros name Hname. unfold column. simpl. rewrite <-list_fmap_compose.
    apply Forall_fmap_ext. eapply Forall_impl; [done|]. simpl.
    intros [i r] Hr. simpl in *. by apply cell_of_keep_cells.
Qed.

Lemma keep_cells_all cols labels (r : list cell) :
  length r = length cols → Forall (λ c, c ∉ labels) cols →
  keep_cells cols labels r = r.
Proof.
  unfold keep_cells. revert r.
  induction cols as [|c cols IH]; intros [|v r] Hlen Hall; try done.
  injection Hlen as Hlen. apply Forall_cons in Hall as [Hc Hall].
  simpl. rewrite filter_cons. simpl. rewrite decide_True by done.
  simpl. by rewrite IH.
Qed.

Lemma drop_columns_none df labels :
  wf df → Forall (λ c, c ∉ labels) (columns df) → drop_columns df labels = df.
Proof.
  intros [_ Hlen] Hall. destruct df as [cols rs]. unfold drop_columns. simpl in *.
  f_equal.
  - by apply filter_all.
  - rewrite <-(list_fmap_id rs) at 2. apply Forall_fmap_ext.
    eapply Forall_impl; [done|]. simpl. intros [i r] Hr. simpl in *.
    by rewrite keep_cells_all.
Qed.

Lemma remove_redundant_columns_Ok df unneeded :
  wf df →
  ∃ df',
    remove_redundant_columns df (Some unneeded) = Ok df'
    ∧ wf df'
    ∧ columns df' = filter (informative df unneeded) (columns df)
    ∧ index df' = index df
    ∧ ∀ c, c ∈ columns df' → c ∈ columns df ∧ column df' c = column df c.
Proof.
  intros Hwf. unfold remove_redundant_columns.
  rewrite constant_columns_Ok. simpl.
  set (labels := filter _ (columns df) ++ unneeded).
  destruct (drop_columns_Ok df labels Hwf) as (Hwf' & Hidx & Hcol).
  eexists. split; [done|]. split_and!; [done| |done|].
  - simpl. apply filter_iff_elem. intros c Hc. unfold informative, labels.
    rewrite elem_of_app, list_elem_of_filter, Nat.leb_le.
    destruct (Nat.le_gt_cases (nunique (column df c)) 1); intuition lia.
  - simpl. intros c Hc. apply list_elem_of_filter in Hc as [Hc Hin].
    split; [done|]. by apply Hcol.
Qed.

Lemma nunique_varied (vals : list cell) :
  1 < nunique vals →
  ∃ a b, a ∈ vals ∧ b ∈ vals ∧ a ≠ NaN ∧ b ≠ NaN ∧ a ≠ b.
Proof.
  unfold nunique. intros Hlen.
  pose proof (NoDup_remove_dups (filter (λ c, c ≠ NaN) vals)) as Hnd.
  destruct (remove_dups _) as [|a [|b l]] eqn:E; simpl in Hlen; [lia..|].
  assert (a ∈ remove_dups (filter (λ c, c ≠ NaN) vals)) as Ha.
  { rewrite E. left. }
  assert (b ∈ remove_dups (filter (λ c, c ≠ NaN) vals)) as Hb.
  { rewrite E. right. left. }
  apply elem_of_remove_dups, list_elem_of_filter in Ha as [Ha Ha'].
  apply elem_of_remove_dups, list_elem_of_filter in Hb as [Hb Hb'].
  exists a, b. split_and!; [done..|].
  apply NoDup_cons in Hnd as [Hnd _]. intros ->. apply Hnd. left.
Qed.

Lemma length_remove_dups_le {A} `{EqDecision A} (l : list A) :
  length (remove_dups l) ≤ length l.
Proof.
  induction l as [|x l IH]; simpl; [done|].
  case_decide; simpl; lia.
Qed.

Lemma nunique_length (vals : list cell) : nunique vals ≤ length vals.
Proof.
  unfold nunique.
  etrans; [apply length_remove_dups_le|]. apply length_filter.
Qed.
End columns.

(** X6: What [remove_redundant_columns] keeps: on a table with distinct column
    labels it returns the table without the columns listed as unneeded and
    without the columns that hold at most one distinct value (missing
    values not counted); the columns that stay keep their order and their
    cells, and the records keep their labels. *)
Theorem remove_redundant_columns_keeps (df : Pd.DataFrame) (unneeded : list string) :
  Pd.wf df →
  ∃ df',
    remove_redundant_columns df (Some unneeded) = Ok df'
    ∧ Pd.wf df'
    ∧ Pd.columns df' = filter (informative df unneeded) (Pd.columns df)
    ∧ Pd.index df' = Pd.index df
    ∧ ∀ c, c ∈ Pd.columns df' → c ∈ Pd.columns df ∧ column df' c = column df c.
Proof. apply remove_redundant_columns_Ok. Qed.

Lemma remove_redundant_columns_keeps_witness :
  ∃ df',
    remove_redundant_columns progression_sample (Some ["Time"; "Set Duration (s)"])
    = Ok df'
    ∧ Pd.columns df'
      = ["Date"; "Exercise Name"; "Repetitions"; "Set Timestamp"]
    ∧ column df' "Repetitions" = [Pd.NaN; Pd.Num (Qc_of_Z 8); Pd.Num (Qc_of_Z 6)].
Proof.
  destruct (remove_redundant_columns_keeps progression_sample
              ["Time"; "Set Duration (s)"])
    as (df' & Hrun & _ & Hcols & _ & Hcells).
  { wf_sample. }
  exists df'. split; [done|].
  assert (Pd.columns df' = ["Date"; "Exercise Name"; "Repetitions"; "Set Timestamp"])
    as Hcols'.
  { rewrite Hcols. by vm_compute. }
  split; [done|].
  destruct (Hcells "Repetitions") as [_ Hcol].
  { rewrite Hcols'. apply (bool_decide_unpack _). by vm_compute. }
  by rewrite Hcol.
Defined.

(** X7: [remove_redundant_columns] never keeps a constant column: every column
    of its result holds two different values, neither of them missing. *)
Theorem remove_redundant_columns_varied (df df' : Pd.DataFrame)
    (unneeded : list string) (c : string) :
  Pd.wf df →
  remove_redundant_columns df (Some unneeded) = Ok df' →
  c ∈ Pd.columns df' →
  ∃ vals a b,
    Pd.getitem df' c = Ok vals
    ∧ a ∈ vals ∧ b ∈ vals ∧ a ≠ Pd.NaN ∧ b ≠ Pd.NaN ∧ a ≠ b.
Proof.
  intros Hwf Hrun Hc.
  destruct (remove_redundant_columns_Ok df unneeded Hwf)
    as (df'' & Hrun' & _ & Hcols & _ & Hcells).
  rewrite Hrun in Hrun'. injection Hrun' as <-.
  destruct (Hcells c Hc) as [_ Hcol].
  rewrite (getitem_column df' c Hc).
  rewrite Hcols in Hc. apply list_elem_of_filter in Hc as [[_ Hn] Hin].
  apply nunique_varied in Hn as (a & b & Hn). rewrite <-Hcol in Hn.
  by exists (column df' c), a, b.
Qed.

Lemma remove_redundant_columns_varied_witness :
  ∃ vals a b,
    Pd.getitem (Pd.drop_columns progression_sample
                  ["Set Duration (s)"; "Unit"; "Time"; "Set Duration (s)"])
               "Date" = Ok vals
    ∧ a ∈ vals ∧ b ∈ vals ∧ a ≠ Pd.NaN ∧ b ≠ Pd.NaN ∧ a ≠ b.
Proof.
  apply (remove_redundant_columns_varied progression_sample _
           ["Time"; "Set Duration (s)"]).
  - wf_sample.
  - reflexivity.
  - apply (bool_decide_unpack _). by vm_compute.
Defined.

(** X8: Running [remove_redundant_columns] on its own result, with the same
    list of unneeded columns, changes nothing. *)
Theorem remove_redundant_columns_idempotent (df df' : Pd.DataFrame)
    (unneeded : list string) :
  Pd.wf df →
  remove_redundant_columns df (Some unneeded) = Ok df' →
  remove_redundant_columns df' (Some unneeded) = Ok df'.
Proof.
  intros Hwf Hrun.
  destruct (remove_redundant_columns_Ok df unneeded Hwf)
    as (df'' & Hrun' & Hwf' & Hcols & _ & Hcells).
  rewrite Hrun in Hrun'. injection Hrun' as <-.
  unfold remove_redundant_columns. rewrite constant_columns_Ok. simpl.
  rewrite drop_columns_none; [done..|].
  apply Forall_forall. intros c Hc.
  destruct (Hcells c Hc) as [_ Hcol].
  rewrite Hcols in Hc. apply list_elem_of_filter in Hc as [[Hu Hn] _].
  rewrite elem_of_app, list_elem_of_filter, Nat.leb_le, Hcol. intuition lia.
Qed.

Lemma remove_redundant_columns_idempotent_witness :
  remove_redundant_columns
    (Pd.drop_columns progression_sample
       ["Set Duration (s)"; "Unit"; "Time"; "Set Duration (s)"])
    (Some ["Time"; "Set Duration (s)"])
  = Ok (Pd.drop_columns progression_sample
          ["Set Duration (s)"; "Unit"; "Time"; "Set Duration (s)"]).
Proof.
  apply (remove_redundant_columns_idempotent progression_sample).
  - wf_sample.
  - reflexivity.
Defined.

(** X9: Called without a list of unneeded columns, [remove_redundant_columns]
    raises [TypeError] on every table with distinct column labels: the
    default [None] cannot be appended to the list of constant columns. *)
Theorem remove_redundant_columns_default (df : Pd.DataFrame) :
  Pd.wf df →
  remove_redundant_columns df None = Raise TypeError.
Proof.
  intros _. unfold remove_redundant_columns. by rewrite constant_columns_Ok.
Qed.

Lemma remove_redundant_columns_default_witness :
  remove_redundant_columns progression_sample None = Raise TypeError.
Proof. apply remove_redundant_columns_default. wf_sample. Defined.

(** X10: A table with at most one record loses all its columns: no column of
    it holds two distinct values. *)
Theorem remove_redundant_columns_single (df : Pd.DataFrame) (unneeded : list string) :
  Pd.wf df →
  length (Pd.records df) ≤ 1 →
  remove_redundant_columns df (Some unneeded)
  = Ok {| Pd.columns := [];
          Pd.records := (λ r, (r.1, [])) <$> Pd.records df |}.
Proof.
  intros _ Hlen. unfold remove_redundant_columns. rewrite constant_columns_Ok.
  simpl. unfold Pd.drop_columns.
  assert (Forall (λ c, c ∈ filter (λ c, (Pd.nunique (column df c) <=? 1) = true)
                         (Pd.columns df) ++ unneeded) (Pd.columns df)) as Hall.
  { apply Forall_forall. intros c Hc. apply elem_of_app. left.
    apply list_elem_of_filter. split; [|done]. apply Nat.leb_le.
    etrans; [apply nunique_length|]. unfold column. by rewrite length_fmap. }
  set (labels := filter _ (Pd.columns df) ++ unneeded) in *. clearbody labels.
  f_equal. f_equal.
  - clear -Hall. induction Hall as [|c cols Hc _ IH]; [done|].
    rewrite filter_cons. by rewrite decide_False by (by intros ?).
  - apply list_fmap_ext. intros _ [i r] _. simpl. f_equal.
    unfold Pd.keep_cells. generalize r. clear -Hall.
    induction Hall as [|c cols Hc _ IH]; intros [|v r]; try done.
    simpl. rewrite filter_cons. simpl.
    rewrite decide_False by (by intros ?). apply IH.
Qed.

Lemma remove_redundant_columns_single_witness :
  remove_redundant_columns
    {| Pd.columns := ["Date"; "Repetitions"];
       Pd.records := [(0%Z, [Pd.Str "2023-01-01"; Pd.Num (Qc_of_Z 8)])] |}
    (Some [])
  = Ok {| Pd.columns := []; Pd.records := [(0%Z, [])] |}.
Proof.
  apply (remove_redundant_columns_single
           {| Pd.columns := ["Date"; "Repetitions"];
              Pd.records := [(0%Z, [Pd.Str "2023-01-01"; Pd.Num (Qc_of_Z 8)])] |}).
  - wf_sample.
  - simpl. lia.
Defined.

(** * One column for date and time *)

Section moments.
Import Pd.
Context (strptime : string → string → option Z) (format : string).

Lemma setitem_columns_either df name vals df' :
  setitem df name vals = Ok df' →
  columns df' = if decide (name ∈ columns df) then columns df
                else columns df ++ [name].
Proof.
  unfold setitem. case_bool_decide; [|done].
  destruct (position name (columns df)) as [k|] eqn:Ek; intros [= <-]; simpl.
  - rewrite decide_True; [done|].
    apply position_Some in Ek as [Ek _]. by eapply list_elem_of_lookup_2.
  - apply position_None in Ek. by rewrite decide_False.
Qed.

Lemma add_str_texts (vals : list cell) s :
  str vals = Ok vals →
  add_str vals s
  = Ok ((λ c, match c with Str a => Some (a +:+ s) | _ => None end) <$> vals).
Proof.
  unfold str, add_str. by destruct (_ && _).
Qed.

Lemma mapM_zip_with {X Y W} (f : X * Y → result W) (g : X → Y → W)
    (l : list X) (k : list Y) :
  Forall2 (λ x y, f (x, y) = Ok (g x y)) l k →
  mapM f (zip l k) = Ok (zip_with g l k).
Proof.
  induction 1 as [|x y l k Hxy _ IH]; [done|].
  simpl zip. rewrite mapM_cons, Hxy. simpl. by rewrite IH.
Qed.

Lemma moments_Ok (dates times : list cell) :
  Forall2 (readable strptime format) dates times →
  (texts ← add_series
             ((λ c, match c with Str a => Some (a +:+ " ") | _ => None end) <$> dates)
             times;
   to_datetime strptime format texts)
  = Ok (zip_with (moment strptime format) dates times).
Proof.
  intros Hall. unfold add_series.
  rewrite (mapM_zip_with _
             (λ a b, match a, b with
                     | Some x, Str y => Some (x +:+ y)
                     | _, _ => None
                     end)).
  2:{ apply Forall2_fmap_l. eapply Forall2_impl; [done|].
      intros [] []; simpl; done. }
  simpl. unfold to_datetime.
  induction Hall as [|d t dates times Hdt _ IH]; [done|].
  rewrite fmap_cons. cbn [zip_with]. rewrite mapM_cons, IH. clear IH.
  destruct d as [|d| | |], t as [|t| | |]; simpl in *; try done.
  rewrite string_app_assoc.
  destruct Hdt as [stamp Hstamp].
  change (" " +:+ t) with (String " " t). by rewrite Hstamp.
Qed.

Lemma merge_date_time_columns_Ok df date_col time_col dates times :
  wf df →
  date_col ≠ "Time" → time_col ≠ "Time" →
  getitem df date_col = Ok dates →
  getitem df time_col = Ok times →
  str dates = Ok dates →
  Forall2 (readable strptime format) dates times →
  ∃ df',
    merge_date_time_columns strptime df format date_col time_col = Ok df'
    ∧ wf df'
    ∧ columns df'
      = filter (λ c, c ∉ [date_col; time_col])
          (if decide ("Time" ∈ columns df) then columns df
           else columns df ++ ["Time"])
    ∧ index df' = index df
    ∧ getitem df' "Time" = Ok (zip_with (moment strptime format) dates times)
    ∧ ∀ c, c ∈ columns df' → c ≠ "Time" → getitem df' c = getitem df c.
Proof.
  intros Hwf Hd Ht Hdates Htimes Htext Hread.
  unfold merge_date_time_columns.
  rewrite Hdates. simpl. rewrite add_str_texts by done. simpl.
  rewrite Htimes. simpl.
  pose proof (moments_Ok dates times Hread) as Hm.
  destruct (add_series _ times) as [texts|] eqn:Etexts; [|done].
  simpl in Hm |- *. rewrite Hm. simpl.
  destruct (setitem_Ok df "Time" (zip_with (moment strptime format) dates times))
    as (df1 & Hset & Hwf1 & Htime & Hother & Hidx & _); [done| |].
  { rewrite length_zip_with. apply getitem_length in Hdates, Htimes. lia. }
  rewrite Hset. simpl.
  pose proof (setitem_columns_either _ _ _ _ Hset) as Hcols.
  assert (date_col ∈ columns df1 ∧ time_col ∈ columns df1) as [Hdin Htin].
  { apply getitem_Ok in Hdates as (kd & Hkd & _).
    apply getitem_Ok in Htimes as (kt & Hkt & _).
    apply position_Some in Hkd as [Hkd _]. apply position_Some in Hkt as [Hkt _].
    apply list_elem_of_lookup_2 in Hkd, Hkt.
    rewrite Hcols. case_decide; rewrite ?elem_of_app; auto. }
  unfold drop_columns_strict.
  rewrite !filter_cons, filter_nil.
  rewrite !decide_False by (intros Hn; by apply Hn).
  simpl.
  destruct (drop_columns_Ok df1 [date_col; time_col] Hwf1) as (Hwf' & Hidx' & Hcol).
  eexists. split; [done|]. split_and!.
  - done.
  - simpl. by rewrite Hcols.
  - by rewrite Hidx'.
  - rewrite <-Htime.
    assert ("Time" ∉ [date_col; time_col]) as Hnot.
    { rewrite !elem_of_cons, elem_of_nil. intros [?|[?|[]]]; done. }
    rewrite !getitem_column.
    + by rewrite Hcol.
    + apply getitem_Ok in Htime as (k & Hk & _).
      apply position_Some in Hk as [Hk _]. by eapply list_elem_of_lookup_2.
    + simpl. apply list_elem_of_filter. split; [done|].
      apply getitem_Ok in Htime as (k & Hk & _).
      apply position_Some in Hk as [Hk _]. by eapply list_elem_of_lookup_2.
  - intros c Hc Hne. rewrite <-(Hother c Hne).
    pose proof Hc as Hc'. simpl in Hc'.
    apply list_elem_of_filter in Hc' as [Hnot Hin].
    rewrite !getitem_column by done. by rewrite Hcol.
Qed.
End moments.

(** X11: [merge_date_time_columns]: on a table with distinct column labels,
    a column of date texts and a column of time texts, neither of them
    named [Time], every pair of which the format reads, the result has a
    column [Time] that holds for every record the moment written by its
    date, a space and its time (missing where either is missing); the
    date and the time column are gone, and every other column and the
    labels of the records are as they were. *)
Theorem merge_date_time_columns_merges (strptime : string → string → option Z)
    (df : Pd.DataFrame) (format date_col time_col : string)
    (dates times : list Pd.cell) :
  Pd.wf df →
  date_col ≠ "Time" → time_col ≠ "Time" →
  Pd.getitem df date_col = Ok dates →
  Pd.getitem df time_col = Ok times →
  Pd.str dates = Ok dates →
  Forall2 (readable strptime format) dates times →
  ∃ df',
    merge_date_time_columns strptime df format date_col time_col = Ok df'
    ∧ Pd.wf df'
    ∧ Pd.columns df'
      = filter (λ c, c ∉ [date_col; time_col])
          (if decide ("Time" ∈ Pd.columns df) then Pd.columns df
           else Pd.columns df ++ ["Time"])
    ∧ Pd.index df' = Pd.index df
    ∧ Pd.getitem df' "Time" = Ok (zip_with (moment strptime format) dates times)
    ∧ ∀ c, c ∈ Pd.columns df' → c ≠ "Time" → Pd.getitem df' c = Pd.getitem df c.
Proof. apply merge_date_time_columns_Ok. Qed.

Lemma merge_date_time_columns_merges_witness :
  ∃ df',
    merge_date_time_columns sample_strptime progression_sample "%Y-%m-%d %H:%M:%S"
      "Date" "Set Timestamp" = Ok df'
    ∧ Pd.columns df'
      = ["Time"; "Exercise Name"; "Repetitions"; "Set Duration (s)"; "Unit"]
    ∧ Pd.getitem df' "Time"
      = Ok [Pd.Timestamp 19; Pd.Timestamp 19; Pd.Timestamp 19].
Proof.
  destruct (merge_date_time_columns_merges sample_strptime progression_sample
              "%Y-%m-%d %H:%M:%S" "Date" "Set Timestamp"
              [Pd.Str "2023-01-01"; Pd.Str "2023-01-01"; Pd.Str "2023-01-02"]
              [Pd.Str "18:05:00"; Pd.Str "18:10:00"; Pd.Str "17:02:00"])
    as (df' & Hrun & _ & Hcols & _ & Htime & _).
  - wf_sample.
  - done.
  - done.
  - reflexivity.
  - reflexivity.
  - reflexivity.
  - repeat (constructor; [by eexists|]). constructor.
  - exists df'. split; [done|]. split; [|done].
    rewrite Hcols. by vm_compute.
Defined.

Section unreadable.
Import Pd.
Context (strptime : string → string → option Z) (format : string).

Lemma mapM_raises {X W} (f : X → result W) (l1 l2 : list X) (x : X) (e : exn) :
  Forall (λ y, ∃ w, f y = Ok w) l1 → f x = Raise e →
  mapM f (l1 ++ x :: l2) = Raise e.
Proof.
  intros Hall Hx. induction Hall as [|y l1 [w Hy] _ IH].
  - rewrite app_nil_l, mapM_cons, Hx. done.
  - rewrite <-app_comm_cons, mapM_cons, Hy. simpl. by rewrite IH.
Qed.

Lemma add_series_texts (dates times : list cell) :
  length dates = length times →
  Forall (λ c, is_text c || is_missing c = true) times →
  add_series
    ((λ c, match c with Str a => Some (a +:+ " ") | _ => None end) <$> dates) times
  = Ok (zip_with (λ d t, match d, t with
                         | Str x, Str y => Some (x +:+ " " +:+ y)
                         | _, _ => None
                         end) dates times).
Proof.
  intros Hlen Htimes. unfold add_series.
  revert dates Hlen. induction Htimes as [|t times Ht _ IH]; intros [|d dates] Hlen;
    try done.
  injection Hlen as Hlen. rewrite fmap_cons. cbn [zip zip_with].
  rewrite mapM_cons, IH by done. clear IH.
  destruct d as [|d| | |], t as [|t| | |]; simpl in *; try done.
  by rewrite string_app_assoc.
Qed.
End unreadable.

(** X12: [merge_date_time_columns] reads every record or none: when the
    table has distinct column labels, the date column holds texts, the time column texts and missing values,
    the records before the one numbered [i] can be read and the date and
    the time of that record, put together, do not fit the format, it
    raises [ValueError] for that text and returns no table. *)
Theorem merge_date_time_columns_unreadable (strptime : string → string → option Z)
    (df : Pd.DataFrame) (format date_col time_col : string)
    (dates times : list Pd.cell) (i : nat) (d t : string) :
  Pd.wf df →
  Pd.getitem df date_col = Ok dates →
  Pd.getitem df time_col = Ok times →
  Pd.str dates = Ok dates →
  Forall (λ c, Pd.is_text c || Pd.is_missing c = true) times →
  Forall2 (readable strptime format) (take i dates) (take i times) →
  dates !! i = Some (Pd.Str d) →
  times !! i = Some (Pd.Str t) →
  strptime format (d +:+ " " +:+ t) = None →
  merge_date_time_columns strptime df format date_col time_col
  = Raise (ValueError (InvalidLiteral (d +:+ " " +:+ t))).
Proof.
  intros _ Hdates Htimes Htext Hkind Hread Hd Ht Hnone.
  unfold merge_date_time_columns.
  rewrite Hdates. simpl. rewrite add_str_texts by done. simpl.
  rewrite Htimes. simpl.
  rewrite add_series_texts; [|by rewrite (getitem_length _ _ _ Hdates),
                                  (getitem_length _ _ _ Htimes)|done].
  simpl. unfold Pd.to_datetime.
  rewrite <-(take_drop_middle dates i (Pd.Str d)) by done.
  rewrite <-(take_drop_middle times i (Pd.Str t)) by done.
  assert (length (take i dates) = length (take i times)) as Hlen.
  { by eapply Forall2_length. }
  rewrite zip_with_app by done. cbn [zip_with].
  rewrite (mapM_raises _ _ _ _ (ValueError (InvalidLiteral (d +:+ " " +:+ t))));
    [done| |].
  - clear -Hread. induction Hread as [|a b l k Hab _ IH]; [done|].
    cbn [zip_with]. constructor; [|done].
    destruct a as [|a| | |], b as [|b| | |]; simpl in *; try by eexists.
    destruct Hab as [stamp Hab]. change (" " +:+ b) with (String " " b).
    rewrite Hab. by eexists.
  - change (" " +:+ t) with (String " " t) in *. by rewrite Hnone.
Qed.

Lemma merge_date_time_columns_unreadable_witness :
  merge_date_time_columns (λ _ s, if String.length s =? 19 then Some 0%Z else None)
    progression_sample "%Y-%m-%d %H:%M:%S" "Date" "Exercise Name"
  = Raise (ValueError (InvalidLiteral "2023-01-01 Plank")).
Proof.
  apply (merge_date_time_columns_unreadable _ progression_sample _ _ _
           [Pd.Str "2023-01-01"; Pd.Str "2023-01-01"; Pd.Str "2023-01-02"]
           [Pd.Str "Plank"; Pd.Str "Chinup"; Pd.Str "Chinup"] 0
           "2023-01-01" "Plank").
  - wf_sample.
  - reflexivity.
  - reflexivity.
  - reflexivity.
  - repeat (constructor; [reflexivity|]). constructor.
  - constructor.
  - reflexivity.
  - reflexivity.
  - reflexivity.
Defined.

(** * Names in one log only *)

Section sets.
Context {A : Type} `{EqDecision A}.
Implicit Types a b : list A.

Lemma symmetric_difference_common a b x :
  x ∈ Py.symmetric_difference a (Py.intersection a b) ↔ x ∈ a ∧ x ∉ b.
Proof.
  unfold Py.symmetric_difference, Py.intersection.
  rewrite elem_of_app, !list_elem_of_difference, !list_elem_of_intersection.
  tauto.
Qed.

Lemma symmetric_difference_common_r a b x :
  x ∈ Py.symmetric_difference b (Py.intersection a b) ↔ x ∈ b ∧ x ∉ a.
Proof.
  unfold Py.symmetric_difference, Py.intersection.
  rewrite elem_of_app, !list_elem_of_difference, !list_elem_of_intersection.
  tauto.
Qed.

Lemma list_difference_within a b : (∀ x, x ∈ a → x ∈ b) → list_difference a b = [].
Proof.
  intros Hsub. induction a as [|x a IH]; [done|].
  simpl. destruct (decide_rel _ x b) as [_|Hn].
  - apply IH. intros y Hy. apply Hsub. by right.
  - destruct Hn. apply Hsub. left.
Qed.

Lemma length_symmetric_difference_common a b :
  NoDup a →
  length (Py.symmetric_difference a (Py.intersection a b))
  + length (Py.intersection a b) = length a.
Proof.
  intros Hnd. unfold Py.symmetric_difference, Py.intersection.
  rewrite (list_difference_within (list_intersection a b) a).
  2:{ intros x Hx. by apply list_elem_of_intersection in Hx as [? _]. }
  rewrite app_nil_r, <-length_app.
  apply Permutation_length, NoDup_Permutation; [|done|].
  - apply NoDup_app. split_and!.
    + by apply NoDup_list_difference.
    + intros x Hx Hx'. apply list_elem_of_difference in Hx as [_ Hx]. done.
    + by apply NoDup_list_intersection.
  - intros x. rewrite elem_of_app, list_elem_of_difference,
      list_elem_of_intersection.
    destruct (decide (x ∈ b)); tauto.
Qed.
End sets.

(** X13: The names that the notebook prints as being in one log only are
    exactly those: although it takes the symmetric difference with the
    common names, [exercises_gymbook_unique] holds the names of GymBook that
    are no names of Progression, and likewise the other way round; the
    common names are the names of both; and the three counts it prints
    add up, the names of a log being its own ones and the common ones.
    No name is to be missing: a missing value need not be equal to
    itself in a Python set. *)
Theorem exercises_unique_partition (names_gymbook names_progression : list Pd.cell) :
  Pd.NaN ∉ names_gymbook → Pd.NaN ∉ names_progression →
  (∀ x, x ∈ exercises_gymbook_unique (Py.set_of names_gymbook)
                                     (Py.set_of names_progression)
        ↔ x ∈ names_gymbook ∧ x ∉ names_progression)
  ∧ (∀ x, x ∈ exercises_progression_unique (Py.set_of names_gymbook)
                                           (Py.set_of names_progression)
          ↔ x ∈ names_progression ∧ x ∉ names_gymbook)
  ∧ (∀ x, x ∈ common_exercises (Py.set_of names_gymbook) (Py.set_of names_progression)
          ↔ x ∈ names_gymbook ∧ x ∈ names_progression)
  ∧ length (exercises_gymbook_unique (Py.set_of names_gymbook)
                                     (Py.set_of names_progression))
    + length (common_exercises (Py.set_of names_gymbook) (Py.set_of names_progression))
    = length (Py.set_of names_gymbook)
  ∧ length (exercises_progression_unique (Py.set_of names_gymbook)
                                         (Py.set_of names_progression))
    + length (common_exercises (Py.set_of names_gymbook) (Py.set_of names_progression))
    = length (Py.set_of names_progression).
Proof.
  intros _ _.
  unfold exercises_gymbook_unique, exercises_progression_unique, common_exercises.
  split_and!.
  - intros x. rewrite symmetric_difference_common.
    unfold Py.set_of. by rewrite !elem_of_remove_dups.
  - intros x. rewrite symmetric_difference_common_r.
    unfold Py.set_of. by rewrite !elem_of_remove_dups.
  - intros x. unfold Py.intersection, Py.set_of.
    by rewrite list_elem_of_intersection, !elem_of_remove_dups.
  - apply length_symmetric_difference_common, NoDup_remove_dups.
  - assert (∀ a b : list Pd.cell,
      NoDup a → NoDup b → length (Py.intersection a b) = length (Py.intersection b a))
      as Hcomm.
    { intros a b Ha Hb. apply Permutation_length, NoDup_Permutation.
      - by apply NoDup_list_intersection.
      - by apply NoDup_list_intersection.
      - intros x. unfold Py.intersection.
        rewrite !list_elem_of_intersection. tauto. }
    pose proof (length_symmetric_difference_common
                  (Py.set_of names_progression) (Py.set_of names_gymbook)
                  (NoDup_remove_dups _)) as Hlen.
    etrans; [|exact Hlen]. f_equal; [|apply Hcomm; apply NoDup_remove_dups].
    apply Permutation_length, NoDup_Permutation.
    + apply NoDup_app. split_and!.
      * apply NoDup_list_difference, NoDup_remove_dups.
      * intros x Hx Hx'. apply list_elem_of_difference in Hx as [_ Hx].
        apply list_elem_of_difference in Hx' as [Hx' _]. done.
      * apply NoDup_list_difference, NoDup_list_intersection, NoDup_remove_dups.
    + apply NoDup_app. split_and!.
      * apply NoDup_list_difference, NoDup_remove_dups.
      * intros x Hx Hx'. apply list_elem_of_difference in Hx as [_ Hx].
        apply list_elem_of_difference in Hx' as [Hx' _]. done.
      * apply NoDup_list_difference, NoDup_list_intersection, NoDup_remove_dups.
    + intros x. rewrite symmetric_difference_common_r.
      rewrite symmetric_difference_common. done.
Qed.

Lemma exercises_unique_partition_witness :
  length (exercises_gymbook_unique
            (Py.set_of (Pd.Str <$> ["Squat"; "Plank"; "Squat"; "Dip"]))
            (Py.set_of (Pd.Str <$> ["Plank"; "Chinup"])))
  + length (common_exercises
              (Py.set_of (Pd.Str <$> ["Squat"; "Plank"; "Squat"; "Dip"]))
              (Py.set_of (Pd.Str <$> ["Plank"; "Chinup"])))
  = length (Py.set_of (Pd.Str <$> ["Squat"; "Plank"; "Squat"; "Dip"])).
Proof.
  apply (exercises_unique_partition
           (Pd.Str <$> ["Squat"; "Plank"; "Squat"; "Dip"])
           (Pd.Str <$> ["Plank"; "Chinup"])).
  - apply (bool_decide_unpack _). by vm_compute.
  - apply (bool_decide_unpack _). by vm_compute.
Defined.

(** * Weekdays *)

Section weekdays.
Import Pd.

Lemma weekday_lookup (w : Z) :
  (0 ≤ w < 7)%Z →
  ∃ n, weekdays !! Z.to_nat w = Some n ∧ weekday_map !! w = Some n.
Proof.
  intros Hw.
  assert (w = 0 ∨ w = 1 ∨ w = 2 ∨ w = 3 ∨ w = 4 ∨ w = 5 ∨ w = 6)%Z
    as [->|[->|[->|[->|[->|[->| ->]]]]]] by lia;
    by eexists.
Qed.

Lemma weekdays_NoDup : NoDup weekdays.
Proof. apply (bool_decide_unpack _). by vm_compute. Qed.

Lemma weekday_column_Ok df times :
  wf df →
  getitem df "Time" = Ok times →
  Forall (λ c, timely c = true) times →
  ∃ df' names,
    weekday_column df = Ok df'
    ∧ getitem df' "Weekday" = Ok names
    ∧ (∀ c, c ≠ "Weekday" → getitem df' c = getitem df c)
    ∧ (∀ i t, times !! i = Some (Timestamp t) →
         ∃ n, weekdays !! Z.to_nat ((day t + 3) `mod` 7) = Some n
              ∧ names !! i = Some (Str n))
    ∧ (∀ i, times !! i = Some NaN → names !! i = Some NaN)
    ∧ (∀ i j t t', times !! i = Some (Timestamp t) →
         times !! j = Some (Timestamp t') →
         names !! i = names !! j ↔ ((day t - day t') `mod` 7 = 0)%Z).
Proof.
  intros Hwf Htime Htimely. unfold weekday_column. rewrite Htime. simpl.
  set (g := λ c, match c with
                 | Timestamp t => Num (Qc_of_Z ((t `div` 86400 + 3) `mod` 7)%Z)
                 | _ => NaN
                 end).
  assert (dt_weekday times = Ok (g <$> times)) as ->.
  { apply mapM_total. eapply Forall_impl; [done|]. by intros []. }
  simpl.
  destruct (setitem_Ok df "Weekday" (map_dict weekday_map (g <$> times)))
    as (df' & Hset & _ & Hget & Hother & _ & _); [done| |].
  { unfold map_dict. rewrite !length_fmap. by eapply getitem_length. }
  exists df', (map_dict weekday_map (g <$> times)).
  assert (∀ i t, times !! i = Some (Timestamp t) →
            ∃ n, weekdays !! Z.to_nat ((day t + 3) `mod` 7) = Some n
                 ∧ weekday_map !! ((day t + 3) `mod` 7)%Z = Some n
                 ∧ map_dict weekday_map (g <$> times) !! i = Some (Str n)) as Hname.
  { intros i t Hi.
    destruct (weekday_lookup ((day t + 3) `mod` 7)) as (n & Hn & Hm).
    { apply Z.mod_pos_bound. lia. }
    exists n. split_and!; [done..|].
    unfold map_dict. rewrite !list_lookup_fmap, Hi. simpl.
    fold (day t). by rewrite Hm. }
  split_and!; [done..| | |].
  - intros i t Hi. destruct (Hname i t Hi) as (n & ? & _ & ?). by exists n.
  - intros i Hi. unfold map_dict. by rewrite !list_lookup_fmap, Hi.
  - intros i j t t' Hi Hj.
    destruct (Hname i t Hi) as (n & Hn & _ & ->).
    destruct (Hname j t' Hj) as (n' & Hn' & _ & ->).
    pose proof (Z.mod_pos_bound (day t + 3) 7 ltac:(lia)) as Hb.
    pose proof (Z.mod_pos_bound (day t' + 3) 7 ltac:(lia)) as Hb'.
    split.
    + intros [= <-].
      pose proof (NoDup_lookup _ _ _ _ weekdays_NoDup Hn Hn') as Heq.
      apply (f_equal Z.of_nat) in Heq. rewrite !Z2Nat.id in Heq by lia.
      replace (day t - day t')%Z with ((day t + 3) - (day t' + 3))%Z by lia.
      rewrite Zminus_mod, Heq, Z.sub_diag. done.
    + intros Hmod.
      assert ((day t + 3) `mod` 7 = (day t' + 3) `mod` 7)%Z as Heq.
      { replace (day t + 3)%Z with ((day t' + 3) + (day t - day t'))%Z by lia.
        rewrite Zplus_mod, Hmod, Z.add_0_r, Z.mod_mod by lia. done. }
      rewrite Heq in Hn. congruence.
Qed.
End weekdays.

(** X14: The column [Weekday]: on a table with distinct column labels whose
    column [Time] holds time stamps and missing values, every record with
    a time stamp gets the English name of its day of the week (the first
    of January 1970 being a Thursday), a record without one a missing
    value, and two records get the same name exactly when their days lie
    a whole number of weeks apart; the other columns stay as they are. *)
Theorem weekday_column_names (df : Pd.DataFrame) (times : list Pd.cell) :
  Pd.wf df →
  Pd.getitem df "Time" = Ok times →
  Forall (λ c, timely c = true) times →
  ∃ df' names,
    weekday_column df = Ok df'
    ∧ Pd.getitem df' "Weekday" = Ok names
    ∧ (∀ c, c ≠ "Weekday" → Pd.getitem df' c = Pd.getitem df c)
    ∧ (∀ i t, times !! i = Some (Pd.Timestamp t) →
         ∃ n, weekdays !! Z.to_nat ((day t + 3) `mod` 7) = Some n
              ∧ names !! i = Some (Pd.Str n))
    ∧ (∀ i, times !! i = Some Pd.NaN → names !! i = Some Pd.NaN)
    ∧ (∀ i j t t', times !! i = Some (Pd.Timestamp t) →
         times !! j = Some (Pd.Timestamp t') →
         names !! i = names !! j ↔ ((day t - day t') `mod` 7 = 0)%Z).
Proof. apply weekday_column_Ok. Qed.

Lemma weekday_column_names_witness :
  ∃ df' names,
    weekday_column squat_sets = Ok df'
    ∧ Pd.getitem df' "Weekday" = Ok names
    ∧ names !! 0 = Some (Pd.Str "Saturday")
    ∧ names !! 2 = Some (Pd.Str "Friday").
Proof.
  destruct (weekday_column_names squat_sets
              [Pd.Timestamp 190100; Pd.Timestamp 190000; Pd.Timestamp 86400])
    as (df' & names & Hrun & Hget & _ & Hname & _).
  - wf_sample.
  - reflexivity.
  - repeat (constructor; [reflexivity|]). constructor.
  - exists df', names. split_and!; [done..| |].
    + destruct (Hname 0 190100%Z) as (n & Hn & ->); [done|].
      by injection Hn as <-.
    + destruct (Hname 2 86400%Z) as (n & Hn & ->); [done|].
      by injection Hn as <-.
Defined.

(** * Categories by keyword *)

Section keywords.
Implicit Types (table : list (string * list string)) (exercise : string).

Lemma elem_of_muscle_categories table exercise c :
  c ∈ muscle_categories table exercise
  ↔ ∃ keywords keyword,
      (c, keywords) ∈ table ∧ keyword ∈ keywords
      ∧ Py.contains keyword exercise = true.
Proof.
  unfold muscle_categories. rewrite list_elem_of_bind. split.
  - intros ([c' kws] & Hc & Hin). simpl in Hc.
    apply list_elem_of_bind in Hc as (kw & Hc & Hkw).
    destruct (Py.contains kw exercise) eqn:E; [|by apply elem_of_nil in Hc].
    apply list_elem_of_singleton in Hc as ->. by exists kws, kw.
  - intros (kws & kw & Hin & Hkw & E). exists (c, kws). split; [|done].
    simpl. apply list_elem_of_bind. exists kw. rewrite E. split; [left|done].
Qed.

Lemma keyword_category_with table exercise :
  "Legs" ∈ muscle_categories table exercise →
  keyword_category table exercise = Some "Legs".
Proof.
  intros Hin. unfold keyword_category.
  destruct (muscle_categories table exercise) as [|c [|c' cats]] eqn:E.
  - by apply elem_of_nil in Hin.
  - apply list_elem_of_singleton in Hin as <-. done.
  - change (length (c :: c' :: cats) =? 1) with false.
    change (1 <? length (c :: c' :: cats)) with true.
    by rewrite bool_decide_eq_true_2.
Qed.

Lemma keyword_category_without table exercise :
  "Legs" ∉ muscle_categories table exercise →
  2 ≤ length (muscle_categories table exercise) →
  keyword_category table exercise = None.
Proof.
  intros Hin Hlen. unfold keyword_category.
  destruct (muscle_categories table exercise) as [|c [|c' cats]] eqn:E;
    simpl in Hlen; [lia..|].
  change (length (c :: c' :: cats) =? 1) with false.
  change (1 <? length (c :: c' :: cats)) with true.
  by rewrite bool_decide_eq_false_2.
Qed.

Lemma length_two {X} (l : list X) (x y : X) :
  x ∈ l → y ∈ l → x ≠ y → 2 ≤ length l.
Proof.
  intros Hx Hy Hne. destruct l as [|a [|b l]]; simpl; [|exfalso|lia].
  - by apply elem_of_nil in Hx.
  - apply list_elem_of_singleton in Hx, Hy. congruence.
Qed.

Lemma length_hits table exercise c keywords :
  (c, keywords) ∈ table →
  length (filter (λ keyword, Py.contains keyword exercise = true) keywords)
  ≤ length (muscle_categories table exercise).
Proof.
  intros Hin. apply list_elem_of_split in Hin as (t1 & t2 & ->).
  unfold muscle_categories. rewrite bind_app, bind_cons, !length_app. simpl.
  assert (length (filter (λ keyword, Py.contains keyword exercise = true) keywords)
          = length (keywords ≫= λ keyword,
                      if Py.contains keyword exercise then [c] else [])) as ->; [|lia].
  induction keywords as [|kw kws IH]; [done|].
  rewrite filter_cons, bind_cons, length_app.
  destruct (Py.contains kw exercise); simpl; rewrite IH; done.
Qed.

Lemma muscle_categories_Permutation table table' exercise :
  Forall2 (λ a b, a.1 = b.1 ∧ a.2 ≡ₚ b.2) table table' →
  muscle_categories table exercise ≡ₚ muscle_categories table' exercise.
Proof.
  unfold muscle_categories.
  induction 1 as [|[c kws] [c' kws'] t t' [Hc Hk] _ IH]; [done|].
  simpl in Hc, Hk. subst c'. rewrite !bind_cons. simpl.
  apply Permutation_app; [|done]. by rewrite Hk.
Qed.
End keywords.

(** X17: Legs always wins: a name in which a keyword of the category [Legs]
    occurs is given the category [Legs], whatever other keywords occur
    in it. *)
Theorem keyword_category_legs (exercise keyword : string) :
  keyword ∈ ["Calf"; "Leg"; "Squat"; "Lunge"; "Thigh"; "Clean"] →
  Py.contains keyword exercise = true →
  keyword_category map_exercise_to_muscle exercise = Some "Legs".
Proof.
  intros Hin Hocc. apply keyword_category_with, elem_of_muscle_categories.
  eexists _, keyword. split_and!; [|done..].
  unfold map_exercise_to_muscle. do 3 right. left.
Qed.

Lemma keyword_category_legs_witness :
  keyword_category map_exercise_to_muscle "Barbell Bench Press (with Raised Legs)"
  = Some "Legs".
Proof.
  apply (keyword_category_legs _ "Leg").
  - right. left.
  - reflexivity.
Defined.

(** X18: A category that the keywords give a name is the category of a keyword
    that occurs in it; and a name in which two keywords occur, neither of
    them one of [Legs], is given no category -- even when both keywords
    belong to the same category. *)
Theorem keyword_category_sound (exercise : string) :
  (∀ c, keyword_category map_exercise_to_muscle exercise = Some c →
        ∃ keywords keyword,
          (c, keywords) ∈ map_exercise_to_muscle ∧ keyword ∈ keywords
          ∧ Py.contains keyword exercise = true)
  ∧ (∀ c keywords keyword keyword',
        (c, keywords) ∈ map_exercise_to_muscle →
        keyword ∈ keywords → keyword' ∈ keywords → keyword ≠ keyword' →
        Py.contains keyword exercise = true →
        Py.contains keyword' exercise = true →
        Forall (λ k, Py.contains k exercise = false)
          ["Calf"; "Leg"; "Squat"; "Lunge"; "Thigh"; "Clean"] →
        keyword_category map_exercise_to_muscle exercise = None).
Proof.
  split.
  - intros c Hc. apply elem_of_muscle_categories.
    unfold keyword_category in Hc.
    destruct (muscle_categories _ exercise) as [|c1 [|c2 cats]] eqn:E; [done| |].
    + injection Hc as <-. left.
    + change (length (c1 :: c2 :: cats) =? 1) with false in Hc.
      change (1 <? length (c1 :: c2 :: cats)) with true in Hc.
      cbv iota in Hc. case_bool_decide; [|done]. by injection Hc as <-.
  - intros c kws k k' Hin Hk Hk' Hne Hocc Hocc' Hlegs.
    apply keyword_category_without.
    + intros Hl. apply elem_of_muscle_categories in Hl as (kws' & kw & Hin' & Hkw & E).
      assert (kws' = ["Calf"; "Leg"; "Squat"; "Lunge"; "Thigh"; "Clean"]) as ->.
      { unfold map_exercise_to_muscle in Hin'.
        repeat (apply elem_of_cons in Hin' as [Heq|Hin'];
                [try discriminate Heq; by injection Heq|]).
        by apply elem_of_nil in Hin'. }
      rewrite Forall_forall in Hlegs. rewrite (Hlegs kw Hkw) in E. done.
    + etrans; [|by eapply length_hits].
      apply (length_two _ k k'); [by apply list_elem_of_filter..|done].
Qed.

Lemma keyword_category_sound_witness :
  keyword_category map_exercise_to_muscle "Triceps Pushdown" = None.
Proof.
  apply (keyword_category_sound "Triceps Pushdown")
    with (c := "Arms") (keywords := ["Push"; "Curl"; "Kickback"; "Triceps"])
         (keyword := "Push") (keyword' := "Triceps").
  - left.
  - left.
  - do 3 right. left.
  - done.
  - reflexivity.
  - reflexivity.
  - repeat (constructor; [reflexivity|]). constructor.
Defined.

(** X19: The category that the keywords give a name does not depend on the
    order in which the keywords of a category are tried: tables with the
    same categories in the same order, each with the same keywords in
    any order, give the same answer. *)
Theorem keyword_category_order (table table' : list (string * list string))
    (exercise : string) :
  Forall2 (λ a b, a.1 = b.1 ∧ a.2 ≡ₚ b.2) table table' →
  keyword_category table exercise = keyword_category table' exercise.
Proof.
  intros Hperm.
  pose proof (muscle_categories_Permutation _ _ exercise Hperm) as Hp.
  unfold keyword_category.
  rewrite <-(Permutation_length Hp).
  destruct (length (muscle_categories table exercise) =? 1) eqn:E1.
  - apply Nat.eqb_eq in E1.
    destruct (muscle_categories table exercise) as [|c [|]]; [done| |done].
    by apply Permutation_singleton_l in Hp as ->.
  - destruct (1 <? _); [|done].
    rewrite (bool_decide_ext _ ("Legs" ∈ muscle_categories table' exercise)); [done|].
    by rewrite Hp.
Qed.

Lemma keyword_category_order_witness :
  keyword_category map_exercise_to_muscle "Leg Press"
  = keyword_category
      [("Arms", ["Triceps"; "Kickback"; "Curl"; "Push"]);
       ("Back", ["Pull"; "Row"; "deadlift"]);
       ("Chest", ["Bench"; "Crossover"; "Fly"]);
       ("Legs", ["Clean"; "Thigh"; "Lunge"; "Squat"; "Leg"; "Calf"]);
       ("Shoulders", ["Shoulder"; "Shrug"; "Delt"; "Arnold"; "Raise"])]
      "Leg Press".
Proof.
  apply (keyword_category_order map_exercise_to_muscle).
  repeat (constructor; [split; [reflexivity|simpl]|]); try constructor.
  - symmetry. apply (reverse_Permutation ["Push"; "Curl"; "Kickback"; "Triceps"]).
  - done.
  - done.
  - symmetry.
    apply (reverse_Permutation ["Calf"; "Leg"; "Squat"; "Lunge"; "Thigh"; "Clean"]).
  - done.
Defined.

(** * Categories in the table *)

Section categories.
Import Pd.
Context (cols : list string) (ke kb : nat).
Context (Hke : position "Exercise Name" cols = Some ke).
Context (Hkb : position "Bereich" cols = Some kb).
Implicit Types (rs cur : list (Z * list cell)) (e c : cell).

Lemma ke_kb : ke ≠ kb.
Proof.
  intros ->. apply position_Some in Hke as [Hke' _].
  apply position_Some in Hkb as [Hkb' _]. congruence.
Qed.

Lemma getitem_names rs :
  getitem (mkDataFrame cols rs) "Exercise Name" = Ok ((λ r, field ke r.2) <$> rs).
Proof. unfold getitem. simpl. by rewrite Hke. Qed.



Lemma bind_Ok_eq {X Y} (x : X) (f : X → result Y) : Ok x ≫= f = f x.
Proof. done. Qed.

Lemma zip_with_fmap_diag {X Y W} (f : X → Y → W) (g : X → Y) (l : list X) :
  zip_with f l (g <$> l) = (λ x, f x (g x)) <$> l.
Proof.
  induction l as [|x l IH]; [done|].
  rewrite !fmap_cons. cbn [zip_with]. by rewrite IH.
Qed.

Lemma loc_set_fmap rs (m : Z * list cell → bool) v :
  loc_set (mkDataFrame cols rs) (m <$> rs) "Bereich" v
  = mkDataFrame cols ((λ r, if m r then (r.1, <[kb := v]> r.2) else r) <$> rs).
Proof.
  unfold loc_set. cbn [columns records]. rewrite Hkb.
  by rewrite (zip_with_fmap_diag _ m rs).
Qed.

Lemma eq_val_fmap rs e :
  e ≠ NaN →
  eq_val ((λ r, field ke r.2) <$> rs) e
  = (λ r, bool_decide (field ke r.2 = e)) <$> rs.
Proof.
  intros He. unfold eq_val. rewrite <-list_fmap_compose.
  apply list_fmap_ext. intros _ r _. simpl.
  destruct e; simpl; by rewrite ?andb_true_r.
Qed.







(** ** The keywords *)





(** ** The lost categories *)





Lemma restored_name rs0 r r' :
  restored ke kb rs0 r r' → field ke r'.2 = field ke r.2.
Proof.
  intros [->|(_ & r0 & _ & _ & ->)]; [done|]. simpl.
  apply field_insert_ne. intros ?. by apply ke_kb.
Qed.





End categories.





(** * Skipped sets, once more *)

Lemma remove_skipped_sets_Ok (df : Pd.DataFrame) (k : nat) :
  Pd.position "Ausgelassen" (Pd.columns df) = Some k →
  remove_skipped_sets df
  = Ok {| Pd.columns := Pd.columns df;
          Pd.records :=
            filter (λ r, r.1 ∉ (filter (skipped k) (Pd.records df)).*1)
              (Pd.records df) |}.
Proof.
  intros Hk. unfold remove_skipped_sets, Pd.getitem. rewrite Hk. simpl.
  unfold Pd.drop. do 2 f_equal.
  apply list_filter_iff. intros r. by rewrite index_loc_mask.
Qed.

(** X22: On a table with distinct column labels, [remove_skipped_sets] leaves
    no skipped set behind, and running it on its own result changes
    nothing -- also on a table in which several records carry the same
    label, where it removes every record that
    shares its label with a skipped one. *)
Theorem remove_skipped_sets_idempotent (df df' : Pd.DataFrame) :
  Pd.wf df →
  remove_skipped_sets df = Ok df' →
  remove_skipped_sets df' = Ok df'
  ∧ ∃ k, Pd.position "Ausgelassen" (Pd.columns df') = Some k
         ∧ Forall (λ r, ¬ skipped k r) (Pd.records df')
         ∧ Pd.records df'
           = filter (λ r, r.1 ∉ (filter (skipped k) (Pd.records df)).*1)
               (Pd.records df).
Proof.
  intros _ Hrun.
  destruct (Pd.position "Ausgelassen" (Pd.columns df)) as [k|] eqn:Hk.
  2:{ unfold remove_skipped_sets, Pd.getitem in Hrun. by rewrite Hk in Hrun. }
  rewrite (remove_skipped_sets_Ok df k Hk) in Hrun. injection Hrun as <-.
  assert (Forall (λ r, ¬ skipped k r)
            (filter (λ r, r.1 ∉ (filter (skipped k) (Pd.records df)).*1)
               (Pd.records df))) as Hnone.
  { apply Forall_forall. intros r Hr Hs.
    apply list_elem_of_filter in Hr as [Hnot Hr]. apply Hnot.
    apply list_elem_of_fmap. exists r. split; [done|].
    by apply list_elem_of_filter. }
  split; [|by exists k].
  rewrite (remove_skipped_sets_Ok _ k) by done. simpl. do 2 f_equal.
  apply filter_all. apply Forall_forall. intros r Hr Hin.
  apply list_elem_of_fmap in Hin as (r' & _ & Hr').
  apply list_elem_of_filter in Hr' as [Hs Hr'].
  rewrite Forall_forall in Hnone. by apply (Hnone r').
Qed.

Lemma remove_skipped_sets_idempotent_witness :
  remove_skipped_sets
    {| Pd.columns := Pd.columns gymbook_sample;
       Pd.records := filter (λ r, ¬ skipped 4 r) (Pd.records gymbook_sample) |}
  = Ok {| Pd.columns := Pd.columns gymbook_sample;
          Pd.records := filter (λ r, ¬ skipped 4 r) (Pd.records gymbook_sample) |}.
Proof.
  apply (remove_skipped_sets_idempotent gymbook_sample).
  - wf_sample.
  - reflexivity.
Defined.

(** * Repetitions without digits *)

(** X23: [convert_columns] needs a number in every cell of [Repetitions]: when
    the table has distinct column labels, the column holds texts, the cells before the one numbered [i] each
    hold a run of digits below [2^63] and that cell is missing or a text
    without any digit, it raises [ValueError] and returns no table. *)
Theorem convert_columns_digitless (df : Pd.DataFrame) (repetitions : list Pd.cell)
    (i : nat) (c : Pd.cell) :
  Pd.wf df →
  Pd.getitem df "Repetitions" = Ok repetitions →
  Pd.str repetitions = Ok repetitions →
  Forall (λ c, ∃ s run, c = Pd.Str s ∧ first_run s run
                        ∧ (Py.digits_value run < 2 ^ 63)%Z) (take i repetitions) →
  repetitions !! i = Some c →
  c = Pd.NaN ∨ (∃ s, c = Pd.Str s ∧ digit_free s = true) →
  convert_columns df = Raise (ValueError CannotConvertNaN).
Proof.
  intros _ Hget Hstr Hbefore Hi Hc. unfold convert_columns.
  rewrite Hget. simpl. unfold Pd.str_extract. rewrite Hstr. simpl.
  unfold Pd.astype_int. rewrite mapM_fmap.
  rewrite <-(take_drop_middle repetitions i c) by done.
  rewrite (mapM_raises _ _ _ _ (ValueError CannotConvertNaN)); [done| |].
  - eapply Forall_impl; [done|]. intros c' (s & run & -> & Hrun & Hsmall).
    unfold compose. rewrite (first_run_search _ _ Hrun). cbn [from_option].
    destruct Hrun as (_ & _ & _ & _ & Hd & _). rewrite int_digits by done.
    simpl. rewrite bool_decide_eq_true_2 by done. by eexists.
  - unfold compose. destruct Hc as [->|(s & -> & Hfree)]; [done|].
    by rewrite search_digits_None.
Qed.

Lemma convert_columns_digitless_witness :
  convert_columns
    {| Pd.columns := ["Repetitions"; "Weight"];
       Pd.records := [(0%Z, [Pd.Str "12 Wdh."; Pd.Str "80,5 kg"]);
                      (1%Z, [Pd.Str "max"; Pd.Str "80,5 kg"])] |}
  = Raise (ValueError CannotConvertNaN).
Proof.
  apply (convert_columns_digitless _ [Pd.Str "12 Wdh."; Pd.Str "max"] 1 (Pd.Str "max")).
  - wf_sample.
  - reflexivity.
  - reflexivity.
  - constructor; [|constructor]. exists "12 Wdh.", "12". split; [done|].
    split; [|by vm_compute]. exists "", " Wdh.". done.
  - reflexivity.
  - right. by exists "max".
Defined.

(** * What the new columns leave alone *)

Lemma extend_gymbook_df_Ok (df : Pd.DataFrame) (times : list Z)
    (names : list Pd.cell) :
  Pd.wf df →
  Pd.getitem df "Time" = Ok (Pd.Timestamp <$> times) →
  Pd.getitem df "Exercise Name" = Ok names →
  ∃ df',
    extend_gymbook_df df = Ok df'
    ∧ Pd.wf df'
    ∧ Pd.index df' = Pd.index df
    ∧ Pd.getitem df' "Session Duration (s)"
      = Ok ((λ t, Pd.Num (Qc_of_Z (span times t))) <$> times)
    ∧ Pd.getitem df' "Set Order"
      = Ok (succ_cell <$> Pd.cumcount
              (Pd.pair_keys ((λ t, Some (day t)) <$> times) (Pd.key_of <$> names)))
    ∧ ∀ c, c ≠ "Session Duration (s)" → c ≠ "Set Order" →
           Pd.getitem df' c = Pd.getitem df c.
Proof.
  intros Hwf Htime Hnames.
  pose proof (getitem_length _ _ _ Htime) as Hlt. rewrite length_fmap in Hlt.
  pose proof (getitem_length _ _ _ Hnames) as Hln.
  set (seconds := (λ t, Pd.Num (Qc_of_Z (span times t))) <$> times).
  destruct (setitem_Ok df "Session Duration (s)" seconds Hwf)
    as (df1 & Hset1 & Hwf1 & Hget1 & Hold1 & Hidx1 & Hlen1).
  { unfold seconds. by rewrite length_fmap. }
  set (order := succ_cell <$> Pd.cumcount
    (Pd.pair_keys ((λ t, Some (day t)) <$> times) (Pd.key_of <$> names))).
  destruct (setitem_Ok df1 "Set Order" order Hwf1)
    as (df2 & Hset2 & Hwf2 & Hget2 & Hold2 & Hidx2 & Hlen2).
  { unfold order, Pd.cumcount, Pd.pair_keys.
    rewrite length_fmap, length_cumcount, length_zip_with, !length_fmap. lia. }
  exists df2. split_and!.
  - unfold extend_gymbook_df. rewrite Htime. simpl.
    pose proof (session_durations times) as Hdur.
    destruct (Pd.dt_date (Pd.Timestamp <$> times)) as [dates|] eqn:Edates; [|done].
    simpl in Hdur |- *.
    destruct (Pd.groupby_transform dates _ _) as [spans|]; [|done].
    simpl in Hdur |- *. rewrite Hdur. simpl. fold seconds. rewrite Hset1. simpl.
    rewrite (Hold1 "Time") by done. rewrite Htime. simpl.
    rewrite Edates. simpl.
    rewrite (Hold1 "Exercise Name") by done. rewrite Hnames. simpl.
    assert (dates = (λ t, Some (day t)) <$> times) as ->.
    { unfold Pd.dt_date in Edates. rewrite mapM_fmap in Edates.
      rewrite (mapM_total _ (λ t, Some (day t))) in Edates
        by by apply Forall_forall.
      by injection Edates as <-. }
    rewrite add_scalar_numeric by apply cumcount_cells.
    simpl. fold order. done.
  - done.
  - by rewrite Hidx2.
  - rewrite (Hold2 "Session Duration (s)") by done. done.
  - done.
  - intros c Hc1 Hc2. rewrite (Hold2 c) by done. by apply Hold1.
Qed.

(** X24: [extend_gymbook_df] changes nothing but the two columns it writes: on
    a table with distinct column labels and a time stamp in every cell of
    [Time], the labels of the records and every other column are as they
    were, every session duration is a whole number of seconds from 0 to
    86399, and every set order of a set with an exercise name is a whole
    number from 1 on. *)
Theorem extend_gymbook_df_keeps (df : Pd.DataFrame) (times : list Z)
    (names : list Pd.cell) :
  Pd.wf df →
  Pd.getitem df "Time" = Ok (Pd.Timestamp <$> times) →
  Pd.getitem df "Exercise Name" = Ok names →
  ∃ df' durations orders,
    extend_gymbook_df df = Ok df'
    ∧ Pd.wf df'
    ∧ Pd.index df' = Pd.index df
    ∧ (∀ c, c ≠ "Session Duration (s)" → c ≠ "Set Order" →
            Pd.getitem df' c = Pd.getitem df c)
    ∧ Pd.getitem df' "Session Duration (s)" = Ok durations
    ∧ Pd.getitem df' "Set Order" = Ok orders
    ∧ Forall (λ d, ∃ s, d = Pd.Num (Qc_of_Z s) ∧ (0 ≤ s < 86400)%Z) durations
    ∧ (∀ i n o, names !! i = Some n → n ≠ Pd.NaN → orders !! i = Some o →
         ∃ k, o = Pd.Num (Qc_of_Z k) ∧ (1 ≤ k)%Z).
Proof.
  intros Hwf Htime Hnames.
  destruct (extend_gymbook_df_Ok df times names Hwf Htime Hnames)
    as (df' & Hrun & Hwf' & Hidx & Hdur & Hord & Hold).
  eexists df', _, _. split_and!; [done..| |].
  - apply Forall_fmap, Forall_forall. intros t Ht. simpl.
    exists (span times t). split; [done|].
    rewrite <-(span_small times t Ht). apply Z.mod_pos_bound. lia.
  - intros i n o Hn Hnan Ho.
    assert (i < length times) as Hi.
    { apply lookup_lt_Some in Hn.
      apply getitem_length in Htime, Hnames. rewrite length_fmap in Htime. lia. }
    apply lookup_lt_is_Some in Hi as [t Ht].
    rewrite list_lookup_fmap, (cumcount_position _ _ _ t n) in Ho by done.
    simpl in Ho. injection Ho as <-. rewrite Qc_of_Z_succ.
    eexists. split; [done|]. lia.
Qed.

Lemma extend_gymbook_df_keeps_witness :
  ∃ df' durations orders,
    extend_gymbook_df squat_sets = Ok df'
    ∧ Pd.wf df'
    ∧ Pd.index df' = [7; 3; 0]%Z
    ∧ (∀ c, c ≠ "Session Duration (s)" → c ≠ "Set Order" →
            Pd.getitem df' c = Pd.getitem squat_sets c)
    ∧ Pd.getitem df' "Session Duration (s)" = Ok durations
    ∧ Pd.getitem df' "Set Order" = Ok orders
    ∧ Forall (λ d, ∃ s, d = Pd.Num (Qc_of_Z s) ∧ (0 ≤ s < 86400)%Z) durations
    ∧ (∀ i n o, (Pd.Str <$> ["Barbell Squat"; "Barbell Squat"; "Barbell Squat"]) !! i
                = Some n → n ≠ Pd.NaN → orders !! i = Some o →
         ∃ k, o = Pd.Num (Qc_of_Z k) ∧ (1 ≤ k)%Z).
Proof.
  apply (extend_gymbook_df_keeps squat_sets [190100; 190000; 86400]%Z
           (Pd.Str <$> ["Barbell Squat"; "Barbell Squat"; "Barbell Squat"])).
  - wf_sample.
  - reflexivity.
  - reflexivity.
Defined.

(** * Volume without weight *)

Lemma training_volume_zero kr kw (rs : list (Z * list Pd.cell)) :
  Forall (λ r, Pd.field kw r.2 = Pd.Num 0) rs → training_volume kr kw rs = 0%Qc.
Proof.
  induction 1 as [|r rs Hr _ IH]; [done|].
  simpl. rewrite Hr, IH. unfold set_volume.
  destruct (Pd.field kr r.2); rewrite ?Qcmult_0_r; by rewrite Qcplus_0_l.
Qed.

(** X25: Sets without weight have no volume: a group with distinct column
    labels in which every weight is 0, as the merged table has it for every set logged without a weight,
    has the volume 0, whatever the repetitions. *)
Theorem calculate_volumne_bodyweight (group : Pd.DataFrame) (kr kw : nat) :
  Pd.wf group →
  Pd.position "Repetitions" (Pd.columns group) = Some kr →
  Pd.position "Weight" (Pd.columns group) = Some kw →
  Forall (λ r, numeric (Pd.field kr r.2) = true
               ∧ Pd.field kw r.2 = Pd.Num 0) (Pd.records group) →
  calculate_volumne group = Ok (Pd.Num 0).
Proof.
  intros _ Hkr Hkw Hall. rewrite (volume_of_group group kr kw) by first
    [ done
    | eapply Forall_impl; [done|]; by intros r [? ->] ].
  rewrite training_volume_zero; [done|].
  eapply Forall_impl; [done|]. by intros r [_ ?].
Qed.

Lemma calculate_volumne_bodyweight_witness :
  calculate_volumne
    {| Pd.columns := ["Exercise Name"; "Repetitions"; "Weight"];
       Pd.records := [(0%Z, [Pd.Str "Chinup"; Pd.Num (Qc_of_Z 8); Pd.Num 0]);
                      (1%Z, [Pd.Str "Chinup"; Pd.Num (Qc_of_Z 6); Pd.Num 0])] |}
  = Ok (Pd.Num 0).
Proof.
  apply (calculate_volumne_bodyweight _ 1 2).
  - wf_sample.
  - reflexivity.
  - reflexivity.
  - repeat (constructor; [done|]). constructor.
Defined.


Lemma singularize_regular_witness :
  singularize ["Barbell Squats"; "Plank"] !! "Barbell Squats" = Some "Barbell Squat".
Proof.
  apply (singularize_regular ["Barbell Squats"; "Plank"] "Barbell Squats").
  - left.
  - reflexivity.
  - reflexivity.
  - reflexivity.
Defined.

(** * Singular names, in any order *)

Section singular.
Implicit Types (exceptions exercises : list string) (d : gmap string string).

Lemma keep_e_lookup exceptions : ∀ d e,
  keep_e exceptions d e !! e = foldl (keep_step e) (d !! e) exceptions.
Proof.
  unfold keep_e.
  induction exceptions as [|x exceptions IH]; intros d e; [done|].
  simpl. rewrite IH. f_equal. unfold keep_step.
  destruct (Py.contains x e); [|done]. by rewrite lookup_insert_eq.
Qed.

Lemma keep_step_cases exceptions e :
  (∀ v, foldl (keep_step e) v exceptions = v)
  ∨ (∃ r, ∀ v, foldl (keep_step e) v exceptions = Some r).
Proof.
  induction exceptions as [|x exceptions IH] using rev_ind; [by left|].
  destruct (Py.contains x e) eqn:E.
  - right. eexists. intros v. rewrite foldl_snoc. unfold keep_step.
    rewrite E. done.
  - destruct IH as [IH|[r IH]].
    + left. intros v. rewrite foldl_snoc. unfold keep_step at 1. by rewrite E.
    + right. exists r. intros v. rewrite foldl_snoc. unfold keep_step at 1.
      by rewrite E.
Qed.

Lemma foldl_keep_e_lookup exceptions keys : ∀ d k,
  foldl (keep_e exceptions) d keys !! k
  = if decide (k ∈ keys) then foldl (keep_step k) (d !! k) exceptions else d !! k.
Proof.
  induction keys as [|e keys IH]; intros d k; [done|].
  simpl. rewrite IH.
  destruct (decide (k = e)) as [->|Hne].
  - rewrite (decide_True (P := e ∈ e :: keys)) by left.
    rewrite keep_e_lookup. case_decide; [|done].
    destruct (keep_step_cases exceptions e) as [Hs|[r Hs]]; by rewrite !Hs.
  - rewrite keep_e_other by done.
    destruct (decide (k ∈ keys)) as [Hin|Hin].
    + rewrite decide_True; [done|]. by right.
    + rewrite decide_False; [done|]. rewrite not_elem_of_cons. done.
Qed.

Lemma singular_with_foldl exceptions name : ∀ v,
  foldl (keep_step name) (Some v) exceptions
  = Some (foldl (λ singular_replacement exception,
            if Py.contains exception name
            then Py.replace (Py.str_but_last_n 2 exception)
                            (Py.str_but_last_n 1 exception) name
            else singular_replacement) v exceptions).
Proof.
  induction exceptions as [|x exceptions IH]; intros v; [done|].
  simpl. unfold keep_step at 2. destruct (Py.contains x name); apply IH.
Qed.

Lemma singularize_with_lookup exceptions exercises k :
  singularize_with exceptions exercises !! k
  = if decide (k ∈ exercises ∧ plural k = true)
    then Some (singular_with exceptions k) else None.
Proof.
  unfold singularize_with. rewrite singles_of_filter.
  rewrite <-list_fmap_compose. simpl. rewrite list_fmap_id.
  rewrite foldl_keep_e_lookup, dict_graph.
  destruct (decide (k ∈ filter (λ e, plural e = true) exercises)) as [Hin|Hin].
  - rewrite decide_True by (apply list_elem_of_filter in Hin; tauto).
    apply singular_with_foldl.
  - rewrite decide_False; [done|]. intros [? ?]. apply Hin.
    by apply list_elem_of_filter.
Qed.

Lemma two_exceptions exceptions (a b : string) :
  exceptions ≡ₚ [a; b] → exceptions = [a; b] ∨ exceptions = [b; a].
Proof.
  intros Hp. pose proof (Permutation_length Hp) as Hlen.
  destruct exceptions as [|x [|y [|]]]; simpl in Hlen; try lia.
  assert (a ∈ [x; y]) as Ha by (rewrite Hp; left).
  assert (b ∈ [x; y]) as Hb by (rewrite Hp; right; left).
  assert (x ∈ [a; b]) as Hx by (rewrite <-Hp; left).
  assert (y ∈ [a; b]) as Hy by (rewrite <-Hp; right; left).
  rewrite !elem_of_cons, !elem_of_nil in Ha, Hb, Hx, Hy.
  destruct Hx as [->|[->|[]]], Hy as [->|[->|[]]]; auto.
  - destruct Hb as [->|[->|[]]]; auto.
  - destruct Ha as [->|[->|[]]]; auto.
Qed.
End singular.

(** X29: [singularize] does not depend on the order in which Python iterates
    its sets: for the exercise names in any order and the two exceptions
    in either order, the dictionary is the same, as long as no name
    contains both [Lunges] and [Raises]. *)
Theorem singularize_order (exercises exercises' exceptions : list string) :
  exercises' ≡ₚ exercises →
  exceptions ≡ₚ ["Lunges"; "Raises"] →
  Forall (λ name, Py.contains "Lunges" name = false
                  ∨ Py.contains "Raises" name = false) exercises →
  singularize_with exceptions exercises' = singularize exercises.
Proof.
  intros Hex Hexc Hboth. apply map_eq. intros k. unfold singularize.
  rewrite !singularize_with_lookup.
  destruct (decide (k ∈ exercises ∧ plural k = true)) as [[Hin Hpl]|Hnot].
  - rewrite decide_True by (by rewrite Hex).
    f_equal. apply two_exceptions in Hexc as [->| ->]; [done|].
    rewrite Forall_forall in Hboth.
    unfold singular_with. simpl.
    destruct (Hboth k Hin) as [-> | ->]; [done|].
    by destruct (Py.contains "Lunges" k).
  - rewrite decide_False; [done|]. by rewrite Hex.
Qed.

Lemma singularize_order_witness :
  singularize_with ["Raises"; "Lunges"] ["Dumbbell Lunges"; "Plank"; "Barbell Squats"]
  = singularize ["Barbell Squats"; "Dumbbell Lunges"; "Plank"].
Proof.
  apply singularize_order.
  - symmetry.
    apply (Permutation_cons_append ["Dumbbell Lunges"; "Plank"] "Barbell Squats").
  - apply Permutation_swap.
  - repeat (constructor; [by vm_compute; auto|]). constructor.
Defined.

(** * The alias tables, applied again *)

Section aliases.
Import Pd.

Lemma rename_exercises_alias (names : list cell) :
  rename_exercises names
  = (λ c, match c with Str s => Str (alias s) | _ => c end) <$> names.
Proof.
  unfold rename_exercises, replace. rewrite <-!list_fmap_compose.
  apply list_fmap_ext. intros _ c _. by destruct c.
Qed.

Lemma alias_values_gymbook :
  Forall (λ kv : string * string,
            let name := default kv.2 (map_progression_to_gymbook !! kv.2) in
            let name := default name (map_rename_in_both !! name) in
            alias name = name)
         (map_to_list map_gymbook_to_progression).
Proof. apply (bool_decide_unpack _). by vm_compute. Qed.

Lemma alias_values_progression :
  Forall (λ kv : string * string,
            let name := default kv.2 (map_rename_in_both !! kv.2) in
            alias name = name)
         (map_to_list map_progression_to_gymbook).
Proof. apply (bool_decide_unpack _). by vm_compute. Qed.

Lemma alias_values_both :
  Forall (λ kv : string * string, alias kv.2 = kv.2)
         (map_to_list map_rename_in_both).
Proof. apply (bool_decide_unpack _). by vm_compute. Qed.

Lemma alias_alias name : alias (alias name) = alias name.
Proof.
  unfold alias at 2 3.
  destruct (map_gymbook_to_progression !! name) as [v|] eqn:E1.
  { apply elem_of_map_to_list in E1.
    pose proof alias_values_gymbook as H. rewrite Forall_forall in H.
    apply (H _ E1). }
  cbn [default].
  destruct (map_progression_to_gymbook !! name) as [v|] eqn:E2.
  { apply elem_of_map_to_list in E2.
    pose proof alias_values_progression as H. rewrite Forall_forall in H.
    apply (H _ E2). }
  cbn [default].
  destruct (map_rename_in_both !! name) as [v|] eqn:E3.
  { apply elem_of_map_to_list in E3.
    pose proof alias_values_both as H. rewrite Forall_forall in H.
    apply (H _ E3). }
  cbn [default]. unfold alias. rewrite E1. cbn [default]. rewrite E2.
  cbn [default]. by rewrite E3.
Qed.
End aliases.

(** X30: The three alias tables settle every name in one pass: replacing with
    them a second time changes no name, whatever the names are. *)
Theorem rename_exercises_idempotent (names : list Pd.cell) :
  rename_exercises (rename_exercises names) = rename_exercises names.
Proof.
  rewrite !rename_exercises_alias, <-list_fmap_compose.
  apply list_fmap_ext. intros _ c _. simpl.
  destruct c; try done. by rewrite alias_alias.
Qed.

(** * German categories *)

(** X15: The two replacements in [Bereich]: on a table with distinct column
    labels and a column [Bereich], every German category becomes its
    English name, every missing category becomes [Undefined], every other
    cell stays; no category is missing afterwards, and the other columns
    and the labels of the records are as they were. *)
Theorem translate_categories_english (df : Pd.DataFrame) (bereich : list Pd.cell) :
  Pd.wf df →
  Pd.getitem df "Bereich" = Ok bereich →
  ∃ df',
    translate_categories df = Ok df'
    ∧ Pd.wf df'
    ∧ Pd.getitem df' "Bereich" = Ok (english_category <$> bereich)
    ∧ Forall (λ c, c ≠ Pd.NaN) (english_category <$> bereich)
    ∧ Pd.index df' = Pd.index df
    ∧ ∀ c, c ≠ "Bereich" → Pd.getitem df' c = Pd.getitem df c.
Proof.
  intros Hwf Hget. unfold translate_categories. rewrite Hget. simpl.
  destruct (setitem_Ok df "Bereich" (Pd.replace bereich map_muscle_category_ger_eng))
    as (df1 & -> & Hwf1 & Hget1 & Hold1 & Hidx1 & Hlen1); [done| |].
  { unfold Pd.replace. rewrite length_fmap. by eapply getitem_length. }
  simpl. rewrite Hget1. simpl.
  destruct (setitem_Ok df1 "Bereich"
              (Pd.replace_value Pd.NaN (Pd.Str "Undefined")
                 (Pd.replace bereich map_muscle_category_ger_eng)))
    as (df2 & -> & Hwf2 & Hget2 & Hold2 & Hidx2 & Hlen2); [done| |].
  { unfold Pd.replace_value, Pd.replace. rewrite !length_fmap.
    rewrite Hlen1. by eapply getitem_length. }
  exists df2. split_and!; [done..| | | |].
  - rewrite Hget2. f_equal. unfold Pd.replace_value, Pd.replace.
    rewrite <-list_fmap_compose. apply list_fmap_ext. intros _ c _.
    by destruct c.
  - apply Forall_fmap, Forall_forall. intros c _. by destruct c.
  - by rewrite Hidx2.
  - intros c Hc. rewrite (Hold2 c) by done. by apply Hold1.
Qed.

Lemma translate_categories_english_witness :
  ∃ df',
    translate_categories
      {| Pd.columns := ["Exercise Name"; "Bereich"];
         Pd.records := [(0%Z, [Pd.Str "Squat"; Pd.Str "Beine"]);
                        (1%Z, [Pd.Str "Chinup"; Pd.NaN])] |} = Ok df'
    ∧ Pd.getitem df' "Bereich" = Ok [Pd.Str "Legs"; Pd.Str "Undefined"].
Proof.
  destruct (translate_categories_english
              {| Pd.columns := ["Exercise Name"; "Bereich"];
                 Pd.records := [(0%Z, [Pd.Str "Squat"; Pd.Str "Beine"]);
                                (1%Z, [Pd.Str "Chinup"; Pd.NaN])] |}
              [Pd.Str "Beine"; Pd.NaN])
    as (df' & Hrun & _ & Hget & _).
  - wf_sample.
  - reflexivity.
  - exists df'. split; [done|]. rewrite Hget. by vm_compute.
Defined.

(** * Categories by hand *)

Section by_hand.
Import Pd.
Context (cols : list string) (ke kb : nat).
Context (Hke : position "Exercise Name" cols = Some ke).
Context (Hkb : position "Bereich" cols = Some kb).

Lemma hand_set_name categories (r : Z * list cell) :
  field ke (snd (hand_set ke kb categories r)) = field ke r.2.
Proof.
  unfold hand_set. destruct (field ke r.2) eqn:E; try done.
  destruct (categories !! _); [|done]. simpl.
  rewrite field_insert_ne; [done|]. intros ?. by eapply (ke_kb cols ke kb).
Qed.

Lemma for_each_listed (pairs : list (string * string)) : ∀ rs,
  NoDup pairs.*1 →
  for_each (λ df pair,
      names ← getitem df "Exercise Name";
      mret (loc_set df (eq_val names (Str pair.1)) "Bereich" (Str pair.2)))
    (mkDataFrame cols rs) pairs
  = Ok (mkDataFrame cols (hand_set ke kb (list_to_map pairs) <$> rs)).
Proof.
  induction pairs as [|[ex c] pairs IH]; intros rs Hnd.
  { simpl. do 2 f_equal. rewrite <-(list_fmap_id rs) at 1.
    apply list_fmap_ext. intros _ r _. unfold hand_set. simpl.
    destruct (field ke r.2); try done. }
  apply NoDup_cons in Hnd as [Hex Hnd]. cbn [for_each].
  rewrite (getitem_names cols ke Hke), bind_Ok_eq.
  rewrite (eq_val_fmap ke) by done.
  unfold mret, result_ret. rewrite (loc_set_fmap cols kb Hkb), bind_Ok_eq.
  rewrite IH by done. do 2 f_equal. rewrite <-list_fmap_compose.
  apply list_fmap_ext. intros _ r _. simpl.
  case_bool_decide as Hr.
  - unfold hand_set at 1. simpl.
    rewrite field_insert_ne by (intros ?; by eapply (ke_kb cols ke kb)).
    rewrite Hr. rewrite (not_elem_of_list_to_map_1 _ ex) by done.
    unfold hand_set. rewrite Hr. simpl. by rewrite lookup_insert_eq.
  - unfold hand_set. destruct (field ke r.2) as [|name| | |] eqn:E; try done.
    simpl. rewrite lookup_insert_ne; [done|]. congruence.
Qed.
End by_hand.

Lemma listed_Permutation (table table' : list (string * list string)) :
  Forall2 (λ a b, a.1 = b.1 ∧ a.2 ≡ₚ b.2) table table' →
  listed table ≡ₚ listed table'.
Proof.
  unfold listed.
  induction 1 as [|[c names] [c' names'] t t' [Hc Hn] _ IH]; [done|].
  simpl in Hc, Hn. subst c'. rewrite !bind_cons. simpl.
  apply Permutation_app; [|done]. by rewrite Hn.
Qed.

(** X21: The categories given by hand: on a table with distinct column labels,
    among them [Exercise Name] and [Bereich], the two loops over [map_conflicts] and
    [manual_map] give every record of a listed exercise the category it is
    listed under, whatever category it had, and leave every other record
    as it is.  No exercise is listed twice, and so the order in which
    Python iterates the sets of names does not matter: the same table
    comes out for the names of every category taken in any order. *)
Theorem assign_by_hand_listed (df : Pd.DataFrame) (ke kb : nat)
    (conflicts manual : list (string * list string)) :
  Pd.wf df →
  Pd.position "Exercise Name" (Pd.columns df) = Some ke →
  Pd.position "Bereich" (Pd.columns df) = Some kb →
  Forall2 (λ a b, a.1 = b.1 ∧ a.2 ≡ₚ b.2) map_conflicts conflicts →
  Forall2 (λ a b, a.1 = b.1 ∧ a.2 ≡ₚ b.2) manual_map manual →
  NoDup (listed map_conflicts ++ listed manual_map).*1
  ∧ assign_by_hand_with conflicts manual df
    = Ok {| Pd.columns := Pd.columns df;
            Pd.records :=
              hand_set ke kb (list_to_map (listed map_conflicts ++ listed manual_map))
                <$> Pd.records df |}.
Proof.
  intros _ Hke Hkb Hc Hm. destruct df as [cols rs]. cbn [Pd.columns Pd.records] in *.
  assert (NoDup (listed map_conflicts ++ listed manual_map).*1) as Hnd.
  { apply (bool_decide_unpack _). by vm_compute. }
  split; [done|].
  apply listed_Permutation in Hc, Hm.
  pose proof Hnd as Hnd'. rewrite fmap_app in Hnd'.
  apply NoDup_app in Hnd' as (Hnd1 & Hdisj & Hnd2).
  unfold assign_by_hand_with, assign_listed.
  rewrite (for_each_listed cols ke kb Hke Hkb) by (by rewrite <-Hc).
  rewrite bind_Ok_eq.
  rewrite (for_each_listed cols ke kb Hke Hkb) by (by rewrite <-Hm).
  do 2 f_equal. rewrite <-list_fmap_compose.
  apply list_fmap_ext. intros _ r _. unfold compose.
  unfold hand_set at 1. rewrite (hand_set_name cols ke kb Hke Hkb).
  unfold hand_set.
  destruct (Pd.field ke r.2) as [|name| | |] eqn:E; try done.
  rewrite list_to_map_app.
  rewrite <-(list_to_map_proper (M := gmap string) (listed map_conflicts)
               (listed conflicts)) by done.
  rewrite <-(list_to_map_proper (M := gmap string) (listed manual_map)
               (listed manual)) by done.
  set (D1 := list_to_map (listed map_conflicts) : gmap string string).
  set (D2 := list_to_map (listed manual_map) : gmap string string).
  destruct (D1 !! name) as [c|] eqn:E1.
  - rewrite (lookup_union_Some_l D1 D2 name c E1). simpl.
    destruct (D2 !! name) as [c'|] eqn:E2; [|done].
    exfalso. apply elem_of_list_to_map_2 in E1, E2.
    apply (Hdisj name); apply list_elem_of_fmap; by eexists (_, _).
  - rewrite (lookup_union_r D1 D2 name E1).
    destruct (D2 !! name); done.
Qed.

Lemma assign_by_hand_listed_witness :
  assign_by_hand category_sample
  = Ok {| Pd.columns := ["Exercise Name"; "Bereich"];
          Pd.records :=
            hand_set 0 1 (list_to_map (listed map_conflicts ++ listed manual_map))
              <$> Pd.records category_sample |}.
Proof.
  apply (assign_by_hand_listed category_sample 0 1 map_conflicts manual_map).
  - wf_sample.
  - reflexivity.
  - reflexivity.
  - repeat (constructor; [done|]). constructor.
  - repeat (constructor; [done|]). constructor.
Defined.
